(** * Simplify CRM: data-access layer and activity domain logic

    A shallow embedding of the cache, the retry wrapper, the record
    mappers, the activity service and the custom-field helpers of the
    CRM, together with the properties its specification states.

    Conventions of the embedding:
    - JavaScript strings are [string], held as their UTF-8 bytes; where
      the source counts or rewrites code units ([safeId]) the bytes are
      read as code units ([JS.units]).  A missing cell or an
      [undefined] property is [None] where the source distinguishes it
      from [''], and [""] where the source only tests truthiness
      ([x || '']).
    - An object the source uses as a dictionary ([byType], the values
      and the result of a form) is the finite map of its own
      properties; what a read or a write under a name of
      [Object.prototype] comes to is in [PlainObject].
    - [Date.now()] is an integer number of milliseconds ([Z]).
    - The spreadsheet behind the Sheets API is a list of rows, each row
      a list of cells; a remote call that succeeds is a pure function
      on that list.  Failing remote calls are the business of
      [retryRequest], which is modelled on its own. *)

From Stdlib Require Import ZArith Lia List Bool Ascii String Permutation Sorted.
From Stdlib Require Import OrderedTypeEx.
From stdpp Require Import base option list gmap strings fin_maps pretty.

Local Open Scope string_scope.
Local Open Scope Z_scope.

(** ** JavaScript primitives used by the sources *)

Module JS.

(** [!!s] for a string: every string but the empty one is truthy. *)
Definition truthy (s : string) : bool := negb (s =? "")%string.

(** [o || dflt] for an optional string cell. *)
Definition or_default (o : option string) (dflt : string) : string :=
  match o with
  | Some s => if truthy s then s else dflt
  | None => dflt
  end.

(** [s || dflt] for a string. *)
Definition or_else (s dflt : string) : string :=
  if truthy s then s else dflt.

(** [a >= b], [a <= b] and [a < b] on strings: code-unit order. *)
Definition str_ge (a b : string) : bool := String.leb b a.
Definition str_le (a b : string) : bool := String.leb a b.
Definition str_lt (a b : string) : bool := String.ltb a b.

(** [String.prototype.toLowerCase], on the ASCII letters. *)
Definition lower_ascii (c : ascii) : ascii :=
  let n := nat_of_ascii c in
  if (Nat.leb 65 n && Nat.leb n 90)%bool then ascii_of_nat (n + 32) else c.

Fixpoint toLowerCase (s : string) : string :=
  match s with
  | EmptyString => EmptyString
  | String c s' => String (lower_ascii c) (toLowerCase s')
  end.

(** JavaScript numbers as far as the sources look at them: a finite
    value (an integer here), [NaN] and the two infinities. *)
Inductive number := Num (z : Z) | NaN | PosInfinity | NegInfinity.

(** [Number.isFinite] *)
Definition isFinite (n : number) : bool :=
  match n with Num _ => true | _ => false end.

(** The values a custom field may hold.  [VObject text] is an object
    or a function of the host, given by the text [String] prints for
    it. *)
Inductive value :=
| VUndefined
| VNull
| VStr (s : string)
| VNum (n : number)
| VBool (b : bool)
| VObject (text : string).

(** [String(v)] *)
Definition toString (v : value) : string :=
  match v with
  | VUndefined => "undefined"
  | VNull => "null"
  | VStr s => s
  | VNum (Num z) => pretty z
  | VNum NaN => "NaN"
  | VNum PosInfinity => "Infinity"
  | VNum NegInfinity => "-Infinity"
  | VBool true => "true"
  | VBool false => "false"
  | VObject text => text
  end.

(** [v ?? dflt] *)
Definition nullish_or (v : value) (dflt : value) : value :=
  match v with
  | VUndefined | VNull => dflt
  | _ => v
  end.

(** A text is held as its UTF-8 bytes, where the language has a
    sequence of UTF-16 code units.  [units c] is the number of code
    units that begin at the byte [c]: one at an ASCII byte, none at a
    continuation byte, one at the first byte of a sequence of two or
    three bytes, and two (a surrogate pair) at the first byte of a
    sequence of four. *)
Definition units (c : ascii) : nat :=
  let n := nat_of_ascii c in
  if Nat.ltb n 128 then 1%nat
  else if Nat.ltb n 192 then 0%nat
  else if Nat.ltb n 240 then 1%nat
  else 2%nat.

(** [s.length]: the number of code units of a text. *)
Fixpoint length (s : string) : nat :=
  match s with
  | EmptyString => 0%nat
  | String c rest => (units c + length rest)%nat
  end.

(** A text of ASCII characters only; [toLowerCase] above is the
    language's on such a text. *)
Fixpoint isAscii (s : string) : bool :=
  match s with
  | EmptyString => true
  | String c rest => Nat.ltb (nat_of_ascii c) 128 && isAscii rest
  end.

End JS.

(** ** Plain objects used as dictionaries *)

(** An object written [{}] has the properties it was given (its own)
    and, under every other name, those of [Object.prototype].  The
    own properties are held as a finite map; this module has what
    reading and writing under a name that the prototype knows comes
    to. *)
Module PlainObject.

(** The functions of [Object.prototype]: the name of the property and
    the name of the function it holds. *)
Definition inheritedFunctions : list (string * string) :=
  [ ("constructor", "Object");
    ("__defineGetter__", "__defineGetter__");
    ("__defineSetter__", "__defineSetter__");
    ("hasOwnProperty", "hasOwnProperty");
    ("__lookupGetter__", "__lookupGetter__");
    ("__lookupSetter__", "__lookupSetter__");
    ("isPrototypeOf", "isPrototypeOf");
    ("propertyIsEnumerable", "propertyIsEnumerable");
    ("toString", "toString");
    ("valueOf", "valueOf");
    ("toLocaleString", "toLocaleString") ].

(** [String(obj[key])] for a name that is not among the own
    properties: the text of the inherited function (as V8 prints a
    built-in one), the text of the prototype itself for [__proto__],
    and [None] for a name the prototype does not know, where the
    lookup gives [undefined]. *)
Definition inherited (key : string) : option string :=
  if (key =? "__proto__")%string then Some "[object Object]"
  else
    match List.find (fun p => (fst p =? key)%string) inheritedFunctions with
    | Some (_, name) => Some ("function " ++ name ++ "() { [native code] }")%string
    | None => None
    end.

(** [obj[key] = v] for a [v] that is not an object: under [__proto__]
    the setter of the prototype takes the value and drops it; under
    every other name the value becomes an own property. *)
Definition set {V : Type} (key : string) (v : V) (own : gmap string V)
    : gmap string V :=
  if (key =? "__proto__")%string then own else <[key := v]> own.

End PlainObject.

(** ** Configuration constants ([config.js]) *)

Module CONFIG.

(** [CONFIG.SESSION.CACHE_TTL]: five minutes, in milliseconds. *)
Definition CACHE_TTL : Z := 5 * 60 * 1000.
(** [CONFIG.API.MAX_RETRIES] and [CONFIG.API.RETRY_DELAY]. *)
Definition MAX_RETRIES : Z := 3.
Definition RETRY_DELAY : Z := 1000.

(** Modelled from the spec: [CONFIG.ACTIVITIES.STATUSES] is not part
    of the configuration file at hand; the three states are the ones
    the specification names, which are also the literal keys the
    activity code uses ([status || 'planned'], the [byStatus] object). *)
Definition PLANNED : string := "planned".
Definition COMPLETED : string := "completed".
Definition CANCELLED : string := "cancelled".

End CONFIG.

(** ** The cache of [DataService] *)

Module Cache.
Section WithValue.

Context {V : Type}.

(** An entry: [{ value, timestamp }]. *)
Record item := Item { value : V; timestamp : Z }.

(** [setCache(key, value)] at time [now = Date.now()]. *)
Definition setCache (key : string) (v : V) (now : Z)
    (cache : gmap string item) : gmap string item :=
  <[key := Item v now]> cache.

(** [getCache(key)] at time [now]: the result ([None] is the source's
    [null]) and the cache afterwards. *)
Definition getCache (key : string) (now : Z)
    (cache : gmap string item) : option V * gmap string item :=
  match cache !! key with
  | None => (None, cache)
  | Some it =>
      if now - timestamp it >? CONFIG.CACHE_TTL
      then (None, delete key cache)
      else (Some (value it), cache)
  end.

(** [clearCache(key = null)]; a falsy key clears everything. *)
Definition clearCache (key : option string)
    (cache : gmap string item) : gmap string item :=
  match key with
  | Some k => if JS.truthy k then delete k cache else ∅
  | None => ∅
  end.

End WithValue.
Arguments item : clear implicits.
End Cache.

(** ** The retry wrapper of [DataService] *)

Module Retry.
Section WithOperation.

(** The operation [fn] runs against some world [W]; it resolves with
    an [A] or rejects with an [E], and leaves a new world behind. *)
Context {W E A : Type}.

Inductive outcome := Resolved (a : A) | Rejected (e : E).

(** What the caller of [retryRequest] observes. *)
Inductive result := Returned (a : A) | Thrown (e : E) | ReturnedUndefined.

(** The effects of a run: the world, how often [fn] was invoked, and
    the delays handed to [setTimeout], oldest first. *)
Record run := Run { world : W; calls : nat; waits : list Z }.

Variable fn : W -> outcome * W.

(** The body of the [for] loop; [fuel] counts the iterations left
    before [i < maxRetries] fails. *)
Fixpoint retry_loop (maxRetries : Z) (fuel : nat) (i : Z) (st : run)
    : result * run :=
  match fuel with
  | O => (ReturnedUndefined, st)
  | S fuel' =>
      let (o, w') := fn (world st) in
      let st1 := Run w' (S (calls st)) (waits st) in
      match o with
      | Resolved a => (Returned a, st1)
      | Rejected e =>
          if i =? maxRetries - 1 then (Thrown e, st1)
          else
            let delay := CONFIG.RETRY_DELAY * 2 ^ i in
            retry_loop maxRetries fuel' (i + 1)
              (Run w' (S (calls st)) (waits st ++ [delay]))
      end
  end.

Definition retryRequest (maxRetries : Z) (st : run) : result * run :=
  retry_loop maxRetries (Z.to_nat maxRetries) 0 st.

(** The world after [j] invocations of [fn], and the outcome of the
    invocation that follows. *)
Fixpoint world_after (j : nat) (w : W) : W :=
  match j with
  | O => w
  | S j' => world_after j' (snd (fn w))
  end.

Definition invocation (j : nat) (w : W) : outcome :=
  fst (fn (world_after j w)).

End WithOperation.

(** The delay before the attempt that follows failed attempt [i]:
    [CONFIG.API.RETRY_DELAY * Math.pow(2, i)]. *)
Definition delay (i : nat) : Z := CONFIG.RETRY_DELAY * 2 ^ Z.of_nat i.

Arguments outcome : clear implicits.
Arguments result : clear implicits.
Arguments run : clear implicits.
End Retry.

(** ** Arrays *)

Module Array.
Section WithElement.

Context {A : Type}.

(** [Array.prototype.findIndex]; [None] is the source's [-1]. *)
Fixpoint findIndex (f : A -> bool) (l : list A) : option nat :=
  match l with
  | [] => None
  | x :: l' => if f x then Some O else S <$> findIndex f l'
  end.

(** [Array.prototype.sort] with a comparator: a stable sort.  The
    comparator returns a number; [x] stays in front of [y] when
    [cmp x y <= 0]. *)
Fixpoint insert_sorted (cmp : A -> A -> Z) (x : A) (l : list A) : list A :=
  match l with
  | [] => [x]
  | y :: l' =>
      if cmp x y <=? 0 then x :: y :: l' else y :: insert_sorted cmp x l'
  end.

Definition sort (cmp : A -> A -> Z) (l : list A) : list A :=
  foldr (insert_sorted cmp) [] l.

End WithElement.
End Array.

(** ** Activities: records, rows and the sheet *)

Module Activity.

Record t := Make {
  id : string;
  type : string;
  title : string;
  date : string;
  notes : string;
  companyId : string;
  contactId : string;
  status : string;
  createdBy : string;
  createdAt : string
}.

End Activity.

(** The [updates] object of [updateActivity]: a property that is absent
    is [None]. *)
Module Updates.

Record t := Make {
  id : option string;
  type : option string;
  title : option string;
  date : option string;
  notes : option string;
  companyId : option string;
  contactId : option string;
  status : option string;
  createdBy : option string;
  createdAt : option string
}.

Definition empty : t :=
  Make None None None None None None None None None None.

(** [{ status: s }] *)
Definition only_status (s : string) : t :=
  Make None None None None None None None (Some s) None None.

End Updates.

(** The metadata of an activity type in [CONFIG.ACTIVITIES.TYPES]. *)
Record ActivityType := {
  type_label : string;
  requiresTitle : bool;
  requiresDate : bool
}.

(** What a call reads from its surroundings: the signed-in user, the
    clock and the id generator.  Each history logger draws an id and
    reads the clock for itself, so an operation that also logs holds
    a reading of its own and one for each of the two loggers; nothing
    relates the readings to each other. *)
Record Env := {
  userEmail : string;         (* AuthService.getUserEmail() || '' *)
  userDisplayText : string;   (* AuthService.getUserDisplayText() || '' *)
  nowISO : string;            (* new Date().toISOString() in the operation *)
  freshId : string;           (* DataService.generateId() in the operation *)
  companyLogId : string;      (* generateId() in logCompanyHistory *)
  companyLogAt : string;      (* new Date().toISOString() in logCompanyHistory *)
  contactLogId : string;      (* generateId() in logContactHistory *)
  contactLogAt : string       (* new Date().toISOString() in logContactHistory *)
}.

(** The sheets an activity operation touches. *)
Record Store := {
  sheetActivities : list (list string);
  sheetHistoryCompanies : list (list string);
  sheetHistoryContacts : list (list string)
}.

Module DataService.

(** [row[i] || ''] *)
Definition cell (row : list string) (i : nat) : string :=
  JS.or_default (row !! i) "".

(** The row mapper of [loadActivities]. *)
Definition rowToActivity (row : list string) : Activity.t :=
  {| Activity.id := cell row 0;
     Activity.type := cell row 1;
     Activity.title := cell row 2;
     Activity.date := cell row 3;
     Activity.notes := cell row 4;
     Activity.companyId := cell row 5;
     Activity.contactId := cell row 6;
     Activity.status := JS.or_default (row !! 7%nat) "planned";
     Activity.createdBy := cell row 8;
     Activity.createdAt := cell row 9 |}.

(** [loadActivities]: every row of [A2:J] that has an id. *)
Definition loadActivities (st : Store) : list Activity.t :=
  List.filter (fun a => JS.truthy (Activity.id a))
    (map rowToActivity (sheetActivities st)).

(** [values[0]] of [saveActivity]. *)
Definition activityToRow (env : Env) (a : Activity.t) : list string :=
  [ JS.or_else (Activity.id a) (freshId env);
    JS.or_else (Activity.type a) "";
    JS.or_else (Activity.title a) "";
    JS.or_else (Activity.date a) "";
    JS.or_else (Activity.notes a) "";
    JS.or_else (Activity.companyId a) "";
    JS.or_else (Activity.contactId a) "";
    JS.or_else (Activity.status a) "planned";
    JS.or_else (Activity.createdBy a) (JS.or_else (userEmail env) "");
    JS.or_else (Activity.createdAt a) (nowISO env) ].

(** [values.update] on the one-row range of row [i] of [A2:J]: the
    row is overwritten; a row past the end of the data is reached
    over blank rows. *)
Definition updateRow (i : nat) (row : list string)
    (sheet : list (list string)) : list (list string) :=
  if (i <? length sheet)%nat then <[i := row]> sheet
  else sheet ++ replicate (i - length sheet) [] ++ [row].

(** [values.append]. *)
Definition appendRow (row : list string)
    (sheet : list (list string)) : list (list string) :=
  sheet ++ [row].

(** [values.clear] on the one-row range of row [i]: the row stays,
    its cells are blanked. *)
Definition clearRow (i : nat) (sheet : list (list string))
    : list (list string) :=
  <[i := []]> sheet.

(** [saveActivity(activity, rowIndex = null)]: the id written and the
    store afterwards. *)
Definition saveActivity (env : Env) (a : Activity.t) (rowIndex : option nat)
    (st : Store) : string * Store :=
  let values := activityToRow env a in
  let sheet :=
    match rowIndex with
    | Some i => updateRow i values (sheetActivities st)
    | None => appendRow values (sheetActivities st)
    end in
  (JS.or_else (Activity.id a) (freshId env),
   {| sheetActivities := sheet;
      sheetHistoryCompanies := sheetHistoryCompanies st;
      sheetHistoryContacts := sheetHistoryContacts st |}).

(** [deleteActivity(rowIndex)] *)
Definition deleteActivity (rowIndex : nat) (st : Store) : Store :=
  {| sheetActivities := clearRow rowIndex (sheetActivities st);
     sheetHistoryCompanies := sheetHistoryCompanies st;
     sheetHistoryContacts := sheetHistoryContacts st |}.

(** The row of a history entry, for the id and the clock reading the
    logger drew. *)
Definition historyRow (env : Env) (id timestamp : string)
    (ownerId type content meta : string) : list string :=
  [ id; ownerId; type; timestamp;
    JS.or_else (userDisplayText env) (JS.or_else (userEmail env) "");
    content; meta ].

(** [logCompanyHistory(companyId, type, content, meta)] *)
Definition logCompanyHistory (env : Env) (companyId type content meta : string)
    (st : Store) : Store :=
  if negb (JS.truthy companyId) then st
  else
    {| sheetActivities := sheetActivities st;
       sheetHistoryCompanies :=
         appendRow
           (historyRow env (companyLogId env) (companyLogAt env)
              companyId type content meta)
           (sheetHistoryCompanies st);
       sheetHistoryContacts := sheetHistoryContacts st |}.

(** [logContactHistory(contactId, type, content, meta)] *)
Definition logContactHistory (env : Env) (contactId type content meta : string)
    (st : Store) : Store :=
  if negb (JS.truthy contactId) then st
  else
    {| sheetActivities := sheetActivities st;
       sheetHistoryCompanies := sheetHistoryCompanies st;
       sheetHistoryContacts :=
         appendRow
           (historyRow env (contactLogId env) (contactLogAt env)
              contactId type content meta)
           (sheetHistoryContacts st) |}.

End DataService.

(** ** The activities service *)

(** The [filters] object of [applyFilters]. *)
Module Filters.

Record t := Make {
  type : option string;
  status : option string;
  dateFrom : option string;
  dateTo : option string
}.

End Filters.

(** The object returned by [getActivityStats]. *)
Module Stats.

(** What a property of [byType] holds: a count, or the text that
    [+ 1] makes of a function the object inherits. *)
Inductive tally := Count (n : nat) | Text (s : string).

(** [byStatus]: the three counters it is created with, and the names
    of the further own properties it has come to hold, each of them
    [NaN]. *)
Record byStatus_t := ByStatus {
  planned : nat;
  completed : nat;
  cancelled : nat;
  notNumbers : gset string
}.

(** [byType] and [byStatus] are plain objects, held by their own
    properties. *)
Record t := Make {
  total : nat;
  byType : gmap string tally;
  byStatus : byStatus_t;
  upcoming : nat;
  overdue : nat
}.

End Stats.

Module ActivitiesService.

(** The result of an operation that may throw [new Error(msg)]. *)
Inductive outcome (A : Type) := Ok (a : A) | Error (msg : string).
Arguments Ok {A} a.
Arguments Error {A} msg.

(** The object returned by [validateActivity]. *)
Record validation := { valid : bool; errors : list string }.

(** [if (wanted) arr = arr.filter(a => field(a) === wanted)]: an
    argument that is absent, [null] or [''] is falsy and leaves the
    array as it is. *)
Definition narrow (field : Activity.t -> string) (wanted : option string)
    (l : list Activity.t) : list Activity.t :=
  match wanted with
  | Some w =>
      if JS.truthy w then List.filter (fun a => (field a =? w)%string) l else l
  | None => l
  end.

Section WithHost.

(** [CONFIG.ACTIVITIES.TYPES[typeId]]: the table of activity types is
    not part of the configuration file at hand and is taken as given. *)
Variable TYPES : string -> option ActivityType.

(** [!isNaN(new Date(s).getTime())]: whether the host parses [s]. *)
Variable dateParses : string -> bool.

(** [a.localeCompare(b)] of the host. *)
Variable localeCompare : string -> string -> Z.

Definition getActivityType (typeId : string) : option ActivityType :=
  TYPES typeId.

Definition validateActivity (a : Activity.t) : validation :=
  let errors := [] in
  let errors :=
    match getActivityType (Activity.type a) with
    | None =>
        (errors ++ [("Nieprawidłowy typ aktywności: " ++ Activity.type a)%string])%list
    | Some activityType =>
        let errors :=
          if requiresTitle activityType && negb (JS.truthy (Activity.title a))
          then (errors ++ ["Tytuł jest wymagany"])%list else errors in
        if requiresDate activityType && negb (JS.truthy (Activity.date a))
        then (errors ++ ["Data jest wymagana"])%list else errors
    end in
  let errors :=
    if negb (JS.truthy (Activity.companyId a))
       && negb (JS.truthy (Activity.contactId a))
    then (errors ++ ["Aktywność musi być powiązana z firmą lub kontaktem"])%list
    else errors in
  let errors :=
    if JS.truthy (Activity.date a) && negb (dateParses (Activity.date a))
    then (errors ++ ["Nieprawidłowy format daty"])%list else errors in
  {| valid := (length errors =? 0)%nat; errors := errors |}.

(** [{ ...existing, ...updates, id: activityId }] *)
Definition merge (existing : Activity.t) (updates : Updates.t)
    (activityId : string) : Activity.t :=
  {| Activity.id := activityId;
     Activity.type := default (Activity.type existing) (Updates.type updates);
     Activity.title := default (Activity.title existing) (Updates.title updates);
     Activity.date := default (Activity.date existing) (Updates.date updates);
     Activity.notes := default (Activity.notes existing) (Updates.notes updates);
     Activity.companyId :=
       default (Activity.companyId existing) (Updates.companyId updates);
     Activity.contactId :=
       default (Activity.contactId existing) (Updates.contactId updates);
     Activity.status := default (Activity.status existing) (Updates.status updates);
     Activity.createdBy :=
       default (Activity.createdBy existing) (Updates.createdBy updates);
     Activity.createdAt :=
       default (Activity.createdAt existing) (Updates.createdAt updates) |}.

(** [logActivityUpdate(activity)] *)
Definition logActivityUpdate (env : Env) (a : Activity.t) (st : Store) : Store :=
  let typeLabel :=
    match getActivityType (Activity.type a) with
    | Some activityType => type_label activityType
    | None => Activity.type a
    end in
  let content :=
    "Zaktualizowano " ++ JS.toLowerCase typeLabel ++ ": " ++ Activity.title a in
  let meta := "activity_updated:" ++ Activity.id a in
  let st :=
    if JS.truthy (Activity.companyId a)
    then DataService.logCompanyHistory env (Activity.companyId a) "event" content meta st
    else st in
  if JS.truthy (Activity.contactId a)
  then DataService.logContactHistory env (Activity.contactId a) "event" content meta st
  else st.

(** [updateActivity(activityId, updates)] *)
Definition updateActivity (env : Env) (activityId : string) (updates : Updates.t)
    (st : Store) : outcome (Activity.t * Store) :=
  let activities := DataService.loadActivities st in
  match Array.findIndex (fun a => (Activity.id a =? activityId)%string) activities with
  | None => Error "Aktywność nie znaleziona"
  | Some index =>
      match activities !! index with
      | None => Error "Aktywność nie znaleziona"
      | Some existing =>
          let activity := merge existing updates activityId in
          let validation := validateActivity activity in
          if negb (valid validation)
          then Error (String.concat ", " (errors validation))
          else
            let st := snd (DataService.saveActivity env activity (Some index) st) in
            let st := logActivityUpdate env activity st in
            Ok (activity, st)
      end
  end.

(** [completeActivity(activityId)] and [cancelActivity(activityId)] *)
Definition completeActivity (env : Env) (activityId : string) (st : Store)
    : outcome (Activity.t * Store) :=
  updateActivity env activityId (Updates.only_status CONFIG.COMPLETED) st.

Definition cancelActivity (env : Env) (activityId : string) (st : Store)
    : outcome (Activity.t * Store) :=
  updateActivity env activityId (Updates.only_status CONFIG.CANCELLED) st.

(** [getUpcomingActivities(companyId = null, contactId = null)] over
    the loaded [activities]; [today] is the date part of the clock. *)
Definition getUpcomingActivities (today : string)
    (companyId contactId : option string) (activities : list Activity.t)
    : list Activity.t :=
  let filtered :=
    List.filter (fun a => (Activity.status a =? CONFIG.PLANNED)%string
                          && JS.str_ge (Activity.date a) today) activities in
  let filtered := narrow Activity.companyId companyId filtered in
  let filtered := narrow Activity.contactId contactId filtered in
  Array.sort (fun a b => localeCompare (Activity.date a) (Activity.date b)) filtered.

(** [getOverdueActivities()] *)
Definition getOverdueActivities (today : string) (activities : list Activity.t)
    : list Activity.t :=
  let overdue :=
    List.filter (fun a => (Activity.status a =? CONFIG.PLANNED)%string
                          && JS.str_lt (Activity.date a) today) activities in
  Array.sort (fun a b => localeCompare (Activity.date a) (Activity.date b)) overdue.

(** [applyFilters(activities, filters)] *)
Definition applyFilters (activities : list Activity.t) (filters : Filters.t)
    : list Activity.t :=
  let filtered := activities in
  let filtered := narrow Activity.type (Filters.type filters) filtered in
  let filtered := narrow Activity.status (Filters.status filters) filtered in
  let filtered :=
    match Filters.dateFrom filters with
    | Some dateFrom =>
        if JS.truthy dateFrom
        then List.filter (fun a => JS.str_ge (Activity.date a) dateFrom) filtered
        else filtered
    | None => filtered
    end in
  let filtered :=
    match Filters.dateTo filters with
    | Some dateTo =>
        if JS.truthy dateTo
        then List.filter (fun a => JS.str_le (Activity.date a) dateTo) filtered
        else filtered
    | None => filtered
    end in
  Array.sort (fun a b => localeCompare (Activity.date b) (Activity.date a)) filtered.

End WithHost.

(** One round of the [forEach] of [getActivityStats].

    [byType[type] = (byType[type] || 0) + 1]: a type the object has
    no property for and the prototype does not know starts at 1; a
    name the prototype knows reads as the inherited function, which
    [+ 1] turns into a text, and the write under [__proto__] is
    dropped.

    [if (byStatus[status] !== undefined) byStatus[status]++]: a status
    the prototype knows is not [undefined] either, and [++] leaves
    [NaN] under its name. *)
Definition countActivity (today : string) (stats : Stats.t) (a : Activity.t)
    : Stats.t :=
  let byType :=
    let next :=
      match Stats.byType stats !! Activity.type a with
      | Some (Stats.Count n) => Stats.Count (n + 1)
      | Some (Stats.Text s) =>
          if JS.truthy s then Stats.Text (s ++ "1") else Stats.Count 1
      | None =>
          match PlainObject.inherited (Activity.type a) with
          | Some text => Stats.Text (text ++ "1")
          | None => Stats.Count 1
          end
      end in
    PlainObject.set (Activity.type a) next (Stats.byType stats) in
  let bs := Stats.byStatus stats in
  let byStatus :=
    if (Activity.status a =? "planned")%string
    then Stats.ByStatus (S (Stats.planned bs)) (Stats.completed bs) (Stats.cancelled bs)
           (Stats.notNumbers bs)
    else if (Activity.status a =? "completed")%string
    then Stats.ByStatus (Stats.planned bs) (S (Stats.completed bs)) (Stats.cancelled bs)
           (Stats.notNumbers bs)
    else if (Activity.status a =? "cancelled")%string
    then Stats.ByStatus (Stats.planned bs) (Stats.completed bs) (S (Stats.cancelled bs))
           (Stats.notNumbers bs)
    else
      match PlainObject.inherited (Activity.status a) with
      | Some _ =>
          if (Activity.status a =? "__proto__")%string then bs
          else Stats.ByStatus (Stats.planned bs) (Stats.completed bs) (Stats.cancelled bs)
                 ({[Activity.status a]} ∪ Stats.notNumbers bs)
      | None => bs
      end in
  let '(upcoming, overdue) :=
    if (Activity.status a =? CONFIG.PLANNED)%string
    then
      if JS.str_ge (Activity.date a) today
      then (S (Stats.upcoming stats), Stats.overdue stats)
      else (Stats.upcoming stats, S (Stats.overdue stats))
    else (Stats.upcoming stats, Stats.overdue stats) in
  Stats.Make (Stats.total stats) byType byStatus upcoming overdue.

(** [getActivityStats(companyId = null, contactId = null)] *)
Definition getActivityStats (today : string)
    (companyId contactId : option string) (activities : list Activity.t)
    : Stats.t :=
  let filtered := activities in
  let filtered := narrow Activity.companyId companyId filtered in
  let filtered := narrow Activity.contactId contactId filtered in
  let stats :=
    Stats.Make (length filtered) ∅ (Stats.ByStatus 0 0 0 ∅) 0 0 in
  fold_left (countActivity today) filtered stats.

End ActivitiesService.

(** ** Custom-field definitions: the row mapper *)

Module CustomFieldDefinition.

Record t := Make {
  _rowIndex : nat;
  id : string;
  entityType : string;
  key : string;
  label : string;
  fieldType : string;
  optionsJson : string;
  required : bool;
  enabled : bool;
  order : Z;
  createdAt : string;
  updatedAt : string
}.

End CustomFieldDefinition.

Module CustomFields.
Section WithHost.

(** [Number(s)] on a string cell, as the host converts it. *)
Variable parseNumber : string -> JS.number.

(** The id that [generateId()] hands out for the row at an index. *)
Variable generateId : nat -> string.

(** [Number(cell)]; a missing cell is [undefined], which is [NaN]. *)
Definition toNumber (cell : option string) : JS.number :=
  match cell with
  | Some s => parseNumber s
  | None => JS.NaN
  end.

(** [(cell || '').toString().toLowerCase()] *)
Definition rawFlag (cell : option string) : string :=
  JS.toLowerCase (JS.or_default cell "").

(** [raw === 'true' || raw === '1' || raw === 'yes'] *)
Definition isYes (raw : string) : bool :=
  (raw =? "true")%string || (raw =? "1")%string || (raw =? "yes")%string.

(** The [required] column (G). *)
Definition decodeRequired (cell : option string) : bool :=
  let requiredRaw := rawFlag cell in
  isYes requiredRaw.

(** The [enabled] column (H). *)
Definition decodeEnabled (cell : option string) : bool :=
  let enabledRaw := rawFlag cell in
  if (enabledRaw =? "")%string then true else isYes enabledRaw.

(** The [order] column (I). *)
Definition decodeOrder (cell : option string) : Z :=
  match toNumber cell with
  | JS.Num z => z
  | _ => 0
  end.

(** The row mapper of [loadCustomFieldDefinitions]. *)
Definition rowToDefinition (idx : nat) (row : list string)
    : CustomFieldDefinition.t :=
  {| CustomFieldDefinition._rowIndex := idx;
     CustomFieldDefinition.id := JS.or_default (row !! 0%nat) (generateId idx);
     CustomFieldDefinition.entityType := JS.or_default (row !! 1%nat) "both";
     CustomFieldDefinition.key := JS.or_default (row !! 2%nat) "";
     CustomFieldDefinition.label := JS.or_default (row !! 3%nat) "";
     CustomFieldDefinition.fieldType := JS.or_default (row !! 4%nat) "text";
     CustomFieldDefinition.optionsJson := JS.or_default (row !! 5%nat) "";
     CustomFieldDefinition.required := decodeRequired (row !! 6%nat);
     CustomFieldDefinition.enabled := decodeEnabled (row !! 7%nat);
     CustomFieldDefinition.order := decodeOrder (row !! 8%nat);
     CustomFieldDefinition.createdAt := JS.or_default (row !! 9%nat) "";
     CustomFieldDefinition.updatedAt := JS.or_default (row !! 10%nat) "" |}.


End WithHost.
End CustomFields.

(** ** Custom-field forms *)

(** A definition as the form helpers receive it.  The two variants of
    the helpers read the caption and the field type under different
    property names, so a definition carries both pairs; a property
    that is absent is [None]. *)
Module FieldDef.

Record t := Make {
  key : string;
  name : option string;
  label : option string;
  type : option string;
  fieldType : option string;
  optionsJson : string;
  required : bool;
  enabled : bool;
  order : option Z
}.

End FieldDef.

(** The document tree of a mounted form, as far as the helpers write
    and read it: one form group per rendered field, each holding one
    control. *)
Module Dom.

Inductive tag :=
| Textarea
| Input (inputType : string)
| Select (options : list string).

Record control := Control {
  el_id : string;          (* id of the control *)
  el_tag : tag;
  el_value : string;       (* el.value *)
  el_checked : bool;       (* el.checked *)
  el_required : bool;
  cf_key : string;         (* data-cf-key of the group *)
  cf_type : string;        (* data-cf-type of the group *)
  label_text : string      (* caption, with " *" when required *)
}.

(** [containerEl.querySelector('#' + CSS.escape(inputId))]: the first
    control with that id; an empty id makes the selector ['#'], which
    the host rejects with a [SyntaxError] (the outer [None]). *)
Definition querySelectorById (container : list control) (inputId : string)
    : option (option control) :=
  if (inputId =? "")%string then None
  else Some (List.find (fun c => (el_id c =? inputId)%string) container).

End Dom.

Module CustomFieldsCommon.

(** [/[^a-zA-Z0-9_-]/] *)
Definition unsafe_char (c : ascii) : bool :=
  let n := nat_of_ascii c in
  negb ((Nat.leb 97 n && Nat.leb n 122) || (Nat.leb 65 n && Nat.leb n 90)
        || (Nat.leb 48 n && Nat.leb n 57) || Nat.eqb n 95 || Nat.eqb n 45).

Fixpoint underscores (n : nat) : string :=
  match n with
  | O => EmptyString
  | S n' => String "_" (underscores n')
  end.

(** [safeId(str)]: one [_] for every code unit outside the class.  The
    class holds ASCII characters only, so a character outside the
    ASCII range gives one [_] for each of its code units, whatever
    the number of its bytes. *)
Fixpoint safeId (str : string) : string :=
  match str with
  | EmptyString => EmptyString
  | String c rest =>
      if unsafe_char c
      then (underscores (JS.units c) ++ safeId rest)%string
      else String c (safeId rest)
  end.

(** [escapeAttr] as the parsed attribute shows it: the entities are
    undone by the parser, the line feeds stay replaced by spaces. *)
Fixpoint attrText (str : string) : string :=
  match str with
  | EmptyString => EmptyString
  | String c rest =>
      String (if Ascii.eqb c "010"%char then " "%char else c) (attrText rest)
  end.

(** [(t || 'text').toLowerCase()] *)
Definition kindOf (t : option string) : string :=
  JS.toLowerCase (JS.or_default t "text").

(** [(a.order ?? 0) - (b.order ?? 0)] *)
Definition byOrder (a b : FieldDef.t) : Z :=
  default 0 (FieldDef.order a) - default 0 (FieldDef.order b).

(** [values?.[key]], [values] being a plain object with the given own
    properties. *)
Definition valueOf (values : gmap string JS.value) (key : string) : JS.value :=
  match values !! key with
  | Some v => v
  | None =>
      match PlainObject.inherited key with
      | Some text => JS.VObject text
      | None => JS.VUndefined
      end
  end.

(** The control [buildField] writes for a definition; [caption] and
    [t] are the caption and type properties the variant reads. *)
Definition render (parseOptions : FieldDef.t -> list string)
    (def : FieldDef.t) (caption t : option string)
    (value : JS.value) (idPrefix : string) : Dom.control :=
  let key := FieldDef.key def in
  let inputId := (idPrefix ++ safeId key)%string in
  let labelText :=
    (default "" caption ++ (if FieldDef.required def then " *" else ""))%string in
  let v := JS.nullish_or value (JS.VStr "") in
  let control tg val checked req :=
    Dom.Control inputId tg val checked req
      (attrText key) (attrText (default "" t)) labelText in
  let kind := kindOf t in
  if (kind =? "textarea")%string then
    control Dom.Textarea (JS.toString v) false (FieldDef.required def)
  else if (kind =? "number")%string then
    control (Dom.Input "number") (attrText (JS.toString v)) false (FieldDef.required def)
  else if (kind =? "date")%string then
    control (Dom.Input "date") (attrText (JS.toString v)) false (FieldDef.required def)
  else if (kind =? "email")%string then
    control (Dom.Input "email") (attrText (JS.toString v)) false (FieldDef.required def)
  else if (kind =? "url")%string then
    control (Dom.Input "url") (attrText (JS.toString v)) false (FieldDef.required def)
  else if (kind =? "checkbox")%string then
    let checked :=
      match v with JS.VBool true => true | _ => false end
      || (JS.toLowerCase (JS.toString v) =? "true")%string
      || (JS.toString v =? "1")%string in
    control (Dom.Input "checkbox") "on" checked false
  else if (kind =? "select")%string then
    let options := parseOptions def in
    let selected :=
      if existsb (fun s => (JS.toString v =? s)%string) options
      then attrText (JS.toString v) else "" in
    control (Dom.Select ("" :: map attrText options)) selected false
      (FieldDef.required def)
  else
    control (Dom.Input "text") (attrText (JS.toString v)) false (FieldDef.required def).

(** The value [collect] reads off a control. *)
Definition readControl (parseNumber : string -> JS.number)
    (t : option string) (el : Dom.control) : JS.value :=
  let kind := kindOf t in
  if (kind =? "checkbox")%string then JS.VBool (Dom.el_checked el)
  else if (kind =? "number")%string then
    let raw := Dom.el_value el in
    if (raw =? "")%string then JS.VStr "" else JS.VNum (parseNumber raw)
  else JS.VStr (Dom.el_value el).

End CustomFieldsCommon.

(** What [collect] hands back: the own properties of the object of
    collected values (it starts as [{}]), or the [SyntaxError] of a
    selector the host rejects. *)
Inductive collected :=
| Collected (result : gmap string JS.value)
| SyntaxError.

(** The first variant of the helpers: it reads [def.name] and
    [def.type], and it skips the definitions that are not enabled. *)
Module CustomFieldsUI1.
Section WithHost.

(** [parseOptions(def)], with every option through [String]. *)
Variable parseOptions : FieldDef.t -> list string.
Variable parseNumber : string -> JS.number.

(** [buildField(def, value, idPrefix = 'cf_')]: the controls the
    returned markup holds, none for the empty string. *)
Definition buildField (def : FieldDef.t) (value : JS.value) (idPrefix : string)
    : list Dom.control :=
  if negb (FieldDef.enabled def) then []
  else
    [CustomFieldsCommon.render parseOptions def
       (FieldDef.name def) (FieldDef.type def) value idPrefix].

(** [mount(containerEl, defs, values = {}, idPrefix = 'cf_')]: the
    content of the container afterwards. *)
Definition mount (containerEl : option (list Dom.control))
    (defs : list FieldDef.t) (values : gmap string JS.value)
    (idPrefix : string) : option (list Dom.control) :=
  match containerEl with
  | None => None
  | Some _ =>
      let sorted :=
        Array.sort CustomFieldsCommon.byOrder
          (List.filter FieldDef.enabled defs) in
      Some (concat
              (map (fun def =>
                      buildField def
                        (CustomFieldsCommon.valueOf values (FieldDef.key def))
                        idPrefix)
                 sorted))
  end.

(** The [for ... of] loop of [collect]. *)
Fixpoint collect_loop (container : list Dom.control) (idPrefix : string)
    (defs : list FieldDef.t) (result : gmap string JS.value) : collected :=
  match defs with
  | [] => Collected result
  | def :: rest =>
      if negb (FieldDef.enabled def)
      then collect_loop container idPrefix rest result
      else
        let safeKey := CustomFieldsCommon.safeId (FieldDef.key def) in
        let inputId := (idPrefix ++ safeKey)%string in
        match Dom.querySelectorById container inputId with
        | None => SyntaxError
        | Some None => collect_loop container idPrefix rest result
        | Some (Some el) =>
            collect_loop container idPrefix rest
              (PlainObject.set (FieldDef.key def)
                 (CustomFieldsCommon.readControl parseNumber (FieldDef.type def) el)
                 result)
        end
  end.

(** [collect(containerEl, defs, idPrefix = 'cf_')] *)
Definition collect (containerEl : option (list Dom.control))
    (defs : list FieldDef.t) (idPrefix : string) : collected :=
  match containerEl with
  | None => Collected ∅
  | Some container => collect_loop container idPrefix defs ∅
  end.

End WithHost.
End CustomFieldsUI1.

(** The second variant of the helpers: it reads [def.label] and
    [def.fieldType], and it looks at no [enabled] flag. *)
Module CustomFieldsUI2.
Section WithHost.

Variable parseOptions : FieldDef.t -> list string.
Variable parseNumber : string -> JS.number.

(** [buildField(def, value, idPrefix = '')] *)
Definition buildField (def : FieldDef.t) (value : JS.value) (idPrefix : string)
    : list Dom.control :=
  [CustomFieldsCommon.render parseOptions def
     (FieldDef.label def) (FieldDef.fieldType def) value idPrefix].

(** [mount(containerEl, defs, values, idPrefix = '')] *)
Definition mount (defs : list FieldDef.t) (values : gmap string JS.value)
    (idPrefix : string) : list Dom.control :=
  let sorted := Array.sort CustomFieldsCommon.byOrder defs in
  concat
    (map (fun def =>
            buildField def
              (CustomFieldsCommon.valueOf values (FieldDef.key def))
              idPrefix)
       sorted).

Fixpoint collect_loop (container : list Dom.control) (idPrefix : string)
    (defs : list FieldDef.t) (result : gmap string JS.value) : collected :=
  match defs with
  | [] => Collected result
  | def :: rest =>
      let safeKey := CustomFieldsCommon.safeId (FieldDef.key def) in
      let inputId := (idPrefix ++ safeKey)%string in
      match Dom.querySelectorById container inputId with
      | None => SyntaxError
      | Some None => collect_loop container idPrefix rest result
      | Some (Some el) =>
          collect_loop container idPrefix rest
            (PlainObject.set (FieldDef.key def)
               (CustomFieldsCommon.readControl parseNumber
                  (FieldDef.fieldType def) el)
               result)
      end
  end.

(** [collect(containerEl, defs, idPrefix = '')] *)
Definition collect (container : list Dom.control)
    (defs : list FieldDef.t) (idPrefix : string) : collected :=
  collect_loop container idPrefix defs ∅.

End WithHost.
End CustomFieldsUI2.

(** ** Sample data for the worked instances *)

Module Sample.

(** An operation that is rejected twice and then resolves with 42; the
  world counts the invocations. *)
Definition flaky (w : nat) : Retry.outcome string nat * nat :=
if (w <? 2)%nat then (Retry.Rejected "503", S w) else (Retry.Resolved 42%nat, S w).

(** An operation that is always rejected, with the attempt in the error. *)
Definition broken (w : nat) : Retry.outcome nat nat * nat :=
(Retry.Rejected w, S w).

(** Modelled from the spec: the table [CONFIG.ACTIVITIES.TYPES] is not
    part of the configuration file at hand.  The four type ids are the
    ones the specification lists; here e-mails, calls and meetings
    ask for a title and a date, tasks for a title only. *)
Definition TYPES (typeId : string) : option ActivityType :=
  if (typeId =? "EMAIL")%string then Some (Build_ActivityType "Email" true true)
  else if (typeId =? "PHONE")%string then Some (Build_ActivityType "Telefon" true true)
  else if (typeId =? "MEETING")%string then Some (Build_ActivityType "Spotkanie" true true)
  else if (typeId =? "TASK")%string then Some (Build_ActivityType "Zadanie" true false)
  else None.

(** A host that parses the strings that start with an ISO date. *)
Definition isDigit (c : ascii) : bool :=
  (Nat.leb 48 (nat_of_ascii c) && Nat.leb (nat_of_ascii c) 57)%bool.

Definition dateParses (s : string) : bool :=
  match s with
  | String y1 (String y2 (String y3 (String y4 (String "-"
      (String m1 (String m2 (String "-" (String d1 (String d2 _))))))))) =>
      forallb isDigit [y1; y2; y3; y4; m1; m2; d1; d2]
  | _ => false
  end.

(** A host whose collation is the code-unit order. *)
Definition localeCompare (a b : string) : Z :=
  match String.compare a b with
  | Lt => -1
  | Eq => 0
  | Gt => 1
  end.

(** [{ type: 'EMAIL', title: '', companyId: '', contactId: '' }] *)
Definition unlinkedEmail : Activity.t :=
  Activity.Make "" "EMAIL" "" "" "" "" "" "" "" "".

(** A small activity sheet as [loadActivities] returns it. *)
Definition activities : list Activity.t :=
  [ Activity.Make "a1" "TASK" "Oferta" "2024-01-20" "" "c1" "" "planned" "" "";
    Activity.Make "a2" "EMAIL" "Umowa" "2024-01-05" "" "c1" "p1" "planned" "" "";
    Activity.Make "a3" "PHONE" "Telefon" "2024-01-10" "" "" "p1" "completed" "" "";
    Activity.Make "a4" "MEETING" "Demo" "2024-01-15" "" "c2" "" "planned" "" "";
    Activity.Make "a5" "TASK" "Faktura" "2024-02-01" "" "c2" "" "cancelled" "" "" ].

(** Two activities, the second of a type named like a property of
    [Object.prototype]. *)
Definition oddlyTyped : list Activity.t :=
  [ Activity.Make "b1" "EMAIL" "Umowa" "2024-01-05" "" "c1" "" "planned" "" "";
    Activity.Make "b2" "__proto__" "Notatka" "2024-01-06" "" "c1" "" "completed" "" "" ].

(** [{ dateFrom: '2024-01-01', dateTo: '2024-01-31', status: 'planned' }] *)
Definition januaryPlanned : Filters.t :=
  Filters.Make None (Some "planned") (Some "2024-01-01") (Some "2024-01-31").

(** A host [Number] on strings, as far as the samples need it: the
    empty string is 0, a run of decimal digits is its value, anything
    else is [NaN]. *)
Fixpoint digitsValue (acc : Z) (s : string) : option Z :=
  match s with
  | EmptyString => Some acc
  | String c rest =>
      if isDigit c
      then digitsValue (10 * acc + Z.of_nat (nat_of_ascii c - 48)) rest
      else None
  end.

Definition parseNumber (s : string) : JS.number :=
  match digitsValue 0 s with
  | Some z => JS.Num z
  | None => JS.NaN
  end.

Definition generateId (idx : nat) : string := "id_" ++ pretty idx.

(** No select options are needed by the samples. *)
Definition parseOptions (def : FieldDef.t) : list string := [].

(** A number field that has been switched off, and one that is on. *)
Definition disabledBudget : FieldDef.t :=
  FieldDef.Make "budget" (Some "Budget") (Some "Budget")
    (Some "number") (Some "number") "" false false (Some 1).

Definition enabledCity : FieldDef.t :=
  FieldDef.Make "city" (Some "City") (Some "City")
    (Some "text") (Some "text") "" false true (Some 0).

(** A signed-in user, a clock reading and a generated id. *)
Definition env : Env :=
  {| userEmail := "jan@example.com";
     userDisplayText := "Jan";
     nowISO := "2024-01-15T09:00:00.000Z";
     freshId := "id_1705309200000_k3j9x2m1q";
     companyLogId := "id_1705309200450_c4v5b6n7m";
     companyLogAt := "2024-01-15T09:00:00.450Z";
     contactLogId := "id_1705309200900_l1k2j3h4g";
     contactLogAt := "2024-01-15T09:00:00.900Z" |}.

(** The same user a minute later. *)
Definition envLater : Env :=
  {| userEmail := "jan@example.com";
     userDisplayText := "Jan";
     nowISO := "2024-01-15T09:01:00.000Z";
     freshId := "id_1705309260000_p0w8e7r6t";
     companyLogId := "id_1705309260450_z9x8c7v6b";
     companyLogAt := "2024-01-15T09:01:00.450Z";
     contactLogId := "id_1705309260900_q2w3e4r5t";
     contactLogAt := "2024-01-15T09:01:00.900Z" |}.

(** An activities sheet with a planned task and a completed call. *)
Definition store : Store :=
  {| sheetActivities :=
       [ ["a1"; "TASK"; "Oferta"; "2024-01-20"; ""; "c1"; ""; "planned";
          "jan@example.com"; "2024-01-02T08:00:00.000Z"];
         ["a3"; "PHONE"; "Telefon"; "2024-01-10"; ""; ""; "p1"; "completed";
          "jan@example.com"; "2024-01-03T08:00:00.000Z"] ];
     sheetHistoryCompanies := [];
     sheetHistoryContacts := [] |}.

End Sample.

(** ** The validation rules, as the specification words them *)

Module ValidationRules.
Section WithHost.

Variable TYPES : string -> option ActivityType.
Variable dateParses : string -> bool.

(** The type must match a known configured activity type. *)
Definition unknownType (a : Activity.t) : bool :=
  match TYPES (Activity.type a) with Some _ => false | None => true end.

(** If the type's metadata requires a title, the title must be non-empty. *)
Definition missingTitle (a : Activity.t) : bool :=
  match TYPES (Activity.type a) with
  | Some ty => requiresTitle ty && (Activity.title a =? "")%string
  | None => false
  end.

(** If it requires a date, the date must be non-empty. *)
Definition missingDate (a : Activity.t) : bool :=
  match TYPES (Activity.type a) with
  | Some ty => requiresDate ty && (Activity.date a =? "")%string
  | None => false
  end.

(** At least one of companyId and contactId must be set. *)
Definition missingLink (a : Activity.t) : bool :=
  (Activity.companyId a =? "")%string && (Activity.contactId a =? "")%string.

(** If a date is present it must parse to a valid timestamp. *)
Definition unparsableDate (a : Activity.t) : bool :=
  negb (Activity.date a =? "")%string && negb (dateParses (Activity.date a)).

(** The rules with the message each one reports, in reporting order. *)
Definition rules (a : Activity.t) : list (bool * string) :=
  [ (unknownType a, "Nieprawidłowy typ aktywności: " ++ Activity.type a);
    (missingTitle a, "Tytuł jest wymagany");
    (missingDate a, "Data jest wymagana");
    (missingLink a, "Aktywność musi być powiązana z firmą lub kontaktem");
    (unparsableDate a, "Nieprawidłowy format daty") ].

(** One message per violated rule. *)
Definition violations (a : Activity.t) : list string :=
  map snd (List.filter fst (rules a)).

End WithHost.
End ValidationRules.

(** ** The selections, as the specification words them *)

Module Selection.

(** An optional exact-match constraint: none when the wanted value is
    absent or empty. *)
Definition matches (wanted : option string) (s : string) : bool :=
  match wanted with
  | Some w => if JS.truthy w then (s =? w)%string else true
  | None => true
  end.




(** Planned, dated today or later, and linked as asked. *)
Definition upcoming (today : string) (companyId contactId : option string)
    (a : Activity.t) : bool :=
  (Activity.status a =? "planned")%string
  && String.leb today (Activity.date a)
  && matches companyId (Activity.companyId a)
  && matches contactId (Activity.contactId a).

(** Planned and dated before today. *)
Definition overdue (today : string) (a : Activity.t) : bool :=
  (Activity.status a =? "planned")%string
  && String.ltb (Activity.date a) today.

(** Ascending and descending by date, in the host's collation. *)
Definition ascending (localeCompare : string -> string -> Z)
    (a b : Activity.t) : Prop :=
  localeCompare (Activity.date a) (Activity.date b) <= 0.


End Selection.

(** ** Counting, as the specification words it *)

Module Counting.

(** The count a property of [byType] holds; a text is no count. *)
Definition counted (v : Stats.tally) : nat :=
  match v with
  | Stats.Count n => n
  | Stats.Text _ => 0%nat
  end.

(** The sum of the counts held in a [byType] object. *)
Definition sumCounts (byType : gmap string Stats.tally) : nat :=
  map_fold (fun _ v acc => (counted v + acc)%nat) 0%nat byType.

(** The count [byType] holds for a type, 0 when it holds none. *)
Definition countOf (byType : gmap string Stats.tally) (t : string) : nat :=
  default 0%nat (counted <$> byType !! t).

(** No type of the list is a name that [Object.prototype] knows. *)
Definition plainTypes (l : list Activity.t) : Prop :=
  Forall (fun a => PlainObject.inherited (Activity.type a) = None) l.

(** How many activities of a list satisfy a test. *)
Definition count (f : Activity.t -> bool) (l : list Activity.t) : nat :=
  length (List.filter f l).

(** The narrowing of [getActivityStats] to a company and a contact. *)
Definition narrowed (companyId contactId : option string)
    (activities : list Activity.t) : list Activity.t :=
  List.filter
    (fun a => Selection.matches companyId (Activity.companyId a)
              && Selection.matches contactId (Activity.contactId a))
    activities.

End Counting.

(** ** The stored record of an activity *)

Module Stored.

(** The record a fresh [loadActivities(false)] shows for an id: the
    first one that carries it, which is also the one [updateActivity]
    and [deleteActivity] pick with [findIndex]. *)
Definition lookup (activityId : string) (st : Store) : option Activity.t :=
  List.find (fun a => (Activity.id a =? activityId)%string)
    (DataService.loadActivities st).

(** The tests of [findIndex] and of the [filter] of [loadActivities],
    and the records of a list of rows. *)
Definition carries (activityId : string) (a : Activity.t) : bool :=
  (Activity.id a =? activityId)%string.

Definition hasId (a : Activity.t) : bool := JS.truthy (Activity.id a).

Definition loadRows (rows : list (list string)) : list Activity.t :=
  List.filter hasId (map DataService.rowToActivity rows).

(** The record that comes back from the sheet after [saveActivity]
    wrote an activity. *)
Definition written (env : Env) (a : Activity.t) : Activity.t :=
  DataService.rowToActivity (DataService.activityToRow env a).

(** The status the sheet shows after an update went through: the one
    the updates carry (an empty one is written as [planned]), or the
    one the record had. *)
Definition statusAfter (existing : Activity.t) (updates : Updates.t) : string :=
  match Updates.status updates with
  | Some s => JS.or_else s "planned"
  | None => Activity.status existing
  end.

End Stored.

(** ** The activities service: creating, deleting, listing *)

Module ActivityOperations.
Section WithHost.

Variable TYPES : string -> option ActivityType.
Variable dateParses : string -> bool.
Variable localeCompare : string -> string -> Z.

(** [typeLabel]: the label of a known type, the type id otherwise. *)
Definition typeLabel (a : Activity.t) : string :=
  match ActivitiesService.getActivityType TYPES (Activity.type a) with
  | Some activityType => type_label activityType
  | None => Activity.type a
  end.

(** The two [if (activity.companyId)] / [if (activity.contactId)] steps
    the three loggers share. *)
Definition logToBoth (env : Env) (a : Activity.t) (content meta : string)
    (st : Store) : Store :=
  let st :=
    if JS.truthy (Activity.companyId a)
    then DataService.logCompanyHistory env (Activity.companyId a) "event" content meta st
    else st in
  if JS.truthy (Activity.contactId a)
  then DataService.logContactHistory env (Activity.contactId a) "event" content meta st
  else st.

(** [logActivityToHistory(activity)] *)
Definition logActivityToHistory (env : Env) (a : Activity.t) (st : Store) : Store :=
  let content := (typeLabel a ++ ": " ++ Activity.title a)%string in
  logToBoth env a content ("activity_created:" ++ Activity.id a)%string st.

(** [logActivityDeletion(activity)] *)
Definition logActivityDeletion (env : Env) (a : Activity.t) (st : Store) : Store :=
  let content :=
    ("Usunięto " ++ JS.toLowerCase (typeLabel a) ++ ": " ++ Activity.title a)%string in
  logToBoth env a content ("activity_deleted:" ++ Activity.id a)%string st.

(** [createActivity(params)].  The parameters are the fields of the
    form: [type] and [title] are strings, an optional field that is
    left out is [''] (the code reads the optional ones through [||]
    and truthiness tests only); [id], [createdBy] and [createdAt] of
    the parameters are not read. *)
Definition createActivity (env : Env) (params : Activity.t) (st : Store)
    : ActivitiesService.outcome (Activity.t * Store) :=
  let validation := ActivitiesService.validateActivity TYPES dateParses params in
  if negb (ActivitiesService.valid validation)
  then ActivitiesService.Error (String.concat ", " (ActivitiesService.errors validation))
  else
    let activity :=
      {| Activity.id := freshId env;
         Activity.type := Activity.type params;
         Activity.title := Activity.title params;
         Activity.date := JS.or_else (Activity.date params) (nowISO env);
         Activity.notes := JS.or_else (Activity.notes params) "";
         Activity.companyId := JS.or_else (Activity.companyId params) "";
         Activity.contactId := JS.or_else (Activity.contactId params) "";
         Activity.status := JS.or_else (Activity.status params) CONFIG.PLANNED;
         Activity.createdBy := JS.or_else (userEmail env) "";
         Activity.createdAt := nowISO env |} in
    let st := snd (DataService.saveActivity env activity None st) in
    let st := logActivityToHistory env activity st in
    ActivitiesService.Ok (activity, st).

(** [deleteActivity(activityId)] *)
Definition deleteActivity (env : Env) (activityId : string) (st : Store)
    : ActivitiesService.outcome Store :=
  let activities := DataService.loadActivities st in
  match Array.findIndex (fun a => (Activity.id a =? activityId)%string) activities with
  | None => ActivitiesService.Error "Aktywność nie znaleziona"
  | Some index =>
      match activities !! index with
      | None => ActivitiesService.Error "Aktywność nie znaleziona"
      | Some activity =>
          let st := DataService.deleteActivity index st in
          let st := logActivityDeletion env activity st in
          ActivitiesService.Ok st
      end
  end.



End WithHost.
End ActivityOperations.

(** ** Text helpers of the custom-field forms *)

Module CustomFieldsText.

(** [s.replace(/c/g, by)] for a single character [c]. *)
Fixpoint replaceAll (c : ascii) (by_ : string) (s : string) : string :=
  match s with
  | EmptyString => EmptyString
  | String x rest =>
      if Ascii.eqb x c then (by_ ++ replaceAll c by_ rest)%string
      else String x (replaceAll c by_ rest)
  end.

(** The five characters [escape] rewrites. *)
Definition amp : ascii := "&"%char.
Definition lt : ascii := "<"%char.
Definition gt : ascii := ">"%char.
Definition quot : ascii := "034"%char.
Definition apos : ascii := "'"%char.
Definition lineFeed : ascii := "010"%char.

(** [escape(str)] on a string. *)
Definition escape (str : string) : string :=
  replaceAll apos "&#039;"
    (replaceAll quot "&quot;"
       (replaceAll gt "&gt;"
          (replaceAll lt "&lt;"
             (replaceAll amp "&amp;" str)))).

(** [escapeAttr(str)] *)
Definition escapeAttr (str : string) : string :=
  replaceAll lineFeed " " (escape str).

(** Whether a character occurs in a string. *)
Fixpoint occurs (c : ascii) (s : string) : bool :=
  match s with
  | EmptyString => false
  | String x rest => Ascii.eqb x c || occurs c rest
  end.

(** Every character of a string passes a test. *)
Fixpoint allChars (f : ascii -> bool) (s : string) : bool :=
  match s with
  | EmptyString => true
  | String x rest => f x && allChars f rest
  end.

End CustomFieldsText.

(** ** Custom-field definitions: saving and disabling *)

Module CustomFieldStore.
Section WithHost.

Variable parseNumber : string -> JS.number.
Variable generateId : nat -> string.

(** [values[0]] of [saveCustomFieldDefinition(definition, rowIndex)].
    The definition is one that carries its [enabled] flag and its
    [order] (as every loaded definition does), so the [??] defaults
    of the source do not come into play. *)
Definition definitionToRow (env : Env) (definition : CustomFieldDefinition.t)
    (isUpdate : bool) : list string :=
  let now := nowISO env in
  let id := JS.or_else (CustomFieldDefinition.id definition) (freshId env) in
  let createdAt :=
    JS.or_else (CustomFieldDefinition.createdAt definition)
      (if isUpdate then "" else now) in
  [ id;
    JS.or_else (CustomFieldDefinition.entityType definition) "both";
    JS.or_else (CustomFieldDefinition.key definition) "";
    JS.or_else (CustomFieldDefinition.label definition) "";
    JS.or_else (CustomFieldDefinition.fieldType definition) "text";
    JS.or_else (CustomFieldDefinition.optionsJson definition) "";
    if CustomFieldDefinition.required definition then "TRUE" else "FALSE";
    if CustomFieldDefinition.enabled definition then "TRUE" else "FALSE";
    pretty (CustomFieldDefinition.order definition);
    createdAt;
    now ].




End WithHost.

End CustomFieldStore.

(** ** Tags, tag relations and history entries *)

Module Tag.

Record t := Make {
  id : string;
  name : string;
  color : string;
  description : string;
  createdBy : string;
  createdAt : string
}.

End Tag.

Module TagRelation.

Record t := Make {
  id : string;
  companyId : string;
  tagId : string;
  assignedBy : string;
  assignedAt : string
}.

End TagRelation.

Module Company.

Record t := Make {
  id : string;
  name : string;
  industry : string;
  notes : string;
  website : string;
  phone : string;
  city : string;
  country : string;
  domain : string
}.

End Company.

Module HistoryEntry.

Record t := Make {
  id : string;
  companyId : string;
  type : string;
  timestamp : string;
  user : string;
  content : string;
  meta : string
}.

End HistoryEntry.

Module CompanyData.

(** The row mapper of [loadCompanyTagRelations]. *)
Definition rowToRelation (row : list string) : TagRelation.t :=
  {| TagRelation.id := DataService.cell row 0;
     TagRelation.companyId := DataService.cell row 1;
     TagRelation.tagId := DataService.cell row 2;
     TagRelation.assignedBy := DataService.cell row 3;
     TagRelation.assignedAt := DataService.cell row 4 |}.

(** [loadCompanyTagRelations(companyId = null)] on the rows of [A2:E]. *)
Definition loadCompanyTagRelations (companyId : option string)
    (rows : list (list string)) : list TagRelation.t :=
  let relations :=
    List.filter
      (fun r => JS.truthy (TagRelation.companyId r) && JS.truthy (TagRelation.tagId r))
      (map rowToRelation rows) in
  match companyId with
  | Some c =>
      if JS.truthy c
      then List.filter (fun r => (TagRelation.companyId r =? c)%string) relations
      else relations
  | None => relations
  end.

(** [assignTagToCompany(companyId, tagId)]: the id of the new relation
    and the rows afterwards. *)
Definition assignTagToCompany (env : Env) (companyId tagId : string)
    (rows : list (list string)) : string * list (list string) :=
  let values :=
    [ freshId env; companyId; tagId; JS.or_else (userEmail env) ""; nowISO env ] in
  (freshId env, DataService.appendRow values rows).

(** [getCompanyTags(companyId, allTags, allRelations)] *)
Definition getCompanyTags (companyId : string) (allTags : list Tag.t)
    (allRelations : list TagRelation.t) : list Tag.t :=
  let relations :=
    List.filter (fun r => (TagRelation.companyId r =? companyId)%string) allRelations in
  omap (fun r => List.find (fun t => (Tag.id t =? TagRelation.tagId r)%string) allTags)
    relations.

(** [getCompaniesByTag(tagId, allCompanies, allRelations)] *)
Definition getCompaniesByTag (tagId : string) (allCompanies : list Company.t)
    (allRelations : list TagRelation.t) : list Company.t :=
  let relations :=
    List.filter (fun r => (TagRelation.tagId r =? tagId)%string) allRelations in
  let companyIds := map TagRelation.companyId relations in
  List.filter
    (fun c => existsb (fun i => (i =? Company.id c)%string) companyIds)
    allCompanies.

(** The row mapper of [loadCompanyHistory]. *)
Definition rowToHistory (row : list string) : HistoryEntry.t :=
  {| HistoryEntry.id := DataService.cell row 0;
     HistoryEntry.companyId := DataService.cell row 1;
     HistoryEntry.type := JS.or_default (row !! 2%nat) "event";
     HistoryEntry.timestamp := DataService.cell row 3;
     HistoryEntry.user := DataService.cell row 4;
     HistoryEntry.content := DataService.cell row 5;
     HistoryEntry.meta := DataService.cell row 6 |}.

(** [loadCompanyHistory(companyId = null)] on the rows of [A2:G]. *)
Definition loadCompanyHistory (companyId : option string)
    (rows : list (list string)) : list HistoryEntry.t :=
  let history :=
    List.filter (fun h => JS.truthy (HistoryEntry.companyId h)) (map rowToHistory rows) in
  match companyId with
  | Some c =>
      if JS.truthy c
      then List.filter (fun h => (HistoryEntry.companyId h =? c)%string) history
      else history
  | None => history
  end.

End CompanyData.

(** ** The cache keys of the text-generation service *)

Module AIService.

(** [ToInt32]: a number as a signed 32-bit integer. *)
Definition toInt32 (z : Z) : Z := (z + 2 ^ 31) mod 2 ^ 32 - 2 ^ 31.

(** [hash << 5]: the operand as a signed 32-bit integer, shifted by
    five bits, and the result as a signed 32-bit integer again. *)
Definition shiftLeft5 (hash : Z) : Z := toInt32 (toInt32 hash * 2 ^ 5).

(** One round of the loop of [simpleHash] for the code unit [char]:
    [hash = ((hash << 5) - hash) + char; hash = hash & hash]. *)
Definition hashStep (hash char : Z) : Z :=
  let hash := (shiftLeft5 hash - hash) + char in
  toInt32 hash.

(** The number [simpleHash] holds after the loop over the code units
    of the string. *)
Definition hashValue (str : list Z) : Z := fold_left hashStep str 0.

(** The polynomial [s[0]*31^(n-1) + ... + s[n-1]] over the integers,
    by Horner's rule. *)
Definition polynomial (str : list Z) : Z :=
  fold_left (fun h c => 31 * h + c) str 0.

(** [Number.prototype.toString(36)] on an integer. *)
Definition digit36 (d : Z) : ascii :=
  if d <? 10 then ascii_of_nat (48 + Z.to_nat d) else ascii_of_nat (87 + Z.to_nat d).

Fixpoint digits36 (fuel : nat) (n : Z) (acc : string) : string :=
  match fuel with
  | O => acc
  | S fuel' =>
      let acc := String (digit36 (n mod 36)) acc in
      if n / 36 =? 0 then acc else digits36 fuel' (n / 36) acc
  end.

Definition toString36 (z : Z) : string :=
  let fuel := S (Z.to_nat (Z.log2 (Z.abs z))) in
  if z <? 0 then ("-" ++ digits36 fuel (- z) "")%string
  else digits36 fuel z "".

(** [simpleHash(str)] on the code units of [str]. *)
Definition simpleHash (str : list Z) : string := toString36 (hashValue str).

(** The code units of a text in the ASCII range. *)
Definition codeUnits (s : string) : list Z :=
  map (fun c => Z.of_nat (nat_of_ascii c)) (list_ascii_of_string s).

(** [generateCacheKey(prompt, systemPrompt, temperature)]; the
    temperature comes as the text the template prints for it. *)
Definition generateCacheKey (prompt systemPrompt temperature : list Z) : string :=
  let combined := (systemPrompt ++ [124] ++ prompt ++ [124] ++ temperature)%list in
  simpleHash combined.

End AIService.

(** ** More sample data *)

Module SampleMore.

(** The parameters of a new task for company [c1]. *)
Definition newTask : Activity.t :=
  Activity.Make "" "TASK" "Nowe zadanie" "" "" "c1" "" "" "" "".

(** A sheet whose first activity was deleted: its row is blank. *)
Definition storeAfterDelete : Store :=
  {| sheetActivities :=
       [ [];
         ["b2"; "EMAIL"; "Umowa"; "2024-01-05"; ""; "c1"; "p1"; "planned";
          "jan@example.com"; "2024-01-02T08:00:00.000Z"];
         ["a3"; "PHONE"; "Telefon"; "2024-01-10"; ""; ""; "p1"; "completed";
          "jan@example.com"; "2024-01-03T08:00:00.000Z"] ];
     sheetHistoryCompanies := [];
     sheetHistoryContacts := [] |}.


(** Two companies and the relations that tag them. *)
Definition companies : list Company.t :=
  [ Company.Make "c1" "Acme" "" "" "" "" "" "" "acme.example";
    Company.Make "c2" "Globex" "" "" "" "" "" "" "globex.example" ].

Definition relations : list TagRelation.t :=
  [ TagRelation.Make "r1" "c2" "t1" "" "";
    TagRelation.Make "r2" "c2" "t1" "" "";
    TagRelation.Make "r3" "c1" "t2" "" "" ].

Definition tags : list Tag.t :=
  [ Tag.Make "t1" "VIP" "#3b82f6" "" "" "" ].

End SampleMore.

(** ** Values a form hands back *)

Module FormValues.

(** An id prefix that [buildField] can write into the markup as it is
    (the id is not escaped there): non-empty, and made of letters,
    digits, [_] and [-], like the default ['cf_']. *)
Definition safePrefix (idPrefix : string) : bool :=
  negb (idPrefix =? "")%string
  && CustomFieldsText.allChars (fun c => negb (CustomFieldsCommon.unsafe_char c)) idPrefix.

(** A text without control characters.  The host writes such a text
    into the [value] of a text input and reads it back unchanged;
    line breaks it would strip. *)
Definition plain (s : string) : bool :=
  CustomFieldsText.allChars (fun c => Nat.leb 32 (nat_of_ascii c)) s.


End FormValues.

(** A form of three enabled fields and one that is switched off. *)
Module SampleForm.

Definition budget : FieldDef.t :=
  FieldDef.Make "budget" (Some "Budget") (Some "Budget")
    (Some "number") (Some "number") "" true true (Some 2).

Definition agreed : FieldDef.t :=
  FieldDef.Make "agreed" (Some "Agreed") (Some "Agreed")
    (Some "Checkbox") (Some "Checkbox") "" false true (Some 1).

Definition legacy : FieldDef.t :=
  FieldDef.Make "legacy code" (Some "Legacy") (Some "Legacy")
    (Some "text") (Some "text") "" false false None.

Definition defs : list FieldDef.t :=
  [budget; legacy; Sample.enabledCity; agreed].

(** Two text fields whose keys differ only in a character that
    [safeId] replaces. *)
Definition netPrice : FieldDef.t :=
  FieldDef.Make "net price" (Some "Net price") (Some "Net price")
    (Some "text") (Some "text") "" false true (Some 1).

Definition net_price : FieldDef.t :=
  FieldDef.Make "net_price" (Some "Net price (old)") (Some "Net price (old)")
    None None "" false true (Some 1).

Definition prices : gmap string JS.value :=
  <["net price" := JS.VStr "100"]> (<["net_price" := JS.VStr "95"]> ∅).

Definition values : gmap string JS.value :=
  <["budget" := JS.VNum (JS.Num 500)]>
    (<["agreed" := JS.VBool true]>
       (<["city" := JS.VStr "Gdynia"]>
          (<["legacy code" := JS.VStr "x"]> ∅))).

End SampleForm.

(** ** The response cache of [AIService] *)

Module AIContent.

(** An entry of [responseCache]: [{ response, timestamp }]. *)
Record cached := Cached { response : string; timestamp : Z }.

(** A request as a provider receives it; the texts are given by their
    code units, the temperature by the text the key template prints
    for it. *)
Record request := Request {
  provider : string;
  prompt : list Z;
  systemPrompt : list Z;
  temperature : list Z
}.

(** What a provider call comes to: a response, or an error thrown. *)
Inductive answer := Answered (response : string) | Failed (message : string).

(** The static fields of the class, and the requests sent so far.
    [API_KEY] is a string; [null] is the empty one, both are falsy. *)
Record service := Service {
  API_KEY : string;
  PROVIDER : string;
  enabled : bool;
  responseCache : gmap string cached;
  requests : list request
}.

(** [CACHE_TTL]: ten minutes, in milliseconds. *)
Definition CACHE_TTL : Z := 10 * 60 * 1000.

Inductive result := Returned (response : string) | Thrown (message : string).

Definition withCache (svc : service) (cache : gmap string cached) : service :=
  Service (API_KEY svc) (PROVIDER svc) (enabled svc) cache (requests svc).

(** The provider the [if ... else if ... else] chain picks. *)
Definition chosen (svc : service) : string :=
  if (PROVIDER svc =? "openai")%string then "openai"
  else if (PROVIDER svc =? "llm7")%string then "llm7"
  else "gemini".

Section WithProviders.

(** What the provider answers to a request, given how many requests
    were sent before it. *)
Variable reply : request -> nat -> answer.

(** [callOpenAI], [callLLM7] or [callGemini], as chosen. *)
Definition call (svc : service) (prompt systemPrompt temperature : list Z)
    : answer * service :=
  let rq := Request (chosen svc) prompt systemPrompt temperature in
  (reply rq (length (requests svc)),
   Service (API_KEY svc) (PROVIDER svc) (enabled svc) (responseCache svc)
     (requests svc ++ [rq])).

(** [generateContent(prompt, systemPrompt, temperature, forceRefresh)];
    [now] is the clock when the cache is looked at and [later] the
    clock when the response is stored. *)
Definition generateContent (prompt systemPrompt temperature : list Z)
    (forceRefresh : bool) (now later : Z) (svc : service) : result * service :=
  if negb (enabled svc) || negb (JS.truthy (API_KEY svc)) then
    (Thrown "AI is not enabled. Please check settings.", svc)
  else
    let cacheKey := AIService.generateCacheKey prompt systemPrompt temperature in
    let looked : option string * service :=
      if negb forceRefresh then
        match responseCache svc !! cacheKey with
        | Some entry =>
            if now - timestamp entry <? CACHE_TTL
            then (Some (response entry), svc)
            else (None, withCache svc (delete cacheKey (responseCache svc)))
        | None => (None, svc)
        end
      else (None, svc) in
    match looked with
    | (Some r, svc) => (Returned r, svc)
    | (None, svc) =>
        match call svc prompt systemPrompt temperature with
        | (Failed e, svc) => (Thrown e, svc)
        | (Answered r, svc) =>
            (Returned r, withCache svc (<[cacheKey := Cached r later]> (responseCache svc)))
        end
    end.

End WithProviders.

End AIContent.

Module SampleAI.

(** A provider that answers every request with the request's number. *)
Definition reply (rq : AIContent.request) (n : nat) : AIContent.answer :=
  AIContent.Answered ("answer " ++ pretty n).

Definition service : AIContent.service :=
  AIContent.Service "key" "gemini" true ∅ [].

End SampleAI.

(** * Properties *)

(** ** Truthiness and defaults *)

Lemma truthy_true s : JS.truthy s = true <-> s <> "".
Proof.
  unfold JS.truthy. rewrite negb_true_iff, <- not_true_iff_false, String.eqb_eq.
  reflexivity.
Qed.

Lemma truthy_false s : JS.truthy s = false <-> s = "".
Proof.
  unfold JS.truthy. rewrite negb_false_iff, String.eqb_eq. reflexivity.
Qed.

Lemma or_else_truthy s d : JS.truthy s = true -> JS.or_else s d = s.
Proof. unfold JS.or_else. intros ->. reflexivity. Qed.

Lemma or_else_empty s : JS.or_else s "" = s.
Proof.
  unfold JS.or_else. destruct (JS.truthy s) eqn:Hs; [reflexivity|].
  apply truthy_false in Hs. congruence.
Qed.

Lemma or_else_truthy_default s d :
  JS.truthy d = true -> JS.truthy (JS.or_else s d) = true.
Proof. unfold JS.or_else. destruct (JS.truthy s) eqn:Hs; auto. Qed.

(** ** [Array.prototype.sort] *)

Section SortFacts.

Context {A : Type} (cmp : A -> A -> Z).

Lemma insert_sorted_perm x l :
  Permutation (Array.insert_sorted cmp x l) (x :: l).
Proof.
  induction l as [|y l IH]; simpl; [reflexivity|].
  destruct (cmp x y <=? 0); [reflexivity|].
  rewrite IH. apply perm_swap.
Qed.

Lemma sort_perm l : Permutation (Array.sort cmp l) l.
Proof.
  induction l as [|x l IH]; simpl; [reflexivity|].
  unfold Array.sort in *. simpl. rewrite insert_sorted_perm.
  apply perm_skip, IH.
Qed.

Lemma sort_In x l : In x (Array.sort cmp l) <-> In x l.
Proof.
  split; apply Permutation_in;
    [apply sort_perm | symmetry; apply sort_perm].
Qed.

(** A comparator that is consistent in the sense the language asks
    of [sort]: total and transitive. *)
Hypothesis cmp_total : forall x y, cmp x y <= 0 \/ cmp y x <= 0.
Hypothesis cmp_trans : forall x y z, cmp x y <= 0 -> cmp y z <= 0 -> cmp x z <= 0.

Lemma insert_sorted_sorted x l :
  StronglySorted (fun a b => cmp a b <= 0) l ->
  StronglySorted (fun a b => cmp a b <= 0) (Array.insert_sorted cmp x l).
Proof.
  induction 1 as [|y l Hs IH Hall]; simpl.
  - constructor; constructor.
  - destruct (Z.leb_spec (cmp x y) 0) as [Hle|Hgt].
    + constructor; [constructor; assumption|].
      constructor; [assumption|].
      eapply Forall_impl; [exact Hall|].
      intros z Hz. simpl in Hz. eapply cmp_trans; eassumption.
    + constructor; [exact IH|].
      rewrite Forall_forall. intros z Hz. apply list_elem_of_In in Hz.
      apply (Permutation_in _ (insert_sorted_perm x l)) in Hz.
      destruct Hz as [<-|Hz].
      * destruct (cmp_total x y); [lia|assumption].
      * rewrite Forall_forall in Hall. apply Hall. apply list_elem_of_In, Hz.
Qed.

Lemma sort_sorted l :
  StronglySorted (fun a b => cmp a b <= 0) (Array.sort cmp l).
Proof.
  induction l as [|x l IH]; [constructor|].
  unfold Array.sort in *. simpl. apply insert_sorted_sorted, IH.
Qed.

End SortFacts.

(** ** The cache *)

(** C2 as the specification states it fails at the boundary: an entry
    whose age is exactly the TTL is still served, and stays cached. *)
Lemma cache_hit_at_ttl :
  ~ (forall (key : string) (v : nat) (t now : Z) (cache : gmap string (Cache.item nat)),
        now - t >= CONFIG.CACHE_TTL ->
        Cache.getCache key now (Cache.setCache key v t cache)
        = (None, delete key cache)).
Proof.
  intros H.
  specialize (H "activities" 7%nat 0 300000 ∅).
  assert (Hage : 300000 - 0 >= CONFIG.CACHE_TTL) by (vm_compute; discriminate).
  specialize (H Hage).
  unfold Cache.getCache, Cache.setCache in H.
  rewrite lookup_insert_eq in H. simpl in H. discriminate H.
Qed.

(** C2, amended: after [setCache] at time [t], [getCache] at time [now]
    returns the stored value and keeps the entry as long as
    [now - t <= TTL]; it returns a miss and evicts the entry once
    [now - t > TTL]; a key that was never set is a miss. *)
Theorem cache_get_after_set (V : Type) (key : string) (v : V) (t now : Z)
    (cache : gmap string (Cache.item V)) :
  (now - t <= CONFIG.CACHE_TTL ->
     Cache.getCache key now (Cache.setCache key v t cache)
     = (Some v, Cache.setCache key v t cache))
  /\ (now - t > CONFIG.CACHE_TTL ->
     Cache.getCache key now (Cache.setCache key v t cache) = (None, delete key cache)
     /\ delete key cache !! key = None)
  /\ (cache !! key = None -> Cache.getCache key now cache = (None, cache)).
Proof.
  unfold Cache.getCache, Cache.setCache.
  rewrite lookup_insert_eq. simpl.
  split; [|split].
  - intros Hage. destruct (Z.gtb_spec (now - t) CONFIG.CACHE_TTL); [lia|reflexivity].
  - intros Hage. destruct (Z.gtb_spec (now - t) CONFIG.CACHE_TTL); [|lia].
    rewrite delete_insert_eq. split; [reflexivity|apply lookup_delete_eq].
  - intros ->. reflexivity.
Qed.

Lemma cache_get_after_set_witness :
  Cache.getCache "companies" 300000 (Cache.setCache "companies" 5%nat 0 ∅)
  = (Some 5%nat, Cache.setCache "companies" 5%nat 0 ∅)
  /\ Cache.getCache "companies" 300001 (Cache.setCache "companies" 5%nat 0 ∅)
     = (None, delete "companies" ∅)
  /\ Cache.getCache "companies" 1 (∅ : gmap string (Cache.item nat)) = (None, ∅).
Proof.
  pose proof (cache_get_after_set nat "companies" 5%nat 0 300000 ∅) as (H1 & _ & H3).
  pose proof (cache_get_after_set nat "companies" 5%nat 0 300001 ∅) as (_ & H2 & _).
  split; [|split].
  - apply H1. vm_compute. discriminate.
  - apply H2. vm_compute. reflexivity.
  - apply (proj2 (proj2 (cache_get_after_set nat "companies" 5%nat 0 1 ∅))).
    apply lookup_empty.
Defined.

(** ** The retry wrapper *)

Section RetryFacts.

Context {W E A : Type} (fn : W -> Retry.outcome E A * W).

Lemma invocation_shift j w :
  Retry.invocation fn (S j) w = Retry.invocation fn j (snd (fn w)).
Proof. reflexivity. Qed.

(** [k] failures, none of them on the last attempt, then a success. *)
Lemma retry_loop_success (maxRetries : Z) (a : A) :
  forall (k fuel i : nat) (st : Retry.run W),
    (k < fuel)%nat ->
    Z.of_nat i + Z.of_nat k < maxRetries ->
    (forall j, (j < k)%nat ->
       exists e, Retry.invocation fn j (Retry.world st) = Retry.Rejected e) ->
    Retry.invocation fn k (Retry.world st) = Retry.Resolved a ->
    Retry.retry_loop fn maxRetries fuel (Z.of_nat i) st
    = (Retry.Returned a,
       Retry.Run (Retry.world_after fn (S k) (Retry.world st))
         (Retry.calls st + S k)
         (Retry.waits st ++ map Retry.delay (seq i k))).
Proof.
  induction k as [|k IH]; intros fuel i st Hfuel Hi Hfail Hok;
    (destruct fuel as [|fuel]; [lia|]); simpl.
  - unfold Retry.invocation in Hok. simpl in Hok.
    destruct (fn (Retry.world st)) as [o w'] eqn:Hfn. simpl in Hok. subst o.
    rewrite app_nil_r, Nat.add_1_r. reflexivity.
  - destruct (Hfail 0%nat ltac:(lia)) as [e He].
    unfold Retry.invocation in He. simpl in He.
    destruct (fn (Retry.world st)) as [o w'] eqn:Hfn. simpl in He. subst o.
    destruct (Z.eqb_spec (Z.of_nat i) (maxRetries - 1)) as [Heq|_]; [lia|].
    replace (Z.of_nat i + 1) with (Z.of_nat (S i)) by lia.
    rewrite (IH fuel (S i)); simpl.
    + rewrite <- app_assoc. simpl. f_equal. f_equal. lia.
    + lia.
    + lia.
    + intros j Hj. destruct (Hfail (S j) ltac:(lia)) as [e' He'].
      exists e'. rewrite invocation_shift, Hfn in He'. exact He'.
    + rewrite invocation_shift, Hfn in Hok. exact Hok.
Qed.

(** [k] failures followed by a failure on the last attempt. *)
Lemma retry_loop_exhausted (maxRetries : Z) (e : E) :
  forall (k fuel i : nat) (st : Retry.run W),
    (k < fuel)%nat ->
    Z.of_nat i + Z.of_nat k = maxRetries - 1 ->
    (forall j, (j < k)%nat ->
       exists e', Retry.invocation fn j (Retry.world st) = Retry.Rejected e') ->
    Retry.invocation fn k (Retry.world st) = Retry.Rejected e ->
    Retry.retry_loop fn maxRetries fuel (Z.of_nat i) st
    = (Retry.Thrown e,
       Retry.Run (Retry.world_after fn (S k) (Retry.world st))
         (Retry.calls st + S k)
         (Retry.waits st ++ map Retry.delay (seq i k))).
Proof.
  induction k as [|k IH]; intros fuel i st Hfuel Hi Hfail Hlast;
    (destruct fuel as [|fuel]; [lia|]); simpl.
  - unfold Retry.invocation in Hlast. simpl in Hlast.
    destruct (fn (Retry.world st)) as [o w'] eqn:Hfn. simpl in Hlast. subst o.
    destruct (Z.eqb_spec (Z.of_nat i) (maxRetries - 1)) as [_|Hne]; [|lia].
    rewrite app_nil_r, Nat.add_1_r. reflexivity.
  - destruct (Hfail 0%nat ltac:(lia)) as [e0 He0].
    unfold Retry.invocation in He0. simpl in He0.
    destruct (fn (Retry.world st)) as [o w'] eqn:Hfn. simpl in He0. subst o.
    destruct (Z.eqb_spec (Z.of_nat i) (maxRetries - 1)) as [Heq|_]; [lia|].
    replace (Z.of_nat i + 1) with (Z.of_nat (S i)) by lia.
    rewrite (IH fuel (S i)); simpl.
    + rewrite <- app_assoc. simpl. f_equal. f_equal. lia.
    + lia.
    + lia.
    + intros j Hj. destruct (Hfail (S j) ltac:(lia)) as [e' He'].
      exists e'. rewrite invocation_shift, Hfn in He'. exact He'.
    + rewrite invocation_shift, Hfn in Hlast. exact Hlast.
Qed.

(** C3: with [N >= 1] attempts allowed, an operation that fails on its
    first [k < N] invocations and succeeds on the next one makes
    [retryRequest] return that value after exactly [k + 1]
    invocations, having waited [RETRY_DELAY * 2^i] after failed
    attempt [i] for [i = 0 .. k-1]; an operation that fails on all
    [N] invocations makes it throw the [N]-th failure, after [N]
    invocations and the waits after attempts [0 .. N-2]. *)
Theorem retryRequest_spec (N : nat) (st : Retry.run W) :
  (1 <= N)%nat ->
  (forall (k : nat) (a : A),
     (k < N)%nat ->
     (forall j, (j < k)%nat ->
        exists e, Retry.invocation fn j (Retry.world st) = Retry.Rejected e) ->
     Retry.invocation fn k (Retry.world st) = Retry.Resolved a ->
     Retry.retryRequest fn (Z.of_nat N) st
     = (Retry.Returned a,
        Retry.Run (Retry.world_after fn (k + 1) (Retry.world st))
          (Retry.calls st + (k + 1))
          (Retry.waits st
             ++ map (fun i => CONFIG.RETRY_DELAY * 2 ^ Z.of_nat i) (seq 0 k))))
  /\ (forall (e : E),
     (forall j, (j < N - 1)%nat ->
        exists e', Retry.invocation fn j (Retry.world st) = Retry.Rejected e') ->
     Retry.invocation fn (N - 1) (Retry.world st) = Retry.Rejected e ->
     Retry.retryRequest fn (Z.of_nat N) st
     = (Retry.Thrown e,
        Retry.Run (Retry.world_after fn N (Retry.world st))
          (Retry.calls st + N)
          (Retry.waits st
             ++ map (fun i => CONFIG.RETRY_DELAY * 2 ^ Z.of_nat i) (seq 0 (N - 1))))).
Proof.
  intros HN. unfold Retry.retryRequest. rewrite Nat2Z.id. split.
  - intros k a Hk Hfail Hok.
    replace (k + 1)%nat with (S k) by lia.
    apply (retry_loop_success (Z.of_nat N) a k N 0%nat st); auto. lia.
  - intros e Hfail Hlast.
    pose proof (retry_loop_exhausted (Z.of_nat N) e (N - 1) N 0%nat st) as H.
    replace (S (N - 1)) with N in H by lia.
    apply H; auto; lia.
Qed.

End RetryFacts.

Lemma retryRequest_spec_witness :
  Retry.retryRequest Sample.flaky CONFIG.MAX_RETRIES (Retry.Run 0%nat 0%nat [])
  = (Retry.Returned 42%nat, Retry.Run 3%nat 3%nat [1000; 2000])
  /\ Retry.retryRequest Sample.broken CONFIG.MAX_RETRIES (Retry.Run 0%nat 0%nat [])
     = (Retry.Thrown 2%nat, Retry.Run 3%nat 3%nat [1000; 2000]).
Proof.
  split.
  - apply (proj1 (retryRequest_spec Sample.flaky 3 (Retry.Run 0%nat 0%nat []) ltac:(lia))
             2%nat 42%nat).
    + lia.
    + intros j Hj. exists "503".
      destruct j as [|[|j]]; [reflexivity|reflexivity|lia].
    + reflexivity.
  - apply (proj2 (retryRequest_spec Sample.broken 3 (Retry.Run 0%nat 0%nat []) ltac:(lia))
             2%nat).
    + intros j Hj. destruct j as [|[|j]]; [exists 0%nat|exists 1%nat|lia]; reflexivity.
    + reflexivity.
Defined.

(** ** Validation *)

Section ValidationFacts.

Variable TYPES : string -> option ActivityType.
Variable dateParses : string -> bool.

Lemma validateActivity_errors (a : Activity.t) :
  ActivitiesService.errors (ActivitiesService.validateActivity TYPES dateParses a)
  = ValidationRules.violations TYPES dateParses a.
Proof.
  unfold ActivitiesService.validateActivity, ValidationRules.violations,
    ValidationRules.rules, ValidationRules.unknownType,
    ValidationRules.missingTitle, ValidationRules.missingDate,
    ValidationRules.missingLink, ValidationRules.unparsableDate,
    ActivitiesService.getActivityType, JS.truthy.
  cbv zeta. cbn [ActivitiesService.errors].
  destruct (TYPES (Activity.type a)) as [ty|];
    [destruct (requiresTitle ty), (requiresDate ty)|];
    destruct (Activity.title a =? "")%string,
             (Activity.date a =? "")%string,
             (Activity.companyId a =? "")%string,
             (Activity.contactId a =? "")%string,
             (dateParses (Activity.date a));
    reflexivity.
Qed.

Lemma validateActivity_valid (a : Activity.t) :
  ActivitiesService.valid (ActivitiesService.validateActivity TYPES dateParses a) = true
  <-> ActivitiesService.errors (ActivitiesService.validateActivity TYPES dateParses a) = [].
Proof.
  unfold ActivitiesService.validateActivity. cbv zeta.
  cbn [ActivitiesService.valid ActivitiesService.errors].
  rewrite Nat.eqb_eq. apply length_zero_iff_nil.
Qed.

(** C4: [validateActivity] reports one message per violated rule, all
    of them together; [valid] holds exactly when no message is
    reported; and an activity of a title-requiring type with an empty
    title and neither a company nor a contact gets at least two
    messages, the one for the title and the one for the link. *)
Theorem validateActivity_collects (a : Activity.t) :
  let v := ActivitiesService.validateActivity TYPES dateParses a in
  ActivitiesService.errors v = ValidationRules.violations TYPES dateParses a
  /\ length (ActivitiesService.errors v)
     = length (List.filter fst (ValidationRules.rules TYPES dateParses a))
  /\ (forall rule msg,
        In (rule, msg) (ValidationRules.rules TYPES dateParses a) ->
        rule = true -> In msg (ActivitiesService.errors v))
  /\ (ActivitiesService.valid v = true <-> ActivitiesService.errors v = [])
  /\ (forall ty,
        TYPES (Activity.type a) = Some ty ->
        requiresTitle ty = true ->
        Activity.title a = "" ->
        Activity.companyId a = "" ->
        Activity.contactId a = "" ->
        (2 <= length (ActivitiesService.errors v))%nat
        /\ In "Tytuł jest wymagany" (ActivitiesService.errors v)
        /\ In "Aktywność musi być powiązana z firmą lub kontaktem"
             (ActivitiesService.errors v)).
Proof.
  intros v. subst v. rewrite validateActivity_errors.
  split; [reflexivity|]. split; [|split; [|split]].
  - unfold ValidationRules.violations. apply length_map.
  - intros rule msg Hin Hrule. unfold ValidationRules.violations.
    apply in_map_iff. exists (rule, msg). split; [reflexivity|].
    apply filter_In. split; [exact Hin|exact Hrule].
  - rewrite <- validateActivity_errors. apply validateActivity_valid.
  - intros ty Hty Hreq Htitle Hcompany Hcontact.
    unfold ValidationRules.violations, ValidationRules.rules,
      ValidationRules.unknownType, ValidationRules.missingTitle,
      ValidationRules.missingDate, ValidationRules.missingLink.
    rewrite Hty, Hreq, Htitle, Hcompany, Hcontact.
    cbn [String.eqb andb List.filter fst snd map].
    destruct (requiresDate ty && (Activity.date a =? ""))%string,
             (ValidationRules.unparsableDate dateParses a);
      cbn [List.filter fst snd map length In]; repeat split; auto; lia.
Qed.

End ValidationFacts.

Lemma validateActivity_collects_witness :
  let v := ActivitiesService.validateActivity Sample.TYPES Sample.dateParses
             Sample.unlinkedEmail in
  (2 <= length (ActivitiesService.errors v))%nat
  /\ In "Tytuł jest wymagany" (ActivitiesService.errors v)
  /\ In "Aktywność musi być powiązana z firmą lub kontaktem"
       (ActivitiesService.errors v).
Proof.
  apply (proj2 (proj2 (proj2 (proj2
           (validateActivity_collects Sample.TYPES Sample.dateParses
              Sample.unlinkedEmail))))
           (Build_ActivityType "Email" true true));
    reflexivity.
Defined.

(** ** Filtering and ordering of activities *)

Lemma filter_filter {A : Type} (f g : A -> bool) (l : list A) :
  List.filter g (List.filter f l) = List.filter (fun x => f x && g x) l.
Proof.
  induction l as [|x l IH]; simpl; [reflexivity|].
  destruct (f x); simpl; [destruct (g x)|]; rewrite ?IH; reflexivity.
Qed.

Lemma filter_true {A : Type} (l : list A) : List.filter (fun _ => true) l = l.
Proof. induction l as [|x l IH]; simpl; [reflexivity|]. rewrite IH. reflexivity. Qed.

Lemma narrow_filter (field : Activity.t -> string) (wanted : option string)
    (l : list Activity.t) :
  ActivitiesService.narrow field wanted l
  = List.filter (fun a => Selection.matches wanted (field a)) l.
Proof.
  unfold ActivitiesService.narrow, Selection.matches.
  destruct wanted as [w|]; [destruct (JS.truthy w)|];
    auto using filter_true, eq_sym.
Qed.

Lemma matches_spec (wanted : option string) (s : string) :
  Selection.matches wanted s = true
  <-> (forall w, wanted = Some w -> w <> "" -> s = w).
Proof.
  unfold Selection.matches. destruct wanted as [w|].
  - destruct (JS.truthy w) eqn:Hw.
    + apply truthy_true in Hw. rewrite String.eqb_eq. split.
      * intros -> w' [= <-] _. reflexivity.
      * intros H. apply H; auto.
    + apply truthy_false in Hw. split; [|reflexivity].
      intros _ w' [= <-] Hne. contradiction.
  - split; [|reflexivity]. intros _ w' [=].
Qed.




Lemma getUpcomingActivities_unfold (localeCompare : string -> string -> Z)
    (today : string) (companyId contactId : option string)
    (activities : list Activity.t) :
  ActivitiesService.getUpcomingActivities localeCompare today companyId contactId
    activities
  = Array.sort (fun a b => localeCompare (Activity.date a) (Activity.date b))
      (List.filter (Selection.upcoming today companyId contactId) activities).
Proof.
  unfold ActivitiesService.getUpcomingActivities. cbv zeta. f_equal.
  rewrite !narrow_filter, !filter_filter. apply List.filter_ext. intros a.
  unfold Selection.upcoming, JS.str_ge, CONFIG.PLANNED.
  rewrite !andb_assoc. reflexivity.
Qed.

Section OrderingFacts.

Variable localeCompare : string -> string -> Z.

(** The host's [localeCompare] is a consistent comparator: it orders
    all strings totally. *)
Hypothesis localeCompare_total :
  forall a b, localeCompare a b <= 0 \/ localeCompare b a <= 0.
Hypothesis localeCompare_trans :
  forall a b c,
    localeCompare a b <= 0 -> localeCompare b c <= 0 -> localeCompare a c <= 0.

(** C5: [getUpcomingActivities] returns exactly the planned activities
    dated today or later (narrowed to the company and contact asked
    for, when given), in ascending date order; [getOverdueActivities]
    returns exactly the planned activities dated before today, in
    ascending date order. *)
Theorem upcoming_overdue_spec (today : string)
    (companyId contactId : option string) (activities : list Activity.t) :
  let up := ActivitiesService.getUpcomingActivities localeCompare today
              companyId contactId activities in
  let od := ActivitiesService.getOverdueActivities localeCompare today activities in
  Permutation up (List.filter (Selection.upcoming today companyId contactId) activities)
  /\ (forall a, In a up <->
        In a activities
        /\ Activity.status a = "planned"
        /\ JS.str_ge (Activity.date a) today = true
        /\ (forall c, companyId = Some c -> c <> "" -> Activity.companyId a = c)
        /\ (forall c, contactId = Some c -> c <> "" -> Activity.contactId a = c))
  /\ StronglySorted (Selection.ascending localeCompare) up
  /\ Permutation od (List.filter (Selection.overdue today) activities)
  /\ (forall a, In a od <->
        In a activities
        /\ Activity.status a = "planned"
        /\ JS.str_lt (Activity.date a) today = true)
  /\ StronglySorted (Selection.ascending localeCompare) od.
Proof.
  intros up od. subst up od. rewrite getUpcomingActivities_unfold.
  unfold ActivitiesService.getOverdueActivities. cbv zeta.
  split; [apply sort_perm|]. split.
  { intros a. rewrite sort_In, filter_In.
    unfold Selection.upcoming, JS.str_ge.
    rewrite !andb_true_iff, !matches_spec, String.eqb_eq. tauto. }
  split.
  { apply (sort_sorted (fun a b => localeCompare (Activity.date a) (Activity.date b)));
      intros; eauto. }
  split; [apply sort_perm|]. split.
  { intros a. rewrite sort_In, filter_In.
    unfold JS.str_lt, CONFIG.PLANNED.
    rewrite !andb_true_iff, String.eqb_eq. tauto. }
  apply (sort_sorted (fun a b => localeCompare (Activity.date a) (Activity.date b)));
    intros; eauto.
Qed.


End OrderingFacts.

(** The code-unit collation is a consistent comparator. *)
Lemma sample_localeCompare_total a b :
  Sample.localeCompare a b <= 0 \/ Sample.localeCompare b a <= 0.
Proof.
  unfold Sample.localeCompare. rewrite (String.compare_antisym a b).
  destruct (String.compare b a); simpl; lia.
Qed.

Lemma sample_localeCompare_le a b :
  Sample.localeCompare a b <= 0 <-> a = b \/ String_as_OT.lt a b.
Proof.
  unfold Sample.localeCompare.
  destruct (String.compare a b) eqn:Hc.
  - apply String.compare_eq_iff in Hc. intuition lia.
  - apply String_as_OT.cmp_lt in Hc. intuition lia.
  - split; [lia|]. intros [->|Hlt].
    + assert (String.compare b b = Eq) as Hbb by (apply String_as_OT.cmp_eq; reflexivity).
      congruence.
    + apply String_as_OT.cmp_lt in Hlt. unfold String_as_OT.cmp in Hlt. congruence.
Qed.

Lemma sample_localeCompare_trans a b c :
  Sample.localeCompare a b <= 0 -> Sample.localeCompare b c <= 0 ->
  Sample.localeCompare a c <= 0.
Proof.
  rewrite !sample_localeCompare_le. intros [->|Hab] [->|Hbc]; auto.
  right. eapply String_as_OT.lt_trans; eassumption.
Qed.

Lemma upcoming_overdue_spec_witness :
  let up := ActivitiesService.getUpcomingActivities Sample.localeCompare
              "2024-01-15" (Some "c2") None Sample.activities in
  let od := ActivitiesService.getOverdueActivities Sample.localeCompare
              "2024-01-15" Sample.activities in
  Permutation up
    (List.filter (Selection.upcoming "2024-01-15" (Some "c2") None) Sample.activities)
  /\ StronglySorted (Selection.ascending Sample.localeCompare) up
  /\ Permutation od (List.filter (Selection.overdue "2024-01-15") Sample.activities)
  /\ StronglySorted (Selection.ascending Sample.localeCompare) od.
Proof.
  pose proof (upcoming_overdue_spec Sample.localeCompare
                sample_localeCompare_total sample_localeCompare_trans
                "2024-01-15" (Some "c2") None Sample.activities) as H.
  cbv zeta in H. destruct H as (H1 & _ & H3 & H4 & _ & H6).
  cbv zeta. repeat split; assumption.
Defined.


(** The worked instance of the specification: the planned activities
    of January 2024, newest first. *)
Example applyFilters_january :
  map Activity.id
    (ActivitiesService.applyFilters Sample.localeCompare
       Sample.activities Sample.januaryPlanned)
  = ["a1"; "a4"; "a2"].
Proof. vm_compute. reflexivity. Qed.

Example getUpcomingActivities_mid_january :
  map Activity.id
    (ActivitiesService.getUpcomingActivities Sample.localeCompare "2024-01-15"
       None None Sample.activities)
  = ["a4"; "a1"]
  /\ map Activity.id
       (ActivitiesService.getOverdueActivities Sample.localeCompare "2024-01-15"
          Sample.activities)
     = ["a2"].
Proof. vm_compute. split; reflexivity. Qed.

(** ** Statistics *)

Lemma sumCounts_empty : Counting.sumCounts ∅ = 0%nat.
Proof. unfold Counting.sumCounts. apply map_fold_empty. Qed.

Lemma sumCounts_bump (m : gmap string Stats.tally) (k : string) :
  Counting.sumCounts (<[k := Stats.Count (Counting.countOf m k + 1)]> m)
  = S (Counting.sumCounts m).
Proof.
  unfold Counting.sumCounts, Counting.countOf.
  destruct (m !! k) as [v|] eqn:Hk; simpl.
  - rewrite <- (insert_delete_eq m k).
    rewrite map_fold_insert_L; [|intros; lia|apply lookup_delete_eq].
    rewrite (map_fold_delete_L _ _ k v m); [simpl; lia|intros; lia|exact Hk].
  - rewrite map_fold_insert_L; [simpl; lia|intros; lia|exact Hk].
Qed.

Lemma count_cons (f : Activity.t -> bool) (a : Activity.t) (l : list Activity.t) :
  Counting.count f (a :: l)
  = ((if f a then 1 else 0) + Counting.count f l)%nat.
Proof. unfold Counting.count. simpl. destruct (f a); reflexivity. Qed.

(** What one round of the [forEach] adds to the counters. *)
Lemma countActivity_step (today : string) (s0 : Stats.t) (a : Activity.t) :
  let s := ActivitiesService.countActivity today s0 a in
  let one (b : bool) : nat := if b then 1%nat else 0%nat in
  Stats.total s = Stats.total s0
  /\ Stats.planned (Stats.byStatus s)
     = (Stats.planned (Stats.byStatus s0)
        + one (Activity.status a =? "planned")%string)%nat
  /\ Stats.completed (Stats.byStatus s)
     = (Stats.completed (Stats.byStatus s0)
        + one (Activity.status a =? "completed")%string)%nat
  /\ Stats.cancelled (Stats.byStatus s)
     = (Stats.cancelled (Stats.byStatus s0)
        + one (Activity.status a =? "cancelled")%string)%nat
  /\ Stats.upcoming s
     = (Stats.upcoming s0
        + one ((Activity.status a =? "planned")%string
               && JS.str_ge (Activity.date a) today))%nat
  /\ Stats.overdue s
     = (Stats.overdue s0
        + one ((Activity.status a =? "planned")%string
               && negb (JS.str_ge (Activity.date a) today)))%nat.
Proof.
  cbv zeta. unfold ActivitiesService.countActivity, CONFIG.PLANNED.
  destruct (Activity.status a =? "planned")%string eqn:Hp.
  - apply String.eqb_eq in Hp.
    assert ((Activity.status a =? "completed")%string = false) as ->
      by (rewrite Hp; reflexivity).
    assert ((Activity.status a =? "cancelled")%string = false) as ->
      by (rewrite Hp; reflexivity).
    destruct (JS.str_ge (Activity.date a) today); simpl; repeat split; lia.
  - destruct (Activity.status a =? "completed")%string eqn:Hc.
    + apply String.eqb_eq in Hc.
      assert ((Activity.status a =? "cancelled")%string = false) as ->
        by (rewrite Hc; reflexivity).
      simpl; repeat split; lia.
    + destruct (Activity.status a =? "cancelled")%string; simpl;
        [repeat split; lia|].
      destruct (PlainObject.inherited (Activity.status a));
        [destruct (Activity.status a =? "__proto__")%string|];
        simpl; repeat split; lia.
Qed.

(** What one round adds to [byType] for a type that the prototype does
    not know, when the object holds counts only. *)
Lemma countActivity_step_type (today : string) (s0 : Stats.t) (a : Activity.t) :
  PlainObject.inherited (Activity.type a) = None ->
  (forall t s, Stats.byType s0 !! t <> Some (Stats.Text s)) ->
  let s := ActivitiesService.countActivity today s0 a in
  Stats.byType s
  = <[Activity.type a :=
        Stats.Count (Counting.countOf (Stats.byType s0) (Activity.type a) + 1)]>
      (Stats.byType s0)
  /\ (forall t s', Stats.byType s !! t <> Some (Stats.Text s')).
Proof.
  intros Hplain Hcounts. cbv zeta.
  assert (Hproto : (Activity.type a =? "__proto__")%string = false).
  { destruct (String.eqb_spec (Activity.type a) "__proto__") as [E|]; [|reflexivity].
    rewrite E in Hplain. discriminate Hplain. }
  assert (Hby :
    Stats.byType (ActivitiesService.countActivity today s0 a)
    = <[Activity.type a :=
          Stats.Count (Counting.countOf (Stats.byType s0) (Activity.type a) + 1)]>
        (Stats.byType s0)).
  { unfold ActivitiesService.countActivity. cbv zeta.
    destruct (if (Activity.status a =? CONFIG.PLANNED)%string then _ else _) as [u o].
    cbn [Stats.byType]. unfold PlainObject.set, Counting.countOf.
    rewrite Hproto, Hplain.
    destruct (Stats.byType s0 !! Activity.type a) as [[n|x]|] eqn:Hk;
      [reflexivity| |reflexivity].
    exfalso. exact (Hcounts _ _ Hk). }
  split; [exact Hby|].
  intros t s' Ht. rewrite Hby in Ht.
  destruct (String.eqb_spec (Activity.type a) t) as [E|Hne].
  - rewrite <- E, lookup_insert_eq in Ht. discriminate Ht.
  - rewrite lookup_insert_ne in Ht by assumption. exact (Hcounts _ _ Ht).
Qed.

Lemma countOf_bump (m : gmap string Stats.tally) (k t : string) :
  Counting.countOf (<[k := Stats.Count (Counting.countOf m k + 1)]> m) t
  = (Counting.countOf m t + (if (k =? t)%string then 1 else 0))%nat.
Proof.
  unfold Counting.countOf.
  destruct (String.eqb_spec k t) as [->|Hne].
  - rewrite lookup_insert_eq. reflexivity.
  - rewrite lookup_insert_ne by assumption. lia.
Qed.

(** What the [forEach] adds to the counters it starts from. *)
Lemma countActivity_fold (today : string) (l : list Activity.t) :
  forall s0 : Stats.t,
    let s := fold_left (ActivitiesService.countActivity today) l s0 in
    Stats.total s = Stats.total s0
    /\ Stats.planned (Stats.byStatus s)
       = (Stats.planned (Stats.byStatus s0)
          + Counting.count (fun a => (Activity.status a =? "planned")%string) l)%nat
    /\ Stats.completed (Stats.byStatus s)
       = (Stats.completed (Stats.byStatus s0)
          + Counting.count (fun a => (Activity.status a =? "completed")%string) l)%nat
    /\ Stats.cancelled (Stats.byStatus s)
       = (Stats.cancelled (Stats.byStatus s0)
          + Counting.count (fun a => (Activity.status a =? "cancelled")%string) l)%nat
    /\ Stats.upcoming s
       = (Stats.upcoming s0
          + Counting.count
              (fun a => (Activity.status a =? "planned")%string
                        && JS.str_ge (Activity.date a) today) l)%nat
    /\ Stats.overdue s
       = (Stats.overdue s0
          + Counting.count
              (fun a => (Activity.status a =? "planned")%string
                        && negb (JS.str_ge (Activity.date a) today)) l)%nat.
Proof.
  induction l as [|a l IH]; intros s0; cbv zeta.
  - unfold Counting.count. simpl. repeat split; intros; lia.
  - simpl fold_left.
    specialize (IH (ActivitiesService.countActivity today s0 a)). cbv zeta in IH.
    destruct IH as (Htot & Hpl & Hco & Hca & Hup & Hov).
    pose proof (countActivity_step today s0 a) as Hstep. cbv zeta in Hstep.
    destruct Hstep as (Stot & Spl & Sco & Sca & Sup & Sov).
    rewrite !count_cons.
    rewrite Htot, Hpl, Hco, Hca, Hup, Hov, Stot, Spl, Sco, Sca, Sup, Sov.
    repeat split; lia.
Qed.

(** What the [forEach] adds to [byType] over types that the prototype
    does not know. *)
Lemma countActivity_fold_type (today : string) (l : list Activity.t) :
  Counting.plainTypes l ->
  forall s0 : Stats.t,
    (forall t s, Stats.byType s0 !! t <> Some (Stats.Text s)) ->
    let s := fold_left (ActivitiesService.countActivity today) l s0 in
    Counting.sumCounts (Stats.byType s)
    = (Counting.sumCounts (Stats.byType s0) + length l)%nat
    /\ (forall t,
          Counting.countOf (Stats.byType s) t
          = (Counting.countOf (Stats.byType s0) t
             + Counting.count (fun a => (Activity.type a =? t)%string) l)%nat)
    /\ (forall t s', Stats.byType s !! t <> Some (Stats.Text s')).
Proof.
  induction 1 as [|a l Ha _ IH]; intros s0 Hcounts; cbv zeta.
  - unfold Counting.count. simpl. repeat split; intros; try lia. apply Hcounts.
  - simpl fold_left.
    destruct (countActivity_step_type today s0 a Ha Hcounts) as (Hby & Hcounts').
    specialize (IH (ActivitiesService.countActivity today s0 a) Hcounts').
    cbv zeta in IH. destruct IH as (Hsum & Hty & Hkeep).
    rewrite Hsum, Hby, sumCounts_bump. simpl length.
    split; [lia|]. split; [|exact Hkeep].
    intros t. rewrite Hty, Hby, countOf_bump, count_cons. lia.
Qed.

Lemma count_split (f g : Activity.t -> bool) (l : list Activity.t) :
  (Counting.count (fun a => f a && g a) l
   + Counting.count (fun a => f a && negb (g a)) l)%nat
  = Counting.count f l.
Proof.
  induction l as [|a l IH]; [reflexivity|].
  rewrite !count_cons, <- IH. destruct (f a), (g a); simpl; lia.
Qed.

(** The statistics of [getActivityStats] over the activities left by
    the narrowing: [total] is their number, each of the three
    [byStatus] counts is the number of activities with that status,
    and [upcoming + overdue] is [byStatus.planned]; and when no type
    is a name that [Object.prototype] knows, [byType] holds counts
    only, each the number of activities of its type, and they sum to
    [total]. *)
Theorem getActivityStats_spec (today : string)
    (companyId contactId : option string) (activities : list Activity.t) :
  let filtered := Counting.narrowed companyId contactId activities in
  let stats := ActivitiesService.getActivityStats today companyId contactId activities in
  Stats.total stats = length filtered
  /\ Stats.planned (Stats.byStatus stats)
     = Counting.count (fun a => (Activity.status a =? "planned")%string) filtered
  /\ Stats.completed (Stats.byStatus stats)
     = Counting.count (fun a => (Activity.status a =? "completed")%string) filtered
  /\ Stats.cancelled (Stats.byStatus stats)
     = Counting.count (fun a => (Activity.status a =? "cancelled")%string) filtered
  /\ (Stats.upcoming stats + Stats.overdue stats)%nat
     = Stats.planned (Stats.byStatus stats)
  /\ (Counting.plainTypes filtered ->
      Counting.sumCounts (Stats.byType stats) = Stats.total stats
      /\ (forall t,
            Counting.countOf (Stats.byType stats) t
            = Counting.count (fun a => (Activity.type a =? t)%string) filtered)
      /\ (forall t s, Stats.byType stats !! t <> Some (Stats.Text s))).
Proof.
  intros filtered stats.
  assert (Hnarrow :
    ActivitiesService.narrow Activity.contactId contactId
      (ActivitiesService.narrow Activity.companyId companyId activities)
    = filtered).
  { rewrite !narrow_filter, filter_filter. reflexivity. }
  subst stats. unfold ActivitiesService.getActivityStats. cbv zeta.
  rewrite Hnarrow.
  set (s0 := Stats.Make (length filtered) ∅ (Stats.ByStatus 0 0 0 ∅) 0 0).
  pose proof (countActivity_fold today filtered s0) as H.
  cbv zeta in H. destruct H as (Htot & Hpl & Hco & Hca & Hup & Hov).
  rewrite Htot, Hpl, Hco, Hca, Hup, Hov. subst s0.
  cbn [Stats.total Stats.byType Stats.byStatus Stats.planned
    Stats.completed Stats.cancelled Stats.upcoming Stats.overdue].
  repeat split; try lia.
  - simpl. apply count_split.
  - destruct (countActivity_fold_type today filtered H
                (Stats.Make (length filtered) ∅ (Stats.ByStatus 0 0 0 ∅) 0 0))
      as (Hsum & _ & _).
    { intros t s. cbn [Stats.byType]. rewrite lookup_empty. discriminate. }
    rewrite Hsum. cbn [Stats.byType]. rewrite sumCounts_empty. reflexivity.
  - intros t.
    destruct (countActivity_fold_type today filtered H
                (Stats.Make (length filtered) ∅ (Stats.ByStatus 0 0 0 ∅) 0 0))
      as (_ & Hty & _).
    { intros t' s. cbn [Stats.byType]. rewrite lookup_empty. discriminate. }
    rewrite Hty. cbn [Stats.byType]. unfold Counting.countOf.
    rewrite lookup_empty. reflexivity.
  - intros t s.
    destruct (countActivity_fold_type today filtered H
                (Stats.Make (length filtered) ∅ (Stats.ByStatus 0 0 0 ∅) 0 0))
      as (_ & _ & Hkeep).
    { intros t' s'. cbn [Stats.byType]. rewrite lookup_empty. discriminate. }
    apply Hkeep.
Qed.

(** C10 at an activity of type [__proto__]: the write to [byType] is
    dropped, so the object holds the count of the other activity only
    and its counts sum to 1, where [total] is 2. *)
Theorem stats_miss_inherited_type :
  let stats :=
    ActivitiesService.getActivityStats "2024-01-10" None None Sample.oddlyTyped in
  Stats.total stats = 2%nat
  /\ Stats.byType stats = {[ "EMAIL" := Stats.Count 1 ]}
  /\ Counting.sumCounts (Stats.byType stats) = 1%nat
  /\ Counting.sumCounts (Stats.byType stats) <> Stats.total stats.
Proof.
  cbv zeta.
  assert (Hby :
    Stats.byType
      (ActivitiesService.getActivityStats "2024-01-10" None None Sample.oddlyTyped)
    = {[ "EMAIL" := Stats.Count 1 ]}) by (vm_compute; reflexivity).
  rewrite Hby. split; [reflexivity|]. split; [reflexivity|].
  assert (Hsum : Counting.sumCounts {[ "EMAIL" := Stats.Count 1 ]} = 1%nat).
  { unfold Counting.sumCounts. rewrite map_fold_singleton. reflexivity. }
  rewrite Hsum. split; [reflexivity|]. simpl. lia.
Qed.

(** A type named like an inherited function is held as a text, and
    a status named like one leaves [NaN] behind. *)
Example stats_constructor :
  let a := Activity.Make "b3" "constructor" "" "" "" "" "" "toString" "" "" in
  let stats := ActivitiesService.getActivityStats "2024-01-10" None None [a; a] in
  Stats.byType stats
  = {[ "constructor" := Stats.Text "function Object() { [native code] }11" ]}
  /\ Stats.notNumbers (Stats.byStatus stats) = {[ "toString" ]}.
Proof. vm_compute. split; reflexivity. Qed.

Example getActivityStats_sample :
  let stats := ActivitiesService.getActivityStats "2024-01-15" None None
                 Sample.activities in
  Stats.total stats = 5%nat
  /\ Stats.byStatus stats = Stats.ByStatus 3 1 1 ∅
  /\ Stats.byType stats !! "TASK" = Some (Stats.Count 2)
  /\ Stats.upcoming stats = 2%nat
  /\ Stats.overdue stats = 1%nat.
Proof. vm_compute. repeat split; reflexivity. Qed.

(** ** Decoding of custom-field definition rows *)

Lemma toLowerCase_empty s : JS.toLowerCase s = "" <-> s = "".
Proof. destruct s; simpl; split; intros H; congruence. Qed.

Lemma rawFlag_Some s : CustomFields.rawFlag (Some s) = JS.toLowerCase s.
Proof.
  unfold CustomFields.rawFlag, JS.or_default.
  destruct (JS.truthy s) eqn:Hs; [reflexivity|].
  apply truthy_false in Hs. subst s. reflexivity.
Qed.

Lemma isYes_spec raw :
  CustomFields.isYes raw = true <-> raw = "true" \/ raw = "1" \/ raw = "yes".
Proof.
  unfold CustomFields.isYes. rewrite !orb_true_iff, !String.eqb_eq. tauto.
Qed.

(** The three decoders, cell by cell. *)
Lemma decode_cells (parseNumber : string -> JS.number) (cell : option string) :
  let yes (s : string) :=
    JS.toLowerCase s = "true" \/ JS.toLowerCase s = "1" \/ JS.toLowerCase s = "yes" in
  (CustomFields.decodeRequired cell = true <-> exists s, cell = Some s /\ yes s)
  /\ (CustomFields.decodeEnabled cell = true
      <-> cell = None \/ cell = Some "" \/ exists s, cell = Some s /\ yes s)
  /\ (JS.isFinite (CustomFields.toNumber parseNumber cell) = false ->
      CustomFields.decodeOrder parseNumber cell = 0)
  /\ (forall z, CustomFields.toNumber parseNumber cell = JS.Num z ->
      CustomFields.decodeOrder parseNumber cell = z).
Proof.
  cbv zeta. unfold CustomFields.decodeRequired, CustomFields.decodeEnabled,
    CustomFields.decodeOrder.
  split; [|split; [|split]].
  - rewrite isYes_spec. destruct cell as [s|].
    + rewrite rawFlag_Some. split.
      * intros H. exists s. auto.
      * intros (s' & [= <-] & H). exact H.
    + split.
      * cbn. intros [H|[H|H]]; discriminate H.
      * intros (s' & Hs & _). discriminate Hs.
  - destruct cell as [s|].
    + rewrite rawFlag_Some.
      destruct (String.eqb_spec (JS.toLowerCase s) "") as [He|Hne].
      * apply (proj1 (toLowerCase_empty s)) in He. subst s. split; auto.
      * rewrite isYes_spec. split.
        -- intros H. right. right. exists s. auto.
        -- intros [H|[[= ->]|(s' & [= <-] & H)]];
             [discriminate H|exfalso; apply Hne; reflexivity|exact H].
    + split; auto.
  - destruct (CustomFields.toNumber parseNumber cell); simpl; congruence.
  - intros z ->. reflexivity.
Qed.

(** C7 as the specification states it fails for the [enabled] column:
    a row whose [enabled] cell (column H) is missing decodes to an
    enabled definition. *)
Lemma enabled_blank_is_true :
  ~ (forall (idx : nat) (row : list string),
       CustomFieldDefinition.enabled
         (CustomFields.rowToDefinition Sample.parseNumber Sample.generateId idx row)
       = true
       <-> exists s, row !! 7%nat = Some s
                     /\ (JS.toLowerCase s = "true" \/ JS.toLowerCase s = "1"
                         \/ JS.toLowerCase s = "yes")).
Proof.
  intros H.
  destruct (proj1 (H 0%nat ["f1"; "company"; "budget"; "Budget"; "number"; ""; "TRUE"])
              eq_refl) as (s & Hs & _).
  discriminate Hs.
Qed.

(** C7, amended: for every definition row, [required] decodes to [true]
    exactly when its cell (column G) is "true", "1" or "yes" up to
    case, and to [false] otherwise, a missing or empty cell included;
    [enabled] decodes to [true] exactly when its cell (column H) is
    missing, empty, or one of those three literals up to case; [order]
    decodes to 0 whenever its cell (column I) is not a finite number,
    and to the number when it is. *)
Theorem definition_row_decodes (parseNumber : string -> JS.number)
    (generateId : nat -> string) (idx : nat) (row : list string) :
  let def := CustomFields.rowToDefinition parseNumber generateId idx row in
  let yes (s : string) :=
    JS.toLowerCase s = "true" \/ JS.toLowerCase s = "1" \/ JS.toLowerCase s = "yes" in
  (CustomFieldDefinition.required def = true
   <-> exists s, row !! 6%nat = Some s /\ yes s)
  /\ (CustomFieldDefinition.enabled def = true
      <-> row !! 7%nat = None \/ row !! 7%nat = Some ""
          \/ exists s, row !! 7%nat = Some s /\ yes s)
  /\ (JS.isFinite (CustomFields.toNumber parseNumber (row !! 8%nat)) = false ->
      CustomFieldDefinition.order def = 0)
  /\ (forall z, CustomFields.toNumber parseNumber (row !! 8%nat) = JS.Num z ->
      CustomFieldDefinition.order def = z).
Proof.
  cbv zeta. cbn [CustomFields.rowToDefinition CustomFieldDefinition.required
    CustomFieldDefinition.enabled CustomFieldDefinition.order].
  pose proof (decode_cells parseNumber (row !! 6%nat)) as (Hreq & _).
  pose proof (decode_cells parseNumber (row !! 7%nat)) as (_ & Hen & _).
  pose proof (decode_cells parseNumber (row !! 8%nat)) as (_ & _ & Hord).
  auto.
Qed.

Lemma definition_row_decodes_witness :
  CustomFieldDefinition.order
    (CustomFields.rowToDefinition Sample.parseNumber Sample.generateId 0%nat
       ["f1"; "company"; "budget"; "Budget"; "number"; ""; "yes"; "TRUE"; "soon"])
  = 0
  /\ CustomFieldDefinition.order
       (CustomFields.rowToDefinition Sample.parseNumber Sample.generateId 1%nat
          ["f2"; "contact"; "vip"; "VIP"; "checkbox"; ""; ""; ""; "12"])
     = 12.
Proof.
  split.
  - apply (proj1 (proj2 (proj2
             (definition_row_decodes Sample.parseNumber Sample.generateId 0%nat
                ["f1"; "company"; "budget"; "Budget"; "number"; ""; "yes"; "TRUE"; "soon"])))).
    reflexivity.
  - apply (proj2 (proj2 (proj2
             (definition_row_decodes Sample.parseNumber Sample.generateId 1%nat
                ["f2"; "contact"; "vip"; "VIP"; "checkbox"; ""; ""; ""; "12"])))).
    reflexivity.
Defined.

Example decode_flags_samples :
  CustomFields.decodeRequired (Some "TRUE") = true
  /\ CustomFields.decodeRequired (Some "Yes") = true
  /\ CustomFields.decodeRequired (Some "1") = true
  /\ CustomFields.decodeRequired (Some "no") = false
  /\ CustomFields.decodeRequired None = false
  /\ CustomFields.decodeEnabled (Some "FALSE") = false
  /\ CustomFields.decodeEnabled (Some "") = true
  /\ CustomFields.decodeEnabled None = true.
Proof. vm_compute. repeat split; reflexivity. Qed.

(** ** Custom-field forms *)

Lemma byOrder_total a b :
  CustomFieldsCommon.byOrder a b <= 0 \/ CustomFieldsCommon.byOrder b a <= 0.
Proof. unfold CustomFieldsCommon.byOrder. lia. Qed.

Lemma byOrder_trans a b c :
  CustomFieldsCommon.byOrder a b <= 0 -> CustomFieldsCommon.byOrder b c <= 0 ->
  CustomFieldsCommon.byOrder a c <= 0.
Proof. unfold CustomFieldsCommon.byOrder. lia. Qed.

Section FormFacts.

Variable parseOptions : FieldDef.t -> list string.
Variable parseNumber : string -> JS.number.

(** The keys the loop of the first variant adds all belong to enabled
    definitions. *)
Lemma collect_loop1_keys (container : list Dom.control) (idPrefix : string) :
  forall (defs : list FieldDef.t) (acc result : gmap string JS.value),
    CustomFieldsUI1.collect_loop parseNumber container idPrefix defs acc
    = Collected result ->
    forall k, is_Some (result !! k) ->
      is_Some (acc !! k)
      \/ exists def, In def defs /\ FieldDef.enabled def = true /\ FieldDef.key def = k.
Proof.
  induction defs as [|def defs IH]; intros acc result Hrun k Hk; simpl in Hrun.
  - injection Hrun as <-. left. exact Hk.
  - destruct (FieldDef.enabled def) eqn:Hen; simpl in Hrun.
    + destruct (Dom.querySelectorById container _) as [[el|]|]; [| |discriminate].
      * destruct (IH _ _ Hrun k Hk) as [Hacc|(d & Hd & He & Hkey)].
        -- destruct (decide (FieldDef.key def = k)) as [Heq|Hne].
           ++ right. exists def. simpl. auto.
           ++ left. unfold PlainObject.set in Hacc.
              destruct (FieldDef.key def =? "__proto__")%string; [exact Hacc|].
              rewrite lookup_insert_ne in Hacc by assumption. exact Hacc.
        -- right. exists d. simpl. auto.
      * destruct (IH _ _ Hrun k Hk) as [Hacc|(d & Hd & He & Hkey)]; [auto|].
        right. exists d. simpl. auto.
    + destruct (IH _ _ Hrun k Hk) as [Hacc|(d & Hd & He & Hkey)]; [auto|].
      right. exists d. simpl. auto.
Qed.

(** The first variant leaves disabled definitions out of the form and
    out of the collected object, and renders the enabled ones in
    ascending order of their order number. *)
Theorem first_variant_skips_disabled (container : list Dom.control)
    (defs : list FieldDef.t) (values : gmap string JS.value) (idPrefix : string) :
  let shown := Array.sort CustomFieldsCommon.byOrder (List.filter FieldDef.enabled defs) in
  CustomFieldsUI1.mount parseOptions (Some container) defs values idPrefix
  = Some (map (fun def =>
                 CustomFieldsCommon.render parseOptions def
                   (FieldDef.name def) (FieldDef.type def)
                   (CustomFieldsCommon.valueOf values (FieldDef.key def)) idPrefix)
            shown)
  /\ (forall def, In def shown <-> In def defs /\ FieldDef.enabled def = true)
  /\ StronglySorted
       (fun a b => default 0 (FieldDef.order a) <= default 0 (FieldDef.order b)) shown
  /\ (forall result,
        CustomFieldsUI1.collect parseNumber (Some container) defs idPrefix
        = Collected result ->
        forall k, is_Some (result !! k) ->
          exists def, In def defs /\ FieldDef.enabled def = true /\ FieldDef.key def = k).
Proof.
  intros shown. split; [|split; [|split]].
  - unfold CustomFieldsUI1.mount. cbv zeta. fold shown. f_equal.
    assert (Hall : Forall (fun d => FieldDef.enabled d = true) shown).
    { rewrite Forall_forall. intros d Hd. apply list_elem_of_In in Hd.
      apply sort_In, filter_In in Hd. tauto. }
    induction Hall as [|d l Hd _ IH]; [reflexivity|].
    simpl. unfold CustomFieldsUI1.buildField at 1. rewrite Hd. simpl.
    f_equal. exact IH.
  - intros def. subst shown. rewrite sort_In, filter_In. reflexivity.
  - pose proof (sort_sorted CustomFieldsCommon.byOrder byOrder_total byOrder_trans
                  (List.filter FieldDef.enabled defs)) as Hs.
    fold shown in Hs. clearbody shown.
    induction Hs as [|d l _ IH Hd]; constructor; [exact IH|].
    eapply Forall_impl; [exact Hd|].
    intros b Hb. unfold CustomFieldsCommon.byOrder in Hb. simpl in Hb. lia.
  - intros result Hrun k Hk. unfold CustomFieldsUI1.collect in Hrun.
    destruct (collect_loop1_keys container idPrefix defs ∅ result Hrun k Hk)
      as [Hacc|Hdef]; [|exact Hdef].
    rewrite lookup_empty in Hacc. destruct Hacc as [? [=]].
Qed.

End FormFacts.

(** C8 at a disabled definition: the second variant renders a control
    for it and collects its key, where the first variant renders and
    collects nothing. *)
Theorem second_variant_shows_disabled :
  FieldDef.enabled Sample.disabledBudget = false
  /\ map Dom.el_id
       (CustomFieldsUI2.mount Sample.parseOptions [Sample.disabledBudget] ∅ "")
     = ["budget"]
  /\ CustomFieldsUI2.collect Sample.parseNumber
       (CustomFieldsUI2.mount Sample.parseOptions [Sample.disabledBudget] ∅ "")
       [Sample.disabledBudget] ""
     = Collected {[ "budget" := JS.VStr "" ]}
  /\ CustomFieldsUI1.mount Sample.parseOptions (Some []) [Sample.disabledBudget] ∅ "cf_"
     = Some []
  /\ CustomFieldsUI1.collect Sample.parseNumber
       (Some (CustomFieldsUI2.mount Sample.parseOptions [Sample.disabledBudget] ∅ "cf_"))
       [Sample.disabledBudget] "cf_"
     = Collected ∅.
Proof. vm_compute. repeat split; reflexivity. Qed.

(** ** Updating an activity in the sheet *)

Section ArrayFacts.

Context {A : Type} (f : A -> bool).

Lemma findIndex_Some (l : list A) (i : nat) :
  Array.findIndex f l = Some i ->
  exists x, l !! i = Some x /\ f x = true /\ List.find f l = Some x.
Proof.
  revert i. induction l as [|y l IH]; intros i H; simpl in H; [discriminate|].
  simpl. destruct (f y) eqn:Hy.
  - injection H as <-. exists y. auto.
  - destruct (Array.findIndex f l) as [j|] eqn:Hj; [|discriminate].
    simpl in H. injection H as <-. apply (IH j eq_refl).
Qed.

Lemma find_findIndex (l : list A) (x : A) :
  List.find f l = Some x ->
  exists i, Array.findIndex f l = Some i /\ l !! i = Some x.
Proof.
  induction l as [|y l IH]; intros H; simpl in H; [discriminate|].
  simpl. destruct (f y) eqn:Hy.
  - injection H as <-. exists 0%nat. auto.
  - destruct (IH H) as (i & Hi & Hx). exists (S i). rewrite Hi. auto.
Qed.

End ArrayFacts.

Section SheetFacts.

Variable target : string.
Hypothesis target_nonempty : target <> "".

(** The index [findIndex] returns counts only the rows that have an
    id, so it never runs past the row of the record it found, and no
    row in front of it carries the id looked for. *)
Lemma findIndex_rows (rows : list (list string)) :
  forall i,
    Array.findIndex (Stored.carries target) (Stored.loadRows rows) = Some i ->
    (i < length rows)%nat
    /\ (forall p r, (p < i)%nat -> rows !! p = Some r ->
          Stored.carries target (DataService.rowToActivity r) = false).
Proof.
  induction rows as [|r rows IH]; intros i H; [discriminate H|].
  unfold Stored.loadRows in H. simpl in H.
  destruct (Stored.hasId (DataService.rowToActivity r)) eqn:Hid; simpl in H.
  - destruct (Stored.carries target (DataService.rowToActivity r)) eqn:Ht.
    + injection H as <-. split; [simpl; lia|]. intros p r' Hp. lia.
    + fold (Stored.loadRows rows) in H.
      destruct (Array.findIndex (Stored.carries target) (Stored.loadRows rows))
        as [j|] eqn:Hj; [|discriminate].
      simpl in H. injection H as <-.
      destruct (IH j eq_refl) as [Hlen Hpre]. split; [simpl; lia|].
      intros [|p] r' Hp Hr; simpl in Hr.
      * injection Hr as <-. exact Ht.
      * apply (Hpre p r'); [lia|exact Hr].
  - fold (Stored.loadRows rows) in H. destruct (IH i H) as [Hlen Hpre].
    split; [simpl; lia|].
    intros [|p] r' Hp Hr; simpl in Hr.
    + injection Hr as <-. unfold Stored.hasId in Hid. apply truthy_false in Hid.
      unfold Stored.carries. rewrite Hid. apply String.eqb_neq. congruence.
    + apply (Hpre p r'); [lia|exact Hr].
Qed.

(** Writing a row that carries the id at such an index makes it the
    first record with that id. *)
Lemma find_after_insert (row : list string) :
  Stored.carries target (DataService.rowToActivity row) = true ->
  forall i rows,
    (i < length rows)%nat ->
    (forall p r, (p < i)%nat -> rows !! p = Some r ->
       Stored.carries target (DataService.rowToActivity r) = false) ->
    List.find (Stored.carries target) (Stored.loadRows (<[i := row]> rows))
    = Some (DataService.rowToActivity row).
Proof.
  intros Hrow.
  assert (Hid : Stored.hasId (DataService.rowToActivity row) = true).
  { unfold Stored.hasId. apply truthy_true. unfold Stored.carries in Hrow.
    apply String.eqb_eq in Hrow. congruence. }
  induction i as [|i IH]; intros [|r rows] Hlen Hpre; simpl in Hlen; try lia.
  - unfold Stored.loadRows. simpl. rewrite Hid. simpl. rewrite Hrow. reflexivity.
  - unfold Stored.loadRows. simpl. fold (Stored.loadRows (<[i := row]> rows)).
    assert (Hr : Stored.carries target (DataService.rowToActivity r) = false)
      by (apply (Hpre 0%nat r); [lia|reflexivity]).
    assert (Hrest :
      List.find (Stored.carries target) (Stored.loadRows (<[i := row]> rows))
      = Some (DataService.rowToActivity row)).
    { apply IH; [lia|]. intros p r' Hp Hr'. apply (Hpre (S p) r'); [lia|exact Hr']. }
    destruct (Stored.hasId (DataService.rowToActivity r)); simpl; [rewrite Hr|];
      exact Hrest.
Qed.

End SheetFacts.

(** What comes back from the sheet after an activity was written. *)
Lemma written_fields (env : Env) (a : Activity.t) :
  Stored.written env a
  = {| Activity.id := JS.or_else (Activity.id a) (freshId env);
       Activity.type := Activity.type a;
       Activity.title := Activity.title a;
       Activity.date := Activity.date a;
       Activity.notes := Activity.notes a;
       Activity.companyId := Activity.companyId a;
       Activity.contactId := Activity.contactId a;
       Activity.status := JS.or_else (Activity.status a) "planned";
       Activity.createdBy := JS.or_else (Activity.createdBy a) (userEmail env);
       Activity.createdAt := JS.or_else (Activity.createdAt a) (nowISO env) |}.
Proof.
  unfold Stored.written, DataService.rowToActivity, DataService.activityToRow,
    DataService.cell.
  cbn [lookup list_lookup].
  assert (Hcell : forall s, JS.or_default (Some s) "" = s).
  { intros s. unfold JS.or_default. destruct (JS.truthy s) eqn:Hs; [reflexivity|].
    apply truthy_false in Hs. congruence. }
  rewrite !Hcell, !or_else_empty.
  f_equal.
  unfold JS.or_default. rewrite or_else_truthy_default by reflexivity. reflexivity.
Qed.

Lemma loaded_has_id (st : Store) (a : Activity.t) :
  In a (DataService.loadActivities st) -> Activity.id a <> "".
Proof.
  unfold DataService.loadActivities. rewrite filter_In. intros [_ H].
  apply truthy_true, H.
Qed.

Lemma loaded_has_status (st : Store) (a : Activity.t) :
  In a (DataService.loadActivities st) -> Activity.status a <> "".
Proof.
  unfold DataService.loadActivities. rewrite filter_In, in_map_iff.
  intros [(row & <- & _) _]. unfold DataService.rowToActivity. simpl.
  unfold JS.or_default.
  destruct (row !! 7%nat) as [s|]; [destruct (JS.truthy s) eqn:Hs|];
    [apply truthy_true, Hs|discriminate|discriminate].
Qed.

Lemma lookup_found (activityId : string) (st : Store) (a : Activity.t) :
  Stored.lookup activityId st = Some a ->
  In a (DataService.loadActivities st) /\ Activity.id a = activityId.
Proof.
  unfold Stored.lookup. intros H. apply find_some in H.
  rewrite String.eqb_eq in H. exact H.
Qed.

Section UpdateFacts.

Variable TYPES : string -> option ActivityType.
Variable dateParses : string -> bool.

Lemma logActivityUpdate_sheet (env : Env) (a : Activity.t) (st : Store) :
  sheetActivities (ActivitiesService.logActivityUpdate TYPES env a st)
  = sheetActivities st.
Proof.
  unfold ActivitiesService.logActivityUpdate, DataService.logCompanyHistory,
    DataService.logContactHistory. cbv zeta.
  destruct (JS.truthy (Activity.companyId a)), (JS.truthy (Activity.contactId a));
    reflexivity.
Qed.

(** An update of a stored activity whose merged record is valid goes
    through, and the merged record is what the sheet then shows for
    the id. *)
Lemma updateActivity_stored (env : Env) (activityId : string)
    (updates : Updates.t) (st : Store) (existing : Activity.t) :
  Stored.lookup activityId st = Some existing ->
  ActivitiesService.valid
    (ActivitiesService.validateActivity TYPES dateParses
       (ActivitiesService.merge existing updates activityId)) = true ->
  exists st',
    ActivitiesService.updateActivity TYPES dateParses env activityId updates st
    = ActivitiesService.Ok (ActivitiesService.merge existing updates activityId, st')
    /\ Stored.lookup activityId st'
       = Some (Stored.written env
                 (ActivitiesService.merge existing updates activityId)).
Proof.
  intros Hfound Hvalid.
  destruct (lookup_found _ _ _ Hfound) as [Hin Hid].
  assert (Hne : activityId <> "") by (rewrite <- Hid; eapply loaded_has_id, Hin).
  unfold Stored.lookup in Hfound.
  destruct (find_findIndex _ _ _ Hfound) as (i & Hi & Hx).
  unfold ActivitiesService.updateActivity. cbv zeta.
  rewrite Hi, Hx, Hvalid. simpl negb. cbv iota.
  eexists. split; [reflexivity|].
  unfold Stored.lookup, DataService.loadActivities.
  rewrite logActivityUpdate_sheet. simpl.
  unfold DataService.loadActivities in Hi.
  destruct (findIndex_rows activityId Hne (sheetActivities st) i Hi) as [Hlen Hpre].
  unfold DataService.updateRow.
  destruct (Nat.ltb_spec i (length (sheetActivities st))) as [_|Hge]; [|lia].
  apply (find_after_insert activityId Hne); [|exact Hlen|exact Hpre].
  fold (Stored.written env (ActivitiesService.merge existing updates activityId)).
  rewrite written_fields. simpl. rewrite or_else_truthy by (apply truthy_true, Hne).
  apply String.eqb_refl.
Qed.

End UpdateFacts.

(** ** The status of an activity *)

(** C1 as the specification states it fails: a completed activity is
    turned into a cancelled one by [cancelActivity], and back into a
    planned one by [updateActivity]. *)
Lemma terminal_status_overwritten :
  Activity.status <$> Stored.lookup "a3" Sample.store = Some "completed"
  /\ (exists a st',
        ActivitiesService.cancelActivity Sample.TYPES Sample.dateParses
          Sample.env "a3" Sample.store = ActivitiesService.Ok (a, st')
        /\ Activity.status <$> Stored.lookup "a3" st' = Some "cancelled")
  /\ (exists a st',
        ActivitiesService.updateActivity Sample.TYPES Sample.dateParses
          Sample.env "a3" (Updates.only_status "planned") Sample.store
        = ActivitiesService.Ok (a, st')
        /\ Activity.status <$> Stored.lookup "a3" st' = Some "planned").
Proof.
  split; [vm_compute; reflexivity|].
  split; eexists; eexists; split; vm_compute; reflexivity.
Qed.

Section StatusFacts.

Variable TYPES : string -> option ActivityType.
Variable dateParses : string -> bool.

(** Validation looks at the type, the title, the date and the links. *)
Lemma validateActivity_ext (a b : Activity.t) :
  Activity.type a = Activity.type b ->
  Activity.title a = Activity.title b ->
  Activity.date a = Activity.date b ->
  Activity.companyId a = Activity.companyId b ->
  Activity.contactId a = Activity.contactId b ->
  ActivitiesService.validateActivity TYPES dateParses a
  = ActivitiesService.validateActivity TYPES dateParses b.
Proof.
  intros Hty Hti Hda Hco Hct. unfold ActivitiesService.validateActivity.
  rewrite Hty, Hti, Hda, Hco, Hct. reflexivity.
Qed.

(** C1, amended: the service guards no transition.  For every stored
    activity, whatever its status, whose merged record passes
    validation, [updateActivity] goes through and the sheet then
    shows the status the updates carry (an empty one as [planned]),
    or the status it had when the updates carry none;
    [completeActivity] leaves [completed] and [cancelActivity] leaves
    [cancelled]. *)
Theorem status_follows_updates (env : Env) (activityId : string)
    (updates : Updates.t) (st : Store) (existing : Activity.t) :
  Stored.lookup activityId st = Some existing ->
  (ActivitiesService.valid
     (ActivitiesService.validateActivity TYPES dateParses
        (ActivitiesService.merge existing updates activityId)) = true ->
   exists a st',
     ActivitiesService.updateActivity TYPES dateParses env activityId updates st
     = ActivitiesService.Ok (a, st')
     /\ Activity.status <$> Stored.lookup activityId st'
        = Some (Stored.statusAfter existing updates))
  /\ (ActivitiesService.valid
        (ActivitiesService.validateActivity TYPES dateParses existing) = true ->
      (exists a st',
         ActivitiesService.completeActivity TYPES dateParses env activityId st
         = ActivitiesService.Ok (a, st')
         /\ Activity.status <$> Stored.lookup activityId st' = Some "completed")
      /\ (exists a st',
            ActivitiesService.cancelActivity TYPES dateParses env activityId st
            = ActivitiesService.Ok (a, st')
            /\ Activity.status <$> Stored.lookup activityId st' = Some "cancelled")).
Proof.
  intros Hfound.
  assert (Hgen : forall updates',
    ActivitiesService.valid
      (ActivitiesService.validateActivity TYPES dateParses
         (ActivitiesService.merge existing updates' activityId)) = true ->
    exists a st',
      ActivitiesService.updateActivity TYPES dateParses env activityId updates' st
      = ActivitiesService.Ok (a, st')
      /\ Activity.status <$> Stored.lookup activityId st'
         = Some (Stored.statusAfter existing updates')).
  { intros updates' Hvalid.
    destruct (updateActivity_stored TYPES dateParses env activityId updates' st
                existing Hfound Hvalid) as (st' & Hrun & Hst).
    exists (ActivitiesService.merge existing updates' activityId), st'.
    split; [exact Hrun|]. rewrite Hst, written_fields. simpl. f_equal.
    unfold Stored.statusAfter. destruct (Updates.status updates') as [s|]; simpl; [reflexivity|].
    apply or_else_truthy, truthy_true.
    apply (loaded_has_status st), (lookup_found activityId), Hfound. }
  split; [apply Hgen|].
  intros Hvalid.
  assert (Hsame : forall s,
    ActivitiesService.validateActivity TYPES dateParses
      (ActivitiesService.merge existing (Updates.only_status s) activityId)
    = ActivitiesService.validateActivity TYPES dateParses existing)
    by (intros s; apply validateActivity_ext; reflexivity).
  split.
  - apply (Hgen (Updates.only_status CONFIG.COMPLETED)). rewrite Hsame. exact Hvalid.
  - apply (Hgen (Updates.only_status CONFIG.CANCELLED)). rewrite Hsame. exact Hvalid.
Qed.

End StatusFacts.

Lemma status_follows_updates_witness :
  (exists a st',
     ActivitiesService.updateActivity Sample.TYPES Sample.dateParses Sample.env
       "a1" (Updates.only_status "completed") Sample.store
     = ActivitiesService.Ok (a, st')
     /\ Activity.status <$> Stored.lookup "a1" st' = Some "completed")
  /\ (exists a st',
        ActivitiesService.cancelActivity Sample.TYPES Sample.dateParses Sample.env
          "a3" Sample.store
        = ActivitiesService.Ok (a, st')
        /\ Activity.status <$> Stored.lookup "a3" st' = Some "cancelled").
Proof.
  split.
  - apply (proj1 (status_follows_updates Sample.TYPES Sample.dateParses Sample.env
                    "a1" (Updates.only_status "completed") Sample.store
                    (Activity.Make "a1" "TASK" "Oferta" "2024-01-20" "" "c1" ""
                       "planned" "jan@example.com" "2024-01-02T08:00:00.000Z")
                    eq_refl)).
    reflexivity.
  - apply (proj2 (status_follows_updates Sample.TYPES Sample.dateParses Sample.env
                    "a3" Updates.empty Sample.store
                    (Activity.Make "a3" "PHONE" "Telefon" "2024-01-10" "" "" "p1"
                       "completed" "jan@example.com" "2024-01-03T08:00:00.000Z")
                    eq_refl)).
    reflexivity.
Defined.

(** ** Completing an activity twice *)

Section IdempotenceFacts.

Variable TYPES : string -> option ActivityType.
Variable dateParses : string -> bool.

(** C9: [updateActivity(id, {status: 'completed'})] is idempotent.
    For every sheet that holds an activity with the id whose merged
    record passes validation, the operation goes through twice in a
    row, the sheet shows the status [completed] after the first and
    after the second application, and, the signed-in user being the
    same and the clock giving a date string, the record it shows for
    the id after the second application is the one it showed after
    the first. *)
Theorem complete_twice (env1 env2 : Env) (activityId : string)
    (st : Store) (existing : Activity.t) :
  Stored.lookup activityId st = Some existing ->
  ActivitiesService.valid
    (ActivitiesService.validateActivity TYPES dateParses
       (ActivitiesService.merge existing
          (Updates.only_status "completed") activityId)) = true ->
  exists a1 st1 a2 st2,
    ActivitiesService.updateActivity TYPES dateParses env1 activityId
      (Updates.only_status "completed") st = ActivitiesService.Ok (a1, st1)
    /\ ActivitiesService.updateActivity TYPES dateParses env2 activityId
         (Updates.only_status "completed") st1 = ActivitiesService.Ok (a2, st2)
    /\ Activity.status <$> Stored.lookup activityId st1 = Some "completed"
    /\ Activity.status <$> Stored.lookup activityId st2 = Some "completed"
    /\ (userEmail env1 = userEmail env2 -> nowISO env1 <> "" ->
        Stored.lookup activityId st2 = Stored.lookup activityId st1).
Proof.
  intros Hfound Hvalid.
  set (upd := Updates.only_status "completed") in *.
  set (m := ActivitiesService.merge existing upd activityId) in *.
  destruct (lookup_found _ _ _ Hfound) as [Hin Hid].
  assert (Hne : activityId <> "") by (rewrite <- Hid; eapply loaded_has_id, Hin).
  destruct (updateActivity_stored TYPES dateParses env1 activityId upd st existing
              Hfound Hvalid) as (st1 & Hrun1 & Hst1).
  fold m in Hrun1, Hst1.
  assert (Hw1 : Stored.written env1 m
    = {| Activity.id := activityId;
         Activity.type := Activity.type existing;
         Activity.title := Activity.title existing;
         Activity.date := Activity.date existing;
         Activity.notes := Activity.notes existing;
         Activity.companyId := Activity.companyId existing;
         Activity.contactId := Activity.contactId existing;
         Activity.status := "completed";
         Activity.createdBy :=
           JS.or_else (Activity.createdBy existing) (userEmail env1);
         Activity.createdAt :=
           JS.or_else (Activity.createdAt existing) (nowISO env1) |}).
  { rewrite written_fields. subst m. simpl.
    rewrite or_else_truthy by (apply truthy_true, Hne). reflexivity. }
  assert (Hm2 : ActivitiesService.merge (Stored.written env1 m) upd activityId
                = Stored.written env1 m)
    by (rewrite Hw1; reflexivity).
  assert (Hvalid2 :
    ActivitiesService.valid
      (ActivitiesService.validateActivity TYPES dateParses
         (ActivitiesService.merge (Stored.written env1 m) upd activityId)) = true).
  { rewrite Hm2, <- Hvalid. f_equal.
    apply validateActivity_ext; rewrite Hw1; reflexivity. }
  destruct (updateActivity_stored TYPES dateParses env2 activityId upd st1
              (Stored.written env1 m) Hst1 Hvalid2) as (st2 & Hrun2 & Hst2).
  rewrite Hm2 in Hrun2, Hst2.
  exists m, st1, (Stored.written env1 m), st2.
  split; [exact Hrun1|]. split; [exact Hrun2|].
  split; [rewrite Hst1, Hw1; reflexivity|].
  split; [rewrite Hst2, written_fields, Hw1; reflexivity|].
  intros Hemail Hnow. rewrite Hst2, Hst1. f_equal.
  rewrite (written_fields env2), Hw1. simpl.
  rewrite or_else_truthy by (apply truthy_true, Hne).
  rewrite <- Hemail.
  f_equal.
  - unfold JS.or_else.
    destruct (JS.truthy (Activity.createdBy existing)) eqn:Hc.
    + rewrite Hc. reflexivity.
    + destruct (JS.truthy (userEmail env1)); reflexivity.
  - apply or_else_truthy, or_else_truthy_default, truthy_true, Hnow.
Qed.

End IdempotenceFacts.

Lemma complete_twice_witness :
  exists a1 st1 a2 st2,
    ActivitiesService.updateActivity Sample.TYPES Sample.dateParses Sample.env "a1"
      (Updates.only_status "completed") Sample.store = ActivitiesService.Ok (a1, st1)
    /\ ActivitiesService.updateActivity Sample.TYPES Sample.dateParses Sample.envLater
         "a1" (Updates.only_status "completed") st1 = ActivitiesService.Ok (a2, st2)
    /\ Activity.status <$> Stored.lookup "a1" st1 = Some "completed"
    /\ Activity.status <$> Stored.lookup "a1" st2 = Some "completed"
    /\ Stored.lookup "a1" st2 = Stored.lookup "a1" st1.
Proof.
  destruct (complete_twice Sample.TYPES Sample.dateParses Sample.env Sample.envLater
              "a1" Sample.store
              (Activity.Make "a1" "TASK" "Oferta" "2024-01-20" "" "c1" ""
                 "planned" "jan@example.com" "2024-01-02T08:00:00.000Z")
              eq_refl eq_refl)
    as (a1 & st1 & a2 & st2 & H1 & H2 & H3 & H4 & H5).
  exists a1, st1, a2, st2. repeat split; try assumption.
  apply H5; [reflexivity|discriminate].
Defined.

(** * Further properties *)

(** ** The cache: invalidation and what a lookup may change *)

(** X1: [clearCache(key)] with a truthy key makes that key a miss at
    any later time and leaves the lookups of every other key as they
    were; [clearCache()] and [clearCache('')] make every key a miss. *)
Theorem clearCache_spec (V : Type) (cache : gmap string (Cache.item V))
    (key other : string) (now : Z) :
  (key <> "" ->
     Cache.getCache key now (Cache.clearCache (Some key) cache)
     = (None, Cache.clearCache (Some key) cache)
     /\ (other <> key ->
         fst (Cache.getCache other now (Cache.clearCache (Some key) cache))
         = fst (Cache.getCache other now cache)))
  /\ fst (Cache.getCache other now (Cache.clearCache None cache)) = None
  /\ fst (Cache.getCache other now (Cache.clearCache (Some "") cache)) = None.
Proof.
  split; [|split].
  - intros Hkey. apply truthy_true in Hkey.
    unfold Cache.clearCache. rewrite Hkey. split.
    + unfold Cache.getCache. rewrite lookup_delete_eq. reflexivity.
    + intros Hne. unfold Cache.getCache.
      rewrite lookup_delete_ne by congruence.
      destruct (cache !! other) as [it|]; [|reflexivity].
      destruct (now - Cache.timestamp it >? CONFIG.CACHE_TTL); reflexivity.
  - unfold Cache.clearCache, Cache.getCache. rewrite lookup_empty. reflexivity.
  - unfold Cache.clearCache, Cache.getCache. simpl. rewrite lookup_empty. reflexivity.
Qed.

Lemma clearCache_spec_witness :
  Cache.getCache "activities" 10
    (Cache.clearCache (Some "activities")
       (Cache.setCache "activities" 1%nat 0 (Cache.setCache "companies" 2%nat 0 ∅)))
  = (None,
     Cache.clearCache (Some "activities")
       (Cache.setCache "activities" 1%nat 0 (Cache.setCache "companies" 2%nat 0 ∅)))
  /\ fst (Cache.getCache "companies" 10
            (Cache.clearCache (Some "activities")
               (Cache.setCache "activities" 1%nat 0
                  (Cache.setCache "companies" 2%nat 0 ∅))))
     = Some 2%nat.
Proof.
  pose proof (proj1 (clearCache_spec nat
                (Cache.setCache "activities" 1%nat 0 (Cache.setCache "companies" 2%nat 0 ∅))
                "activities" "companies" 10) ltac:(discriminate)) as [H1 H2].
  split; [exact H1|].
  rewrite H2 by discriminate. vm_compute. reflexivity.
Defined.

(** X2: a lookup never serves a stale entry and never disturbs another
    key.  Whatever the cache holds, a hit returns the value stored
    under the key, whose age is at most the TTL, and leaves the cache
    unchanged; a miss leaves the key absent; and in both cases every
    other key keeps its entry. *)
Theorem getCache_sound (V : Type) (cache : gmap string (Cache.item V))
    (key : string) (now : Z) :
  let r := Cache.getCache key now cache in
  (forall v, fst r = Some v ->
     snd r = cache
     /\ exists ts, cache !! key = Some (Cache.Item v ts)
                   /\ now - ts <= CONFIG.CACHE_TTL)
  /\ (fst r = None -> snd r !! key = None)
  /\ (forall other, other <> key -> snd r !! other = cache !! other).
Proof.
  cbv zeta. unfold Cache.getCache.
  destruct (cache !! key) as [[v0 ts]|] eqn:Hk; simpl.
  - destruct (Z.gtb_spec (now - ts) CONFIG.CACHE_TTL) as [Hold|Hfresh]; simpl.
    + split; [intros v [=]|]. split; [intros _; apply lookup_delete_eq|].
      intros other Hne. apply lookup_delete_ne. congruence.
    + split; [|split; [intros [=]|reflexivity]].
      intros v [= <-]. split; [reflexivity|]. exists ts. auto.
  - split; [intros v [=]|]. split; [intros _; exact Hk|reflexivity].
Qed.

Lemma getCache_sound_witness :
  snd (Cache.getCache "companies" 400000 (Cache.setCache "companies" 2%nat 0 ∅))
    !! "companies" = None.
Proof.
  apply (proj1 (proj2 (getCache_sound nat (Cache.setCache "companies" 2%nat 0 ∅)
                         "companies" 400000))).
  vm_compute. reflexivity.
Defined.

(** X3: the latest [setCache] wins.  Setting a key again replaces both
    the value and the timestamp, so the entry's life starts anew, and
    setting one key does not change what another key returns. *)
Theorem setCache_overwrites (V : Type) (cache : gmap string (Cache.item V))
    (key other : string) (v1 v2 : V) (t1 t2 now : Z) :
  Cache.setCache key v2 t2 (Cache.setCache key v1 t1 cache)
  = Cache.setCache key v2 t2 cache
  /\ (now - t2 <= CONFIG.CACHE_TTL ->
      fst (Cache.getCache key now
             (Cache.setCache key v2 t2 (Cache.setCache key v1 t1 cache)))
      = Some v2)
  /\ (other <> key ->
      fst (Cache.getCache other now (Cache.setCache key v1 t1 cache))
      = fst (Cache.getCache other now cache)).
Proof.
  unfold Cache.setCache. split; [apply insert_insert_eq|]. split.
  - intros Hage. rewrite insert_insert_eq. unfold Cache.getCache.
    rewrite lookup_insert_eq. simpl.
    destruct (Z.gtb_spec (now - t2) CONFIG.CACHE_TTL); [lia|reflexivity].
  - intros Hne. unfold Cache.getCache. rewrite lookup_insert_ne by congruence.
    destruct (cache !! other) as [it|]; [|reflexivity].
    destruct (now - Cache.timestamp it >? CONFIG.CACHE_TTL); reflexivity.
Qed.

Lemma setCache_overwrites_witness :
  fst (Cache.getCache "companies" 400000
         (Cache.setCache "companies" 9%nat 200000
            (Cache.setCache "companies" 2%nat 0 ∅)))
  = Some 9%nat.
Proof.
  apply (proj1 (proj2 (setCache_overwrites nat ∅ "companies" "contacts"
                         2%nat 9%nat 0 200000 400000))).
  vm_compute. discriminate.
Defined.

(** ** The retry wrapper: bounds *)

Lemma backoff_sum (i k : nat) :
  fold_right Z.add 0 (map Retry.delay (seq i k))
  = CONFIG.RETRY_DELAY * 2 ^ Z.of_nat i * (2 ^ Z.of_nat k - 1).
Proof.
  revert i. induction k as [|k IH]; intros i; simpl seq; simpl map; simpl fold_right.
  - simpl. lia.
  - rewrite IH. unfold Retry.delay.
    replace (Z.of_nat (S i)) with (Z.of_nat i + 1) by lia.
    replace (Z.of_nat (S k)) with (Z.of_nat k + 1) by lia.
    rewrite !Z.pow_add_r by lia. change (2 ^ 1) with 2. lia.
Qed.

Section RetryBounds.

Context {W E A : Type} (fn : W -> Retry.outcome E A * W).

(** X4: with a maximum attempt count of zero or less the operation is
    never invoked, nothing is waited for, and the call returns
    [undefined] rather than failing. *)
Theorem retryRequest_no_attempts (maxRetries : Z) (st : Retry.run W) :
  maxRetries <= 0 ->
  Retry.retryRequest fn maxRetries st = (Retry.ReturnedUndefined, st).
Proof.
  intros Hmax. unfold Retry.retryRequest.
  replace (Z.to_nat maxRetries) with 0%nat by lia. reflexivity.
Qed.

Lemma retry_loop_bounds (maxRetries : Z) :
  forall (fuel i : nat) (st : Retry.run W),
    (1 <= fuel)%nat ->
    Z.of_nat i + Z.of_nat fuel = maxRetries ->
    exists c : nat,
      (1 <= c <= fuel)%nat
      /\ fst (Retry.retry_loop fn maxRetries fuel (Z.of_nat i) st)
         <> Retry.ReturnedUndefined
      /\ ((exists e, fst (Retry.retry_loop fn maxRetries fuel (Z.of_nat i) st)
                     = Retry.Thrown e) -> c = fuel)
      /\ snd (Retry.retry_loop fn maxRetries fuel (Z.of_nat i) st)
         = Retry.Run (Retry.world_after fn c (Retry.world st))
             (Retry.calls st + c)
             (Retry.waits st ++ map Retry.delay (seq i (c - 1))).
Proof.
  induction fuel as [|fuel IH]; intros i st Hfuel Hsum; [lia|].
  simpl. destruct (fn (Retry.world st)) as [o w'] eqn:Hfn. destruct o as [a|e].
  - exists 1%nat. simpl. rewrite Hfn, app_nil_r, Nat.add_1_r. simpl.
    repeat split; try lia; [discriminate|]. intros [e [=]].
  - destruct (Z.eqb_spec (Z.of_nat i) (maxRetries - 1)) as [Hlast|Hmore].
    + exists 1%nat. simpl. rewrite Hfn, app_nil_r, Nat.add_1_r. simpl.
      repeat split; try lia. discriminate.
    + replace (Z.of_nat i + 1) with (Z.of_nat (S i)) by lia.
      destruct (IH (S i)
                  (Retry.Run w' (S (Retry.calls st))
                     (Retry.waits st ++ [CONFIG.RETRY_DELAY * 2 ^ Z.of_nat i]))
                  ltac:(lia) ltac:(lia)) as (c & Hc & Hdef & Hthrown & Hrun).
      exists (S c). split; [lia|]. split; [exact Hdef|].
      split; [intros H; rewrite (Hthrown H); reflexivity|].
      rewrite Hrun. simpl. rewrite Hfn. simpl. f_equal; [lia|].
      rewrite <- app_assoc. f_equal.
      destruct c as [|c]; [lia|]. simpl. rewrite Nat.sub_0_r. reflexivity.
Qed.

(** X5: whatever the operation does, [retryRequest] with [N >= 1]
    invokes it at least once and at most [N] times, never returns
    [undefined], throws only after the [N]-th invocation, waits only
    between invocations (after [c] invocations the delays are
    [RETRY_DELAY * 2^i] for [i < c - 1]), and so waits
    [RETRY_DELAY * (2^(c-1) - 1)] in total, at most
    [RETRY_DELAY * (2^(N-1) - 1)]. *)
Theorem retryRequest_bounds (N : nat) (st : Retry.run W) :
  (1 <= N)%nat ->
  exists c : nat,
    (1 <= c <= N)%nat
    /\ fst (Retry.retryRequest fn (Z.of_nat N) st) <> Retry.ReturnedUndefined
    /\ ((exists e, fst (Retry.retryRequest fn (Z.of_nat N) st) = Retry.Thrown e) ->
        c = N)
    /\ snd (Retry.retryRequest fn (Z.of_nat N) st)
       = Retry.Run (Retry.world_after fn c (Retry.world st))
           (Retry.calls st + c)
           (Retry.waits st ++ map Retry.delay (seq 0 (c - 1)))
    /\ fold_right Z.add 0 (map Retry.delay (seq 0 (c - 1)))
       = CONFIG.RETRY_DELAY * (2 ^ Z.of_nat (c - 1) - 1)
    /\ fold_right Z.add 0 (map Retry.delay (seq 0 (c - 1)))
       <= CONFIG.RETRY_DELAY * (2 ^ Z.of_nat (N - 1) - 1).
Proof.
  intros HN. unfold Retry.retryRequest. rewrite Nat2Z.id.
  destruct (retry_loop_bounds (Z.of_nat N) N 0%nat st HN ltac:(lia))
    as (c & Hc & Hdef & Hthrown & Hrun).
  exists c. repeat split; try lia; try assumption.
  - rewrite backoff_sum. change (2 ^ Z.of_nat 0) with 1. lia.
  - rewrite backoff_sum. change (2 ^ Z.of_nat 0) with 1.
    assert (2 ^ Z.of_nat (c - 1) <= 2 ^ Z.of_nat (N - 1))
      by (apply Z.pow_le_mono_r; lia).
    unfold CONFIG.RETRY_DELAY. lia.
Qed.

End RetryBounds.

Lemma retryRequest_no_attempts_witness :
  Retry.retryRequest Sample.broken 0 (Retry.Run 0%nat 0%nat [])
  = (Retry.ReturnedUndefined, Retry.Run 0%nat 0%nat []).
Proof.
  apply (retryRequest_no_attempts Sample.broken 0 (Retry.Run 0%nat 0%nat [])). lia.
Defined.

Lemma retryRequest_bounds_witness :
  exists c : nat,
    (1 <= c <= 3)%nat
    /\ snd (Retry.retryRequest Sample.flaky 3 (Retry.Run 0%nat 0%nat []))
       = Retry.Run (Retry.world_after Sample.flaky c 0%nat) c
           (map Retry.delay (seq 0 (c - 1)))
    /\ fold_right Z.add 0 (map Retry.delay (seq 0 (c - 1))) <= 3000.
Proof.
  destruct (retryRequest_bounds Sample.flaky 3 (Retry.Run 0%nat 0%nat []) ltac:(lia))
    as (c & Hc & _ & _ & Hrun & _ & Hsum).
  exists c. split; [exact Hc|]. split; [exact Hrun|exact Hsum].
Defined.

(** ** Activities: what the sheet gives back *)

(** X6: [loadActivities] never yields an activity without an id or
    without a status: rows without an id are dropped (so there are at
    most as many activities as rows), every row with an id is loaded,
    and a status cell that is missing or empty reads as [planned]. *)
Theorem loadActivities_wellformed (st : Store) :
  Forall (fun a => Activity.id a <> "" /\ Activity.status a <> "")
    (DataService.loadActivities st)
  /\ (length (DataService.loadActivities st) <= length (sheetActivities st))%nat
  /\ (forall row,
        In row (sheetActivities st) ->
        (In (DataService.rowToActivity row) (DataService.loadActivities st)
         <-> exists s, row !! 0%nat = Some s /\ s <> "")
        /\ (row !! 7%nat = None \/ row !! 7%nat = Some "" ->
            Activity.status (DataService.rowToActivity row) = "planned")).
Proof.
  split; [|split].
  - rewrite Forall_forall. intros a Ha. apply list_elem_of_In in Ha.
    split; [eapply loaded_has_id|eapply loaded_has_status]; exact Ha.
  - unfold DataService.loadActivities.
    etransitivity; [apply List.filter_length_le|]. rewrite length_map. reflexivity.
  - intros row Hrow. split.
    + unfold DataService.loadActivities. rewrite filter_In.
      unfold DataService.rowToActivity at 2. simpl.
      unfold DataService.cell, JS.or_default. split.
      * intros [_ H]. destruct (row !! 0%nat) as [s|]; [|discriminate].
        exists s. split; [reflexivity|].
        destruct (JS.truthy s) eqn:Hs; [apply truthy_true, Hs|discriminate].
      * intros (s & Hs & Hne). split; [apply in_map, Hrow|].
        rewrite Hs. apply truthy_true in Hne. rewrite Hne. exact Hne.
    + intros [H|H]; unfold DataService.rowToActivity; simpl; rewrite H; reflexivity.
Qed.

Lemma loadActivities_wellformed_witness :
  Activity.status
    (DataService.rowToActivity ["a9"; "TASK"; "Oferta"; "2024-01-20"; ""; "c1"])
  = "planned".
Proof.
  apply (proj2 (proj2 (proj2 (loadActivities_wellformed
           {| sheetActivities := [["a9"; "TASK"; "Oferta"; "2024-01-20"; ""; "c1"]];
              sheetHistoryCompanies := []; sheetHistoryContacts := [] |}))
           ["a9"; "TASK"; "Oferta"; "2024-01-20"; ""; "c1"]
           ltac:(left; reflexivity))).
  left. reflexivity.
Defined.

Lemma or_else_idem s d : JS.or_else (JS.or_else s d) d = JS.or_else s d.
Proof.
  unfold JS.or_else. destruct (JS.truthy s) eqn:Hs.
  - rewrite Hs. reflexivity.
  - destruct (JS.truthy d); reflexivity.
Qed.

(** X7: the row mappers are inverse to each other on complete records:
    an activity whose id, status, author and creation time are
    non-empty is read back from the row [saveActivity] writes exactly
    as it was; and writing what was read back changes nothing more
    (the defaults are filled in once). *)
Theorem activity_row_round_trip (env : Env) (a : Activity.t) :
  (Activity.id a <> "" -> Activity.status a <> "" ->
   Activity.createdBy a <> "" -> Activity.createdAt a <> "" ->
   DataService.rowToActivity (DataService.activityToRow env a) = a)
  /\ Stored.written env (Stored.written env a) = Stored.written env a.
Proof.
  fold (Stored.written env a). split.
  - intros Hid Hst Hby Hat. rewrite written_fields.
    rewrite !or_else_truthy by (apply truthy_true; assumption).
    destruct a; reflexivity.
  - rewrite (written_fields env (Stored.written env a)), (written_fields env a). simpl.
    rewrite !or_else_idem. reflexivity.
Qed.

Lemma activity_row_round_trip_witness :
  DataService.rowToActivity
    (DataService.activityToRow Sample.env
       (Activity.Make "a3" "PHONE" "Telefon" "2024-01-10" "" "" "p1" "completed"
          "jan@example.com" "2024-01-03T08:00:00.000Z"))
  = Activity.Make "a3" "PHONE" "Telefon" "2024-01-10" "" "" "p1" "completed"
      "jan@example.com" "2024-01-03T08:00:00.000Z".
Proof.
  apply (proj1 (activity_row_round_trip Sample.env
           (Activity.Make "a3" "PHONE" "Telefon" "2024-01-10" "" "" "p1" "completed"
              "jan@example.com" "2024-01-03T08:00:00.000Z")));
    discriminate.
Defined.

(** ** Activities: lookups that fail, and what an update touches *)

Lemma find_None_findIndex {A : Type} (f : A -> bool) (l : list A) :
  List.find f l = None -> Array.findIndex f l = None.
Proof.
  induction l as [|x l IH]; simpl; [reflexivity|].
  destruct (f x); [discriminate|]. intros H. rewrite (IH H). reflexivity.
Qed.

Lemma lookup_empty_id (st : Store) : Stored.lookup "" st = None.
Proof.
  unfold Stored.lookup.
  destruct (List.find _ (DataService.loadActivities st)) as [a|] eqn:Hf; [|reflexivity].
  apply find_some in Hf. destruct Hf as [Hin Hid].
  apply String.eqb_eq in Hid. apply loaded_has_id in Hin. contradiction.
Qed.

Section MissingFacts.

Variable TYPES : string -> option ActivityType.
Variable dateParses : string -> bool.

(** X8: an id that no stored activity carries is reported as not
    found by [updateActivity] and by [deleteActivity] alike, whatever
    the updates are; the empty id is never found. *)
Theorem unknown_id_not_found (env : Env) (activityId : string)
    (updates : Updates.t) (st : Store) :
  (Stored.lookup activityId st = None ->
   ActivitiesService.updateActivity TYPES dateParses env activityId updates st
   = ActivitiesService.Error "Aktywność nie znaleziona"
   /\ ActivityOperations.deleteActivity TYPES env activityId st
      = ActivitiesService.Error "Aktywność nie znaleziona")
  /\ ActivitiesService.updateActivity TYPES dateParses env "" updates st
     = ActivitiesService.Error "Aktywność nie znaleziona"
  /\ ActivityOperations.deleteActivity TYPES env "" st
     = ActivitiesService.Error "Aktywność nie znaleziona".
Proof.
  assert (Hgen : forall i, Stored.lookup i st = None ->
    ActivitiesService.updateActivity TYPES dateParses env i updates st
    = ActivitiesService.Error "Aktywność nie znaleziona"
    /\ ActivityOperations.deleteActivity TYPES env i st
       = ActivitiesService.Error "Aktywność nie znaleziona").
  { intros i Hnone. unfold Stored.lookup in Hnone.
    apply find_None_findIndex in Hnone.
    unfold ActivitiesService.updateActivity, ActivityOperations.deleteActivity.
    cbv zeta. rewrite Hnone. split; reflexivity. }
  split; [apply Hgen|]. apply Hgen, lookup_empty_id.
Qed.


End MissingFacts.

Lemma unknown_id_not_found_witness :
  ActivitiesService.updateActivity Sample.TYPES Sample.dateParses Sample.env
    "a7" (Updates.only_status "completed") Sample.store
  = ActivitiesService.Error "Aktywność nie znaleziona"
  /\ ActivityOperations.deleteActivity Sample.TYPES Sample.env "a7" Sample.store
     = ActivitiesService.Error "Aktywność nie znaleziona".
Proof.
  apply (proj1 (unknown_id_not_found Sample.TYPES Sample.dateParses Sample.env
                  "a7" (Updates.only_status "completed") Sample.store)).
  reflexivity.
Defined.


(** ** Activities: creating, and the audit trail *)

Lemma or_else_same s : JS.or_else s s = s.
Proof. unfold JS.or_else. destruct (JS.truthy s); reflexivity. Qed.

Lemma find_app_first {A : Type} (f : A -> bool) (l1 l2 : list A) :
  List.find f (l1 ++ l2)
  = match List.find f l1 with
    | Some x => Some x
    | None => List.find f l2
    end.
Proof.
  induction l1 as [|x l1 IH]; simpl; [reflexivity|].
  destruct (f x); [reflexivity|exact IH].
Qed.

Lemma logToBoth_sheets (env : Env) (a : Activity.t) (content meta : string)
    (st : Store) :
  let user := JS.or_else (userDisplayText env) (JS.or_else (userEmail env) "") in
  sheetActivities (ActivityOperations.logToBoth env a content meta st)
  = sheetActivities st
  /\ sheetHistoryCompanies (ActivityOperations.logToBoth env a content meta st)
     = (sheetHistoryCompanies st
        ++ if JS.truthy (Activity.companyId a)
           then [[companyLogId env; Activity.companyId a; "event"; companyLogAt env;
                  user; content; meta]]
           else [])%list
  /\ sheetHistoryContacts (ActivityOperations.logToBoth env a content meta st)
     = (sheetHistoryContacts st
        ++ if JS.truthy (Activity.contactId a)
           then [[contactLogId env; Activity.contactId a; "event"; contactLogAt env;
                  user; content; meta]]
           else [])%list.
Proof.
  cbv zeta. unfold ActivityOperations.logToBoth, DataService.logCompanyHistory,
    DataService.logContactHistory, DataService.appendRow.
  destruct (JS.truthy (Activity.companyId a)), (JS.truthy (Activity.contactId a));
    simpl; rewrite ?app_nil_r; auto.
Qed.

Section CreateFacts.

Variable TYPES : string -> option ActivityType.
Variable dateParses : string -> bool.

(** X10: [createActivity] rejects exactly the parameters that
    [validateActivity] rejects, and it fails with every violated
    rule's message, joined by [", "]. *)
Theorem createActivity_rejects (env : Env) (params : Activity.t) (st : Store) :
  (ActivitiesService.valid
     (ActivitiesService.validateActivity TYPES dateParses params) = false
   <-> exists msg,
         ActivityOperations.createActivity TYPES dateParses env params st
         = ActivitiesService.Error msg)
  /\ (forall msg,
        ActivityOperations.createActivity TYPES dateParses env params st
        = ActivitiesService.Error msg ->
        msg = String.concat ", " (ValidationRules.violations TYPES dateParses params)
        /\ ValidationRules.violations TYPES dateParses params <> []).
Proof.
  unfold ActivityOperations.createActivity. cbv zeta.
  pose proof (validateActivity_errors TYPES dateParses params) as Herr.
  pose proof (validateActivity_valid TYPES dateParses params) as Hval.
  set (v := ActivitiesService.validateActivity TYPES dateParses params) in *.
  clearbody v.
  destruct (ActivitiesService.valid v) eqn:Hv; simpl negb; cbv iota.
  - split; [split; [discriminate|intros [msg [=]]]|intros msg [=]].
  - split; [split; [eauto|reflexivity]|].
    intros msg [= <-]. rewrite Herr. split; [reflexivity|].
    intros Hnil. rewrite <- Herr in Hnil. apply Hval in Hnil. congruence.
Qed.

(** X11: a valid [createActivity] appends one row to the sheet and the
    activity it returns is what a lookup by the generated id then
    shows, field for field, provided the generated id is non-empty and
    not in use; the new activity is [planned] unless a status was
    given, is dated now unless a date was given, and the records of
    all other ids are as before. *)
Theorem createActivity_stored (env : Env) (params : Activity.t) (st : Store) :
  ActivitiesService.valid
    (ActivitiesService.validateActivity TYPES dateParses params) = true ->
  freshId env <> "" ->
  Stored.lookup (freshId env) st = None ->
  exists (a : Activity.t) (st' : Store),
    ActivityOperations.createActivity TYPES dateParses env params st
    = ActivitiesService.Ok (a, st')
    /\ sheetActivities st'
       = (sheetActivities st ++ [DataService.activityToRow env a])%list
    /\ Stored.lookup (freshId env) st' = Some a
    /\ Activity.id a = freshId env
    /\ Activity.status a = JS.or_else (Activity.status params) "planned"
    /\ Activity.date a = JS.or_else (Activity.date params) (nowISO env)
    /\ (forall other, other <> freshId env ->
          Stored.lookup other st' = Stored.lookup other st).
Proof.
  intros Hvalid Hfresh Hfree.
  unfold ActivityOperations.createActivity. cbv zeta. rewrite Hvalid. simpl negb. cbv iota.
  eexists. eexists. split; [reflexivity|].
  set (a := Activity.Make (freshId env) _ _ _ _ _ _ _ _ _).
  assert (Hsheet :
    sheetActivities
      (ActivityOperations.logActivityToHistory TYPES env a
         (snd (DataService.saveActivity env a None st)))
    = (sheetActivities st ++ [DataService.activityToRow env a])%list).
  { unfold ActivityOperations.logActivityToHistory. cbv zeta.
    rewrite (proj1 (logToBoth_sheets env a _ _ _)). reflexivity. }
  assert (Hback : DataService.rowToActivity (DataService.activityToRow env a) = a).
  { fold (Stored.written env a). rewrite written_fields. subst a. simpl.
    rewrite or_else_same, or_else_idem, !or_else_empty, !or_else_same. reflexivity. }
  assert (Hload :
    DataService.loadActivities
      (ActivityOperations.logActivityToHistory TYPES env a
         (snd (DataService.saveActivity env a None st)))
    = (DataService.loadActivities st ++ [a])%list).
  { unfold DataService.loadActivities. rewrite Hsheet, map_app, List.filter_app.
    cbn [map List.filter]. rewrite Hback.
    replace (JS.truthy (Activity.id a)) with true; [reflexivity|].
    symmetry. apply truthy_true. exact Hfresh. }
  split; [exact Hsheet|].
  split.
  { unfold Stored.lookup in *. rewrite Hload, find_app_first, Hfree. simpl.
    rewrite String.eqb_refl. reflexivity. }
  split; [reflexivity|]. split; [reflexivity|]. split; [reflexivity|].
  intros other Hother. unfold Stored.lookup. rewrite Hload, find_app_first.
  destruct (List.find _ (DataService.loadActivities st)); [reflexivity|].
  simpl. destruct (String.eqb_spec (freshId env) other); [congruence|reflexivity].
Qed.

End CreateFacts.

Lemma createActivity_rejects_witness :
  exists msg,
    ActivityOperations.createActivity Sample.TYPES Sample.dateParses Sample.env
      Sample.unlinkedEmail Sample.store
    = ActivitiesService.Error msg.
Proof.
  apply (proj1 (proj1 (createActivity_rejects Sample.TYPES Sample.dateParses
                         Sample.env Sample.unlinkedEmail Sample.store))).
  reflexivity.
Defined.

Lemma createActivity_stored_witness :
  exists (a : Activity.t) (st' : Store),
    ActivityOperations.createActivity Sample.TYPES Sample.dateParses Sample.env
      SampleMore.newTask Sample.store
    = ActivitiesService.Ok (a, st')
    /\ Stored.lookup (freshId Sample.env) st' = Some a
    /\ Activity.status a = "planned".
Proof.
  destruct (createActivity_stored Sample.TYPES Sample.dateParses Sample.env
              SampleMore.newTask Sample.store eq_refl ltac:(discriminate) eq_refl)
    as (a & st' & Hrun & _ & Hlook & _ & Hstatus & _).
  exists a, st'. split; [exact Hrun|]. split; [exact Hlook|exact Hstatus].
Defined.

Section AuditFacts.

Variable TYPES : string -> option ActivityType.
Variable dateParses : string -> bool.

Lemma logActivityUpdate_logToBoth (env : Env) (a : Activity.t) (st : Store) :
  ActivitiesService.logActivityUpdate TYPES env a st
  = ActivityOperations.logToBoth env a
      ("Zaktualizowano " ++ JS.toLowerCase (ActivityOperations.typeLabel TYPES a)
       ++ ": " ++ Activity.title a)%string
      ("activity_updated:" ++ Activity.id a)%string st.
Proof. reflexivity. Qed.

(** X12: every successful create, update and delete of an activity
    appends exactly one row to the history of its company when it has
    one, and exactly one to the history of its contact when it has
    one, and leaves a history as it is otherwise.  The row holds the
    id and the clock reading that the logger drew for itself (not the
    activity's), the owner, the type [event], the user, the text
    [<label>: <title>] (after [Zaktualizowano] or [Usunięto] with the
    label in lower case for an update or a delete; the lower case is
    spelled out for a label of ASCII characters) and the tag
    [activity_created:<id>], [activity_updated:<id>] or
    [activity_deleted:<id>] with the activity's id. *)
Theorem history_is_logged (env : Env) (st : Store) :
  let user := JS.or_else (userDisplayText env) (JS.or_else (userEmail env) "") in
  let companyRows (a : Activity.t) (content meta : string) : list (list string) :=
    if JS.truthy (Activity.companyId a)
    then [[companyLogId env; Activity.companyId a; "event"; companyLogAt env;
           user; content; meta]]
    else [] in
  let contactRows (a : Activity.t) (content meta : string) : list (list string) :=
    if JS.truthy (Activity.contactId a)
    then [[contactLogId env; Activity.contactId a; "event"; contactLogAt env;
           user; content; meta]]
    else [] in
  let label (a : Activity.t) : string := ActivityOperations.typeLabel TYPES a in
  (forall params a st',
     ActivityOperations.createActivity TYPES dateParses env params st
     = ActivitiesService.Ok (a, st') ->
     let content := (label a ++ ": " ++ Activity.title a)%string in
     let meta := ("activity_created:" ++ Activity.id a)%string in
     sheetHistoryCompanies st'
     = (sheetHistoryCompanies st ++ companyRows a content meta)%list
     /\ sheetHistoryContacts st'
        = (sheetHistoryContacts st ++ contactRows a content meta)%list)
  /\ (forall activityId updates a st',
        ActivitiesService.updateActivity TYPES dateParses env activityId updates st
        = ActivitiesService.Ok (a, st') ->
        exists lowered,
          (JS.isAscii (label a) = true -> lowered = JS.toLowerCase (label a))
          /\ let content :=
               ("Zaktualizowano " ++ lowered ++ ": " ++ Activity.title a)%string in
             let meta := ("activity_updated:" ++ Activity.id a)%string in
             sheetHistoryCompanies st'
             = (sheetHistoryCompanies st ++ companyRows a content meta)%list
             /\ sheetHistoryContacts st'
                = (sheetHistoryContacts st ++ contactRows a content meta)%list)
  /\ (forall activityId st',
        ActivityOperations.deleteActivity TYPES env activityId st
        = ActivitiesService.Ok st' ->
        exists a lowered,
          Stored.lookup activityId st = Some a
          /\ (JS.isAscii (label a) = true -> lowered = JS.toLowerCase (label a))
          /\ let content :=
               ("Usunięto " ++ lowered ++ ": " ++ Activity.title a)%string in
             let meta := ("activity_deleted:" ++ Activity.id a)%string in
             sheetHistoryCompanies st'
             = (sheetHistoryCompanies st ++ companyRows a content meta)%list
             /\ sheetHistoryContacts st'
                = (sheetHistoryContacts st ++ contactRows a content meta)%list).
Proof.
  cbv zeta. split; [|split].
  - intros params a st'. unfold ActivityOperations.createActivity. cbv zeta.
    destruct (negb _); [discriminate|]. intros [= <- <-].
    unfold ActivityOperations.logActivityToHistory. cbv zeta.
    match goal with
    | |- context [ActivityOperations.logToBoth env ?x ?c ?m ?s] =>
        destruct (logToBoth_sheets env x c m s) as (_ & Hc & Hk)
    end.
    rewrite Hc, Hk. split; reflexivity.
  - intros activityId updates a st'. unfold ActivitiesService.updateActivity. cbv zeta.
    destruct (Array.findIndex _ _) as [i|]; [|discriminate].
    destruct (DataService.loadActivities st !! i) as [x|]; [|discriminate].
    destruct (negb _); [discriminate|]. intros [= <- <-].
    rewrite !logActivityUpdate_logToBoth.
    match goal with
    | |- context [ActivityOperations.logToBoth env ?x ?c ?mt ?s] =>
        destruct (logToBoth_sheets env x c mt s) as (_ & Hc & Hk);
        exists (JS.toLowerCase (ActivityOperations.typeLabel TYPES x))
    end.
    rewrite Hc, Hk. split; [reflexivity|]. split; reflexivity.
  - intros activityId st'. unfold ActivityOperations.deleteActivity. cbv zeta.
    destruct (Array.findIndex _ _) as [i|] eqn:Hi; [|discriminate].
    destruct (DataService.loadActivities st !! i) as [x|] eqn:Hx; [|discriminate].
    intros [= <-].
    destruct (findIndex_Some _ _ _ Hi) as (y & Hy & _ & Hfind).
    assert (y = x) by congruence. subst y.
    exists x, (JS.toLowerCase (ActivityOperations.typeLabel TYPES x)).
    unfold ActivityOperations.logActivityDeletion. cbv zeta.
    match goal with
    | |- context [ActivityOperations.logToBoth env ?x ?c ?mt ?s] =>
        destruct (logToBoth_sheets env x c mt s) as (_ & Hc & Hk)
    end.
    rewrite Hc, Hk. split; [exact Hfind|]. split; [reflexivity|]. split; reflexivity.
Qed.

End AuditFacts.

Lemma sample_create_runs :
  exists (a : Activity.t) (st' : Store),
    ActivityOperations.createActivity Sample.TYPES Sample.dateParses Sample.env
      SampleMore.newTask Sample.store
    = ActivitiesService.Ok (a, st')
    /\ Activity.id a = freshId Sample.env
    /\ Activity.companyId a = "c1"
    /\ Activity.contactId a = ""
    /\ Activity.type a = "TASK"
    /\ Activity.title a = "Nowe zadanie".
Proof. eexists. eexists. vm_compute. repeat split; reflexivity. Qed.

Lemma history_is_logged_witness :
  exists (a : Activity.t) (st' : Store),
    ActivityOperations.createActivity Sample.TYPES Sample.dateParses Sample.env
      SampleMore.newTask Sample.store
    = ActivitiesService.Ok (a, st')
    /\ sheetHistoryCompanies st'
       = [[ "id_1705309200450_c4v5b6n7m"; "c1"; "event"; "2024-01-15T09:00:00.450Z";
            "Jan"; "Zadanie: Nowe zadanie";
            "activity_created:id_1705309200000_k3j9x2m1q" ]]
    /\ sheetHistoryContacts st' = [].
Proof.
  destruct sample_create_runs as (a & st' & Hrun & Hid & Hcompany & Hcontact & Htype & Htitle).
  destruct (proj1 (history_is_logged Sample.TYPES Sample.dateParses Sample.env Sample.store)
              SampleMore.newTask a st' Hrun) as (Hc & Hk).
  exists a, st'. split; [exact Hrun|].
  rewrite Hc, Hk. unfold ActivityOperations.typeLabel, ActivitiesService.getActivityType.
  rewrite Hid, Hcompany, Hcontact, Htype, Htitle. split; reflexivity.
Defined.

(** ** Activities: deleting, and rows addressed by position *)

Lemma blank_row_dropped : Stored.hasId (DataService.rowToActivity []) = false.
Proof. reflexivity. Qed.

Lemma loadRows_all (rows : list (list string)) :
  Forall (fun row => Stored.hasId (DataService.rowToActivity row) = true) rows ->
  Stored.loadRows rows = map DataService.rowToActivity rows.
Proof.
  induction 1 as [|row rows Hrow _ IH]; [reflexivity|].
  unfold Stored.loadRows in *. simpl. rewrite Hrow, IH. reflexivity.
Qed.

Lemma loadRows_clear (rows : list (list string)) :
  Forall (fun row => Stored.hasId (DataService.rowToActivity row) = true) rows ->
  forall i, Stored.loadRows (<[i := []]> rows)
            = delete i (map DataService.rowToActivity rows).
Proof.
  induction 1 as [|row rows Hrow Hall IH]; intros i; [reflexivity|].
  destruct i as [|i]; simpl.
  - unfold Stored.loadRows. simpl. fold (Stored.loadRows rows).
    apply loadRows_all, Hall.
  - unfold Stored.loadRows. simpl. rewrite Hrow.
    fold (Stored.loadRows (<[i := []]> rows)). rewrite IH. reflexivity.
Qed.

Lemma find_delete_other {A : Type} (f : A -> bool) (l : list A) :
  forall i x, l !! i = Some x -> f x = false ->
    List.find f (delete i l) = List.find f l.
Proof.
  induction l as [|y l IH]; intros i x Hx Hf; [discriminate|].
  destruct i as [|i]; simpl in *.
  - injection Hx as ->. rewrite Hf. reflexivity.
  - destruct (f y); [reflexivity|]. eapply IH; eassumption.
Qed.

Lemma find_delete_unique (target : string) (l : list Activity.t) :
  NoDup (map Activity.id l) ->
  forall i x, l !! i = Some x -> Activity.id x = target ->
    List.find (Stored.carries target) (delete i l) = None.
Proof.
  induction l as [|y l IH]; intros Hnd i x Hx Hid; [discriminate|].
  simpl in Hnd. apply NoDup_cons in Hnd. destruct Hnd as [Hy Hnd].
  destruct i as [|i]; simpl in *.
  - injection Hx as ->.
    destruct (List.find (Stored.carries target) l) as [z|] eqn:Hz; [|reflexivity].
    apply find_some in Hz. destruct Hz as [Hin Hz].
    unfold Stored.carries in Hz. apply String.eqb_eq in Hz.
    exfalso. apply Hy. apply list_elem_of_In. apply in_map_iff. exists z.
    split; [congruence|exact Hin].
  - assert (Hne : Stored.carries target y = false).
    { unfold Stored.carries. apply String.eqb_neq. intros Heq. apply Hy.
      apply list_elem_of_In. apply in_map_iff. exists x. split; [congruence|].
      apply list_elem_of_In. eapply list_elem_of_lookup_2, Hx. }
    rewrite Hne. eapply IH; eassumption.
Qed.

Section DeleteFacts.

Variable TYPES : string -> option ActivityType.

Lemma logActivityDeletion_sheet (env : Env) (a : Activity.t) (st : Store) :
  sheetActivities (ActivityOperations.logActivityDeletion TYPES env a st)
  = sheetActivities st.
Proof.
  unfold ActivityOperations.logActivityDeletion. cbv zeta.
  apply logToBoth_sheets.
Qed.

(** X13: on a sheet without blank rows (every row carries an id),
    [deleteActivity] of a stored id removes exactly that activity from
    what [loadActivities] returns and leaves the records of all other
    ids as they were; when ids are unique the deleted id is no longer
    found. *)
Theorem deleteActivity_removes (env : Env) (activityId : string) (st : Store)
    (existing : Activity.t) :
  Forall (fun row => Stored.hasId (DataService.rowToActivity row) = true)
    (sheetActivities st) ->
  Stored.lookup activityId st = Some existing ->
  exists (i : nat) (st' : Store),
    ActivityOperations.deleteActivity TYPES env activityId st = ActivitiesService.Ok st'
    /\ DataService.loadActivities st !! i = Some existing
    /\ DataService.loadActivities st' = delete i (DataService.loadActivities st)
    /\ (forall other, other <> activityId ->
          Stored.lookup other st' = Stored.lookup other st)
    /\ (NoDup (map Activity.id (DataService.loadActivities st)) ->
        Stored.lookup activityId st' = None).
Proof.
  intros Hall Hfound.
  destruct (lookup_found _ _ _ Hfound) as [Hin Hid].
  unfold Stored.lookup in Hfound.
  destruct (find_findIndex _ _ _ Hfound) as (i & Hi & Hx).
  exists i.
  exists (ActivityOperations.logActivityDeletion TYPES env existing
            (DataService.deleteActivity i st)).
  split.
  { unfold ActivityOperations.deleteActivity. cbv zeta. rewrite Hi, Hx. reflexivity. }
  split; [exact Hx|].
  assert (Hload :
    DataService.loadActivities
      (ActivityOperations.logActivityDeletion TYPES env existing
         (DataService.deleteActivity i st))
    = delete i (DataService.loadActivities st)).
  { unfold DataService.loadActivities at 1. rewrite logActivityDeletion_sheet. simpl.
    unfold DataService.clearRow.
    change (List.filter _ (map DataService.rowToActivity (<[i := []]> (sheetActivities st))))
      with (Stored.loadRows (<[i := []]> (sheetActivities st))).
    rewrite (loadRows_clear _ Hall).
    change (DataService.loadActivities st) with (Stored.loadRows (sheetActivities st)).
    rewrite (loadRows_all _ Hall). reflexivity. }
  split; [exact Hload|]. split.
  - intros other Hother. unfold Stored.lookup. rewrite Hload.
    apply (find_delete_other _ _ i existing Hx).
    apply String.eqb_neq. congruence.
  - intros Hnd. unfold Stored.lookup. rewrite Hload.
    apply (find_delete_unique activityId _ Hnd i existing Hx Hid).
Qed.

End DeleteFacts.

Lemma deleteActivity_removes_witness :
  exists (i : nat) (st' : Store),
    ActivityOperations.deleteActivity Sample.TYPES Sample.env "a1" Sample.store
    = ActivitiesService.Ok st'
    /\ DataService.loadActivities st' = delete i (DataService.loadActivities Sample.store)
    /\ Stored.lookup "a1" st' = None.
Proof.
  destruct (deleteActivity_removes Sample.TYPES Sample.env "a1" Sample.store
              (Activity.Make "a1" "TASK" "Oferta" "2024-01-20" "" "c1" ""
                 "planned" "jan@example.com" "2024-01-02T08:00:00.000Z"))
    as (i & st' & Hrun & _ & Hload & _ & Hgone).
  - repeat constructor.
  - reflexivity.
  - exists i, st'. split; [exact Hrun|]. split; [exact Hload|].
    apply Hgone. apply (bool_decide_unpack _). vm_compute. exact I.
Defined.

Lemma findIndex_before {A : Type} (f : A -> bool) (l : list A) :
  forall r, Array.findIndex f l = Some r ->
    forall j x, (j < r)%nat -> l !! j = Some x -> f x = false.
Proof.
  induction l as [|y l IH]; intros r Hr j x Hj Hx; [discriminate|].
  simpl in Hr. destruct (f y) eqn:Hy.
  - injection Hr as <-. lia.
  - destruct (Array.findIndex f l) as [r'|] eqn:Hr'; [|discriminate].
    simpl in Hr. injection Hr as <-.
    destruct j as [|j]; simpl in Hx.
    + injection Hx as <-. exact Hy.
    + apply (IH r' eq_refl j x); [lia|exact Hx].
Qed.

Section PositionFacts.

Variable target : string.
Hypothesis target_nonempty : target <> "".

(** The index among the rows that have an id never exceeds the index
    in the sheet, and falls short of it as soon as a blank row sits in
    front. *)
Lemma index_shift (rows : list (list string)) :
  forall r,
    Array.findIndex (fun row => Stored.carries target (DataService.rowToActivity row))
      rows = Some r ->
    exists i x,
      Array.findIndex (Stored.carries target) (Stored.loadRows rows) = Some i
      /\ Stored.loadRows rows !! i = Some x
      /\ (i <= r)%nat
      /\ ((exists p row, (p < r)%nat /\ rows !! p = Some row
                         /\ Stored.hasId (DataService.rowToActivity row) = false) ->
          (i < r)%nat).
Proof.
  induction rows as [|row rows IH]; intros r Hr; [discriminate|].
  simpl in Hr.
  destruct (Stored.carries target (DataService.rowToActivity row)) eqn:Hc.
  - injection Hr as <-.
    assert (Hid : Stored.hasId (DataService.rowToActivity row) = true).
    { unfold Stored.hasId. apply truthy_true. unfold Stored.carries in Hc.
      apply String.eqb_eq in Hc. congruence. }
    exists 0%nat, (DataService.rowToActivity row).
    unfold Stored.loadRows. simpl. rewrite Hid. simpl. rewrite Hc.
    repeat split; try lia. intros (p & _ & Hp & _). lia.
  - destruct (Array.findIndex _ rows) as [r'|] eqn:Hr'; [|discriminate].
    simpl in Hr. injection Hr as <-.
    destruct (IH r' eq_refl) as (i & x & Hi & Hx & Hle & Hlt).
    destruct (Stored.hasId (DataService.rowToActivity row)) eqn:Hid.
    + exists (S i), x. unfold Stored.loadRows. simpl. rewrite Hid. simpl. rewrite Hc.
      fold (Stored.loadRows rows). rewrite Hi. simpl.
      repeat split; try lia; [exact Hx|].
      intros (p & row' & Hp & Hrow' & Hblank).
      destruct p as [|p]; simpl in Hrow'.
      * injection Hrow' as <-. congruence.
      * enough (i < r')%nat by lia. apply Hlt. exists p, row'. repeat split; [lia| |]; assumption.
    + exists i, x. unfold Stored.loadRows. simpl. rewrite Hid.
      fold (Stored.loadRows rows). repeat split; try assumption; lia.
Qed.

(** Blanking a row that does not carry the id leaves the first record
    with the id as it was. *)
Lemma find_after_clear (rows : list (list string)) :
  forall i,
    (forall row, rows !! i = Some row ->
       Stored.carries target (DataService.rowToActivity row) = false) ->
    List.find (Stored.carries target) (Stored.loadRows (<[i := []]> rows))
    = List.find (Stored.carries target) (Stored.loadRows rows).
Proof.
  induction rows as [|row rows IH]; intros i Hi; [reflexivity|].
  destruct i as [|i]; simpl.
  - specialize (Hi row eq_refl). unfold Stored.loadRows. simpl.
    destruct (Stored.hasId (DataService.rowToActivity row)); simpl; [rewrite Hi|];
      reflexivity.
  - unfold Stored.loadRows. simpl.
    fold (Stored.loadRows (<[i := []]> rows)). fold (Stored.loadRows rows).
    destruct (Stored.hasId (DataService.rowToActivity row)); simpl;
      [destruct (Stored.carries target (DataService.rowToActivity row)); [reflexivity|]|];
      apply IH; intros row' Hrow'; apply Hi; exact Hrow'.
Qed.

End PositionFacts.


Section MisplacedFacts.

Variable TYPES : string -> option ActivityType.
Variable dateParses : string -> bool.

(** X14: rows are addressed by the position among the rows that have
    an id.  When a blank row (left by an earlier delete) sits in front
    of an activity's row, [deleteActivity] of that activity reports
    success but blanks a row further up, and the activity is still
    stored afterwards. *)
Theorem deleteActivity_misses (env : Env) (activityId : string) (st : Store)
    (r : nat) :
  activityId <> "" ->
  Array.findIndex (fun row => Stored.carries activityId (DataService.rowToActivity row))
    (sheetActivities st) = Some r ->
  (exists p row, (p < r)%nat /\ sheetActivities st !! p = Some row
                 /\ Stored.hasId (DataService.rowToActivity row) = false) ->
  exists (i : nat) (st' : Store),
    ActivityOperations.deleteActivity TYPES env activityId st = ActivitiesService.Ok st'
    /\ (i < r)%nat
    /\ sheetActivities st' = <[i := []]> (sheetActivities st)
    /\ sheetActivities st' !! r = sheetActivities st !! r
    /\ is_Some (Stored.lookup activityId st)
    /\ Stored.lookup activityId st' = Stored.lookup activityId st.
Proof.
  intros Hne Hr Hblank.
  destruct (index_shift activityId Hne (sheetActivities st) r Hr)
    as (i & x & Hi & Hx & _ & Hlt).
  specialize (Hlt Hblank).
  exists i.
  exists (ActivityOperations.logActivityDeletion TYPES env x
            (DataService.deleteActivity i st)).
  split.
  { unfold ActivityOperations.deleteActivity. cbv zeta.
    change (DataService.loadActivities st) with (Stored.loadRows (sheetActivities st)).
    change (fun a : Activity.t => (Activity.id a =? activityId)%string)
      with (Stored.carries activityId).
    rewrite Hi, Hx. reflexivity. }
  split; [exact Hlt|].
  rewrite logActivityDeletion_sheet. simpl. unfold DataService.clearRow.
  split; [reflexivity|].
  split; [apply list_lookup_insert_ne; lia|].
  split.
  { destruct (findIndex_Some _ _ _ Hi) as (y & _ & _ & Hfind). exists y. exact Hfind. }
  unfold Stored.lookup, DataService.loadActivities.
  rewrite logActivityDeletion_sheet. simpl. unfold DataService.clearRow.
  apply (find_after_clear activityId).
  intros row Hrow.
  apply (findIndex_before _ _ r Hr i row Hlt Hrow).
Qed.


End MisplacedFacts.

Lemma deleteActivity_misses_witness :
  exists (i : nat) (st' : Store),
    ActivityOperations.deleteActivity Sample.TYPES Sample.env "a3"
      SampleMore.storeAfterDelete = ActivitiesService.Ok st'
    /\ (i < 2)%nat
    /\ sheetActivities st' = <[i := []]> (sheetActivities SampleMore.storeAfterDelete)
    /\ Stored.lookup "a3" st' = Stored.lookup "a3" SampleMore.storeAfterDelete.
Proof.
  destruct (deleteActivity_misses Sample.TYPES Sample.env "a3"
              SampleMore.storeAfterDelete 2%nat ltac:(discriminate) eq_refl)
    as (i & st' & Hrun & Hi & Hsheet & _ & _ & Hstill).
  - exists 0%nat, []. repeat split. lia.
  - exists i, st'. repeat split; assumption.
Defined.


(** In the sheet above the update of [a3] lands on the row of [b2],
    which is then no longer stored. *)
Example update_after_delete_loses_neighbour :
  Activity.title <$> Stored.lookup "b2" SampleMore.storeAfterDelete = Some "Umowa"
  /\ exists a st',
       ActivitiesService.updateActivity Sample.TYPES Sample.dateParses Sample.env "a3"
         (Updates.only_status "cancelled") SampleMore.storeAfterDelete
       = ActivitiesService.Ok (a, st')
       /\ Stored.lookup "b2" st' = None
       /\ map (fun row => DataService.cell row 0) (sheetActivities st')
          = [""; "a3"; "a3"].
Proof.
  split; [reflexivity|]. eexists. eexists. vm_compute. repeat split; reflexivity.
Qed.

(** ** Activities of one company or contact *)

Section ListingFacts.

Variable localeCompare : string -> string -> Z.
Hypothesis localeCompare_total :
  forall a b, localeCompare a b <= 0 \/ localeCompare b a <= 0.
Hypothesis localeCompare_trans :
  forall a b c,
    localeCompare a b <= 0 -> localeCompare b c <= 0 -> localeCompare a c <= 0.


End ListingFacts.


(** ** Control ids and escaped text *)

Lemma unsafe_char_underscore : CustomFieldsCommon.unsafe_char "_"%char = false.
Proof. reflexivity. Qed.








(** A key outside the ASCII range: six characters, ten bytes, six
    characters again in the id. *)
Example safeId_beyond_ascii :
  CustomFieldsCommon.safeId "zażółć" = "za____"
  /\ JS.length "zażółć" = 6%nat.
Proof. split; reflexivity. Qed.

(** Two different keys can get the same control id. *)
Example safeId_collision :
  CustomFieldsCommon.safeId "net price" = CustomFieldsCommon.safeId "net_price".
Proof. reflexivity. Qed.

Section ReplaceFacts.

Variable c : ascii.
Variable by_ : string.

Lemma occurs_app (d : ascii) (s1 s2 : string) :
  CustomFieldsText.occurs d (s1 ++ s2)
  = CustomFieldsText.occurs d s1 || CustomFieldsText.occurs d s2.
Proof.
  induction s1 as [|x s1 IH]; simpl; [reflexivity|].
  rewrite IH, orb_assoc. reflexivity.
Qed.

(** After the replacement the character is gone, as long as the
    replacement text does not bring it back. *)
Lemma replaceAll_removes (s : string) :
  CustomFieldsText.occurs c by_ = false ->
  CustomFieldsText.occurs c (CustomFieldsText.replaceAll c by_ s) = false.
Proof.
  intros Hby. induction s as [|x s IH]; simpl; [reflexivity|].
  destruct (Ascii.eqb x c) eqn:Hx.
  - rewrite occurs_app, Hby, IH. reflexivity.
  - simpl. rewrite Hx, IH. reflexivity.
Qed.

(** A character that is neither in the string nor in the replacement
    text is not in the result. *)
Lemma replaceAll_keeps_out (d : ascii) (s : string) :
  CustomFieldsText.occurs d by_ = false ->
  CustomFieldsText.occurs d s = false ->
  CustomFieldsText.occurs d (CustomFieldsText.replaceAll c by_ s) = false.
Proof.
  intros Hby. induction s as [|x s IH]; simpl; [reflexivity|].
  rewrite orb_false_iff. intros [Hx Hs].
  destruct (Ascii.eqb x c).
  - rewrite occurs_app, Hby, (IH Hs). reflexivity.
  - simpl. rewrite Hx, (IH Hs). reflexivity.
Qed.

(** A string without the character is left alone. *)
Lemma replaceAll_absent (s : string) :
  CustomFieldsText.occurs c s = false ->
  CustomFieldsText.replaceAll c by_ s = s.
Proof.
  induction s as [|x s IH]; simpl; [reflexivity|].
  rewrite orb_false_iff. intros [Hx Hs]. rewrite Hx, (IH Hs). reflexivity.
Qed.

End ReplaceFacts.

(** X18: the text [escape] returns holds no [<], no [>], no double
    quote and no apostrophe, whatever the input, and [escapeAttr]
    returns no line feed either; a text that holds none of the five
    special characters is returned unchanged. *)
Theorem escape_spec (str : string) :
  CustomFieldsText.occurs CustomFieldsText.lt (CustomFieldsText.escape str) = false
  /\ CustomFieldsText.occurs CustomFieldsText.gt (CustomFieldsText.escape str) = false
  /\ CustomFieldsText.occurs CustomFieldsText.quot (CustomFieldsText.escape str) = false
  /\ CustomFieldsText.occurs CustomFieldsText.apos (CustomFieldsText.escape str) = false
  /\ CustomFieldsText.occurs CustomFieldsText.lineFeed
       (CustomFieldsText.escapeAttr str) = false
  /\ CustomFieldsText.occurs CustomFieldsText.quot
       (CustomFieldsText.escapeAttr str) = false
  /\ (CustomFieldsText.occurs CustomFieldsText.amp str = false ->
      CustomFieldsText.occurs CustomFieldsText.lt str = false ->
      CustomFieldsText.occurs CustomFieldsText.gt str = false ->
      CustomFieldsText.occurs CustomFieldsText.quot str = false ->
      CustomFieldsText.occurs CustomFieldsText.apos str = false ->
      CustomFieldsText.escape str = str).
Proof.
  unfold CustomFieldsText.escapeAttr, CustomFieldsText.escape.
  set (s1 := CustomFieldsText.replaceAll CustomFieldsText.amp "&amp;" str).
  set (s2 := CustomFieldsText.replaceAll CustomFieldsText.lt "&lt;" s1).
  set (s3 := CustomFieldsText.replaceAll CustomFieldsText.gt "&gt;" s2).
  set (s4 := CustomFieldsText.replaceAll CustomFieldsText.quot "&quot;" s3).
  assert (H2 : CustomFieldsText.occurs CustomFieldsText.lt s2 = false)
    by (apply replaceAll_removes; reflexivity).
  assert (H3lt : CustomFieldsText.occurs CustomFieldsText.lt s3 = false)
    by (apply replaceAll_keeps_out; [reflexivity|exact H2]).
  assert (H3 : CustomFieldsText.occurs CustomFieldsText.gt s3 = false)
    by (apply replaceAll_removes; reflexivity).
  assert (H4lt : CustomFieldsText.occurs CustomFieldsText.lt s4 = false)
    by (apply replaceAll_keeps_out; [reflexivity|exact H3lt]).
  assert (H4gt : CustomFieldsText.occurs CustomFieldsText.gt s4 = false)
    by (apply replaceAll_keeps_out; [reflexivity|exact H3]).
  assert (H4 : CustomFieldsText.occurs CustomFieldsText.quot s4 = false)
    by (apply replaceAll_removes; reflexivity).
  assert (H5q : CustomFieldsText.occurs CustomFieldsText.quot
                  (CustomFieldsText.replaceAll CustomFieldsText.apos "&#039;" s4) = false)
    by (apply replaceAll_keeps_out; [reflexivity|exact H4]).
  repeat split.
  - apply replaceAll_keeps_out; [reflexivity|exact H4lt].
  - apply replaceAll_keeps_out; [reflexivity|exact H4gt].
  - exact H5q.
  - apply replaceAll_removes; reflexivity.
  - apply replaceAll_removes; reflexivity.
  - apply replaceAll_keeps_out; [reflexivity|exact H5q].
  - intros Ha Hl Hg Hq Hp. subst s4 s3 s2 s1.
    rewrite (replaceAll_absent _ _ str Ha), (replaceAll_absent _ _ str Hl),
      (replaceAll_absent _ _ str Hg), (replaceAll_absent _ _ str Hq),
      (replaceAll_absent _ _ str Hp).
    reflexivity.
Qed.

Lemma escape_spec_witness :
  CustomFieldsText.escape "Budget 2024" = "Budget 2024".
Proof.
  apply (proj2 (proj2 (proj2 (proj2 (proj2 (proj2 (escape_spec "Budget 2024")))))));
    reflexivity.
Defined.

Example escape_sample :
  CustomFieldsText.escape "<b>R&D</b>" = "&lt;b&gt;R&amp;D&lt;/b&gt;".
Proof. reflexivity. Qed.

(** ** Custom-field definitions: what is saved is what is loaded *)

Lemma or_default_or_else (x d : string) :
  JS.or_default (Some (JS.or_else x d)) d = JS.or_else x d.
Proof.
  unfold JS.or_default, JS.or_else.
  destruct (JS.truthy x) eqn:Hx; [rewrite Hx; reflexivity|].
  destruct (JS.truthy d); reflexivity.
Qed.

Lemma or_default_Some_truthy (x d : string) :
  x <> "" -> JS.or_default (Some x) d = x.
Proof. intros Hx. unfold JS.or_default. apply truthy_true in Hx. rewrite Hx. reflexivity. Qed.

Section DefinitionFacts.

Variable parseNumber : string -> JS.number.
Variable generateId : nat -> string.

(** X19: a definition written by [saveCustomFieldDefinition] is read
    back by the row mapper with the same key, label, options, required
    flag, enabled flag and, provided the host reads the printed order
    back as that number, the same order; an empty entity type comes
    back as [both] and an empty field type as [text]. *)
Theorem definition_round_trip (env : Env) (d : CustomFieldDefinition.t)
    (isUpdate : bool) (idx : nat) :
  parseNumber (pretty (CustomFieldDefinition.order d))
  = JS.Num (CustomFieldDefinition.order d) ->
  let d' :=
    CustomFields.rowToDefinition parseNumber generateId idx
      (CustomFieldStore.definitionToRow env d isUpdate) in
  CustomFieldDefinition._rowIndex d' = idx
  /\ CustomFieldDefinition.key d' = CustomFieldDefinition.key d
  /\ CustomFieldDefinition.label d' = CustomFieldDefinition.label d
  /\ CustomFieldDefinition.optionsJson d' = CustomFieldDefinition.optionsJson d
  /\ CustomFieldDefinition.required d' = CustomFieldDefinition.required d
  /\ CustomFieldDefinition.enabled d' = CustomFieldDefinition.enabled d
  /\ CustomFieldDefinition.order d' = CustomFieldDefinition.order d
  /\ CustomFieldDefinition.entityType d'
     = JS.or_else (CustomFieldDefinition.entityType d) "both"
  /\ CustomFieldDefinition.fieldType d'
     = JS.or_else (CustomFieldDefinition.fieldType d) "text"
  /\ (CustomFieldDefinition.id d <> "" ->
      CustomFieldDefinition.id d' = CustomFieldDefinition.id d).
Proof.
  intros Horder. cbv zeta.
  unfold CustomFields.rowToDefinition, CustomFieldStore.definitionToRow. cbv zeta.
  cbn [lookup list_lookup CustomFieldDefinition._rowIndex CustomFieldDefinition.key
       CustomFieldDefinition.label CustomFieldDefinition.optionsJson
       CustomFieldDefinition.required CustomFieldDefinition.enabled
       CustomFieldDefinition.order CustomFieldDefinition.entityType
       CustomFieldDefinition.fieldType CustomFieldDefinition.id].
  rewrite !or_default_or_else, !or_else_empty.
  repeat split.
  - destruct (CustomFieldDefinition.required d); reflexivity.
  - destruct (CustomFieldDefinition.enabled d); reflexivity.
  - unfold CustomFields.decodeOrder, CustomFields.toNumber. rewrite Horder. reflexivity.
  - intros Hid. rewrite (or_else_truthy _ _ (proj2 (truthy_true _) Hid)).
    apply or_default_Some_truthy, Hid.
Qed.

End DefinitionFacts.

Lemma sample_parseNumber_order : Sample.parseNumber (pretty 3) = JS.Num 3.
Proof. reflexivity. Qed.

Lemma definition_round_trip_witness :
  let d :=
    CustomFieldDefinition.Make 0 "f1" "company" "budget" "Budget" "number" ""
      true true 3 "2024-01-02T08:00:00.000Z" "" in
  CustomFieldDefinition.order
    (CustomFields.rowToDefinition Sample.parseNumber Sample.generateId 4
       (CustomFieldStore.definitionToRow Sample.env d true)) = 3
  /\ CustomFieldDefinition.enabled
       (CustomFields.rowToDefinition Sample.parseNumber Sample.generateId 4
          (CustomFieldStore.definitionToRow Sample.env d true)) = true.
Proof.
  intros d.
  pose proof (definition_round_trip Sample.parseNumber Sample.generateId Sample.env
                d true 4 sample_parseNumber_order) as H.
  cbv zeta in H. destruct H as (_ & _ & _ & _ & _ & Hen & Hord & _).
  split; [exact Hord|exact Hen].
Defined.

(** ** Custom-field definitions: the soft delete *)



Section DisableFacts.

Variable parseNumber : string -> JS.number.
Variable generateId : nat -> string.



End DisableFacts.


(** ** Tags of a company *)

Lemma or_default_Some_empty (s : string) : JS.or_default (Some s) "" = s.
Proof.
  unfold JS.or_default. destruct (JS.truthy s) eqn:Hs; [reflexivity|].
  apply truthy_false in Hs. congruence.
Qed.

Lemma cell_default (row : list string) (i : nat) :
  DataService.cell row i = default "" (row !! i).
Proof.
  unfold DataService.cell. destruct (row !! i) as [x|]; [|reflexivity].
  apply or_default_Some_empty.
Qed.

Lemma filter_map_swap {A B : Type} (f : A -> B) (p : B -> bool) (l : list A) :
  List.filter p (map f l) = map f (List.filter (fun x => p (f x)) l).
Proof.
  induction l as [|x l IH]; simpl; [reflexivity|].
  destruct (p (f x)); simpl; rewrite IH; reflexivity.
Qed.

(** X21: [loadCompanyTagRelations] reads the sheet row by row.  Its
    result is, in the order of the sheet and once for every such row,
    the rows whose second and third cell (company id and tag id) are
    both present and non-empty and, when a non-empty company id is
    asked for, whose company id is that one, each mapped cell by cell
    with [''] for a missing cell.  So it never yields a relation with
    an empty company id or tag id, asked for one company it yields
    exactly that company's relations among all of them, and asked
    with the empty id it yields what it yields without an argument. *)
Theorem loadCompanyTagRelations_valid (companyId : option string)
    (rows : list (list string)) :
  let field (row : list string) (i : nat) : string := default "" (row !! i) in
  let asked (c : string) : bool :=
    match companyId with
    | Some w => (w =? "")%string || (c =? w)%string
    | None => true
    end in
  let kept (row : list string) : bool :=
    negb (field row 1%nat =? "")%string && negb (field row 2%nat =? "")%string
    && asked (field row 1%nat) in
  CompanyData.loadCompanyTagRelations companyId rows
  = map (fun row =>
           TagRelation.Make (field row 0%nat) (field row 1%nat) (field row 2%nat)
             (field row 3%nat) (field row 4%nat))
      (List.filter kept rows)
  /\ Forall (fun r => TagRelation.companyId r <> "" /\ TagRelation.tagId r <> "")
       (CompanyData.loadCompanyTagRelations companyId rows)
  /\ (forall c, companyId = Some c -> c <> "" ->
        forall r, In r (CompanyData.loadCompanyTagRelations companyId rows) <->
                  In r (CompanyData.loadCompanyTagRelations None rows)
                  /\ TagRelation.companyId r = c)
  /\ CompanyData.loadCompanyTagRelations (Some "") rows
     = CompanyData.loadCompanyTagRelations None rows.
Proof.
  intros field asked kept.
  assert (Hall : Forall (fun r => TagRelation.companyId r <> "" /\ TagRelation.tagId r <> "")
                   (CompanyData.loadCompanyTagRelations None rows)).
  { rewrite Forall_forall. intros r Hr. apply list_elem_of_In in Hr.
    unfold CompanyData.loadCompanyTagRelations in Hr. cbv zeta in Hr.
    apply filter_In in Hr. destruct Hr as [_ Hr]. apply andb_true_iff in Hr.
    rewrite !truthy_true in Hr. exact Hr. }
  split; [|split; [|split]].
  - assert (Hrow : forall row,
      CompanyData.rowToRelation row
      = TagRelation.Make (field row 0%nat) (field row 1%nat) (field row 2%nat)
          (field row 3%nat) (field row 4%nat)).
    { intros row. unfold CompanyData.rowToRelation. rewrite !cell_default. reflexivity. }
    rewrite <- (map_ext _ _ Hrow).
    unfold CompanyData.loadCompanyTagRelations. cbv zeta.
    rewrite filter_map_swap.
    assert (Hkept : forall (p : list string -> bool),
      (forall row, kept row
                   = JS.truthy (TagRelation.companyId (CompanyData.rowToRelation row))
                     && JS.truthy (TagRelation.tagId (CompanyData.rowToRelation row))
                     && p row) ->
      map CompanyData.rowToRelation
        (List.filter p
           (List.filter
              (fun x => JS.truthy (TagRelation.companyId (CompanyData.rowToRelation x))
                        && JS.truthy (TagRelation.tagId (CompanyData.rowToRelation x)))
              rows))
      = map CompanyData.rowToRelation (List.filter kept rows)).
    { intros p Hp. rewrite filter_filter. f_equal.
      apply List.filter_ext. intros row. symmetry. apply Hp. }
    assert (Hvalid : forall row,
      JS.truthy (TagRelation.companyId (CompanyData.rowToRelation row))
      && JS.truthy (TagRelation.tagId (CompanyData.rowToRelation row))
      = negb (field row 1%nat =? "")%string && negb (field row 2%nat =? "")%string).
    { intros row. rewrite Hrow. reflexivity. }
    destruct companyId as [c|].
    + destruct (JS.truthy c) eqn:Hc.
      * rewrite filter_map_swap. apply Hkept.
        intros row. unfold kept, asked. rewrite Hvalid, Hrow.
        cbn [TagRelation.companyId].
        unfold JS.truthy in Hc. apply negb_true_iff in Hc. rewrite Hc. reflexivity.
      * rewrite <- (filter_true
                      (List.filter
                         (fun x => JS.truthy (TagRelation.companyId (CompanyData.rowToRelation x))
                                   && JS.truthy (TagRelation.tagId (CompanyData.rowToRelation x)))
                         rows)) at 1.
        apply Hkept. intros row. unfold kept, asked. rewrite Hvalid.
        unfold JS.truthy in Hc. apply negb_false_iff in Hc. rewrite Hc.
        reflexivity.
    + rewrite <- (filter_true
                    (List.filter
                       (fun x => JS.truthy (TagRelation.companyId (CompanyData.rowToRelation x))
                                 && JS.truthy (TagRelation.tagId (CompanyData.rowToRelation x)))
                       rows)) at 1.
      apply Hkept. intros row. unfold kept, asked. rewrite Hvalid. reflexivity.
  - unfold CompanyData.loadCompanyTagRelations in *. cbv zeta in *.
    destruct companyId as [c|]; [|exact Hall].
    destruct (JS.truthy c); [|exact Hall].
    rewrite Forall_forall in *. intros r Hr. apply list_elem_of_In in Hr.
    apply filter_In in Hr. apply Hall, list_elem_of_In, Hr.
  - intros c -> Hc r. unfold CompanyData.loadCompanyTagRelations. cbv zeta.
    apply truthy_true in Hc. rewrite Hc. rewrite filter_In, String.eqb_eq. reflexivity.
  - reflexivity.
Qed.

Lemma loadCompanyTagRelations_valid_witness :
  CompanyData.loadCompanyTagRelations (Some "c1")
    [["r1"; "c1"; "t1"]; ["r2"; "c2"; "t1"]; ["r3"; "c1"]; [];
     ["r4"; "c1"; "t2"; "jan@example.com"; "2024-01-02T08:00:00.000Z"]]
  = [ TagRelation.Make "r1" "c1" "t1" "" "";
      TagRelation.Make "r4" "c1" "t2" "jan@example.com" "2024-01-02T08:00:00.000Z" ]
  /\ In (TagRelation.Make "r1" "c1" "t1" "" "")
       (CompanyData.loadCompanyTagRelations None
          [["r1"; "c1"; "t1"]; ["r2"; "c2"; "t1"]; ["r3"; "c1"]; [];
           ["r4"; "c1"; "t2"; "jan@example.com"; "2024-01-02T08:00:00.000Z"]]).
Proof.
  pose proof (loadCompanyTagRelations_valid (Some "c1")
                [["r1"; "c1"; "t1"]; ["r2"; "c2"; "t1"]; ["r3"; "c1"]; [];
                 ["r4"; "c1"; "t2"; "jan@example.com"; "2024-01-02T08:00:00.000Z"]])
    as (Heq & _ & Hin & _).
  split; [rewrite Heq; reflexivity|].
  apply (proj1 (Hin "c1" eq_refl ltac:(discriminate)
                  (TagRelation.Make "r1" "c1" "t1" "" ""))).
  rewrite Heq. left. reflexivity.
Defined.

Lemma in_omap_find {A B : Type} (f : A -> option B) (l : list A) (y : B) :
  In y (omap f l) <-> exists x, In x l /\ f x = Some y.
Proof.
  rewrite <- list_elem_of_In, list_elem_of_omap.
  split; intros (x & Hx & Hf); exists x; split; try assumption;
    apply list_elem_of_In; assumption.
Qed.

Lemma omap_length_le {A B : Type} (f : A -> option B) (l : list A) :
  (length (omap f l) <= length l)%nat.
Proof.
  induction l as [|x l IH]; [reflexivity|].
  change (omap f (x :: l))
    with (match f x with Some y => y :: omap f l | None => omap f l end).
  destruct (f x); simpl; lia.
Qed.

(** X22: [getCompanyTags] returns exactly the tags that a relation of
    the company points to, each looked up by id among [allTags] (the
    first tag with the id); a relation to a tag that no longer exists
    is skipped, so there are at most as many tags as the company has
    relations. *)
Theorem getCompanyTags_spec (companyId : string) (allTags : list Tag.t)
    (allRelations : list TagRelation.t) :
  (forall tag,
     In tag (CompanyData.getCompanyTags companyId allTags allRelations) <->
     exists r, In r allRelations /\ TagRelation.companyId r = companyId
               /\ List.find (fun t => (Tag.id t =? TagRelation.tagId r)%string) allTags
                  = Some tag)
  /\ Forall (fun tag => In tag allTags)
       (CompanyData.getCompanyTags companyId allTags allRelations)
  /\ (length (CompanyData.getCompanyTags companyId allTags allRelations)
      <= length (List.filter (fun r => (TagRelation.companyId r =? companyId)%string)
                   allRelations))%nat.
Proof.
  assert (Hin : forall tag,
     In tag (CompanyData.getCompanyTags companyId allTags allRelations) <->
     exists r, In r allRelations /\ TagRelation.companyId r = companyId
               /\ List.find (fun t => (Tag.id t =? TagRelation.tagId r)%string) allTags
                  = Some tag).
  { intros tag. unfold CompanyData.getCompanyTags. cbv zeta. rewrite in_omap_find.
    split.
    - intros (r & Hr & Hf). apply filter_In in Hr. rewrite String.eqb_eq in Hr.
      exists r. tauto.
    - intros (r & Hr & Hc & Hf). exists r. split; [|exact Hf].
      apply filter_In. rewrite String.eqb_eq. auto. }
  split; [exact Hin|]. split.
  - rewrite Forall_forall. intros tag Ht. apply list_elem_of_In in Ht.
    apply Hin in Ht. destruct Ht as (r & _ & _ & Hf). apply find_some in Hf. tauto.
  - unfold CompanyData.getCompanyTags. cbv zeta. apply omap_length_le.
Qed.

Lemma sublist_filter {A : Type} (f : A -> bool) (l : list A) :
  sublist (List.filter f l) l.
Proof.
  induction l as [|x l IH]; simpl; [constructor|].
  destruct (f x); [apply sublist_skip|apply sublist_cons]; exact IH.
Qed.

(** X23: [getCompaniesByTag] returns exactly the companies that some
    relation links to the tag, in the order of [allCompanies] and each
    only as often as it occurs there, however many relations link it. *)
Theorem getCompaniesByTag_spec (tagId : string) (allCompanies : list Company.t)
    (allRelations : list TagRelation.t) :
  (forall c,
     In c (CompanyData.getCompaniesByTag tagId allCompanies allRelations) <->
     In c allCompanies
     /\ exists r, In r allRelations /\ TagRelation.tagId r = tagId
                  /\ TagRelation.companyId r = Company.id c)
  /\ sublist (CompanyData.getCompaniesByTag tagId allCompanies allRelations) allCompanies
  /\ (NoDup allCompanies ->
      NoDup (CompanyData.getCompaniesByTag tagId allCompanies allRelations)).
Proof.
  split; [|split].
  - intros c. unfold CompanyData.getCompaniesByTag. cbv zeta.
    rewrite filter_In, existsb_exists. split.
    + intros (Hc & i & Hi & Heq). split; [exact Hc|].
      apply in_map_iff in Hi. destruct Hi as (r & Hr & Hin).
      apply filter_In in Hin. rewrite String.eqb_eq in Hin, Heq.
      exists r. split; [tauto|]. split; [tauto|congruence].
    + intros (Hc & r & Hr & Ht & Hid). split; [exact Hc|].
      exists (TagRelation.companyId r). split; [|apply String.eqb_eq; exact Hid].
      apply in_map. apply filter_In. rewrite String.eqb_eq. auto.
  - apply sublist_filter.
  - intros Hnd. eapply sublist_NoDup; [exact Hnd|apply sublist_filter].
Qed.

Lemma getCompaniesByTag_spec_witness :
  NoDup (CompanyData.getCompaniesByTag "t1" SampleMore.companies SampleMore.relations)
  /\ map Company.id
       (CompanyData.getCompaniesByTag "t1" SampleMore.companies SampleMore.relations)
     = ["c2"].
Proof.
  split; [|reflexivity].
  apply (proj2 (proj2 (getCompaniesByTag_spec "t1" SampleMore.companies
                         SampleMore.relations))).
  unfold SampleMore.companies.
  apply NoDup_cons. split.
  - rewrite list_elem_of_In. simpl. intros [H|[]]. discriminate H.
  - apply NoDup_cons. split; [|apply NoDup_nil_2].
    rewrite list_elem_of_In. simpl. tauto.
Defined.

(** X24: a tag assigned to a company shows up.  After
    [assignTagToCompany] with a non-empty company id and tag id, the
    relations loaded for that company are the ones from before
    followed by the new one, the relations loaded for any other
    company are as before, and [getCompanyTags] over the reloaded relations
    contains the tag whenever [allTags] has a tag with that id. *)
Theorem assigned_tag_is_listed (env : Env) (companyId tagId : string)
    (rows : list (list string)) :
  companyId <> "" -> tagId <> "" ->
  let rows' := snd (CompanyData.assignTagToCompany env companyId tagId rows) in
  let relation :=
    TagRelation.Make (freshId env) companyId tagId (userEmail env) (nowISO env) in
  CompanyData.loadCompanyTagRelations (Some companyId) rows'
  = (CompanyData.loadCompanyTagRelations (Some companyId) rows ++ [relation])%list
  /\ (forall other, other <> "" -> other <> companyId ->
        CompanyData.loadCompanyTagRelations (Some other) rows'
        = CompanyData.loadCompanyTagRelations (Some other) rows)
  /\ (forall allTags tag,
        List.find (fun t => (Tag.id t =? tagId)%string) allTags = Some tag ->
        In tag (CompanyData.getCompanyTags companyId allTags
                  (CompanyData.loadCompanyTagRelations None rows'))).
Proof.
  intros Hc Ht. cbv zeta.
  unfold CompanyData.assignTagToCompany, DataService.appendRow. cbn [snd].
  assert (Hrel :
    CompanyData.rowToRelation
      [freshId env; companyId; tagId; JS.or_else (userEmail env) ""; nowISO env]
    = TagRelation.Make (freshId env) companyId tagId (userEmail env) (nowISO env)).
  { unfold CompanyData.rowToRelation, DataService.cell. cbn [lookup list_lookup].
    rewrite !or_default_Some_empty, or_else_empty. reflexivity. }
  assert (Hall :
    CompanyData.loadCompanyTagRelations None
      (rows ++ [[freshId env; companyId; tagId; JS.or_else (userEmail env) ""; nowISO env]])
    = (CompanyData.loadCompanyTagRelations None rows
       ++ [TagRelation.Make (freshId env) companyId tagId (userEmail env) (nowISO env)])%list).
  { unfold CompanyData.loadCompanyTagRelations. cbv zeta.
    rewrite map_app, List.filter_app. cbn [map List.filter]. rewrite Hrel.
    cbn [TagRelation.companyId TagRelation.tagId].
    rewrite (proj2 (truthy_true _) Hc), (proj2 (truthy_true _) Ht). reflexivity. }
  assert (Hsome : forall c rs,
    c <> "" ->
    CompanyData.loadCompanyTagRelations (Some c) rs
    = List.filter (fun r => (TagRelation.companyId r =? c)%string)
        (CompanyData.loadCompanyTagRelations None rs)).
  { intros c rs Hne. unfold CompanyData.loadCompanyTagRelations. cbv zeta.
    rewrite (proj2 (truthy_true _) Hne). reflexivity. }
  split; [|split].
  - rewrite !Hsome by assumption. rewrite Hall, List.filter_app.
    cbn [List.filter TagRelation.companyId]. rewrite String.eqb_refl. reflexivity.
  - intros other Hne Hother.
    rewrite !Hsome by assumption. rewrite Hall, List.filter_app.
    cbn [List.filter TagRelation.companyId].
    destruct (String.eqb_spec companyId other); [congruence|].
    rewrite app_nil_r. reflexivity.
  - intros allTags tag Hfind. unfold CompanyData.getCompanyTags. cbv zeta.
    apply in_omap_find.
    exists (TagRelation.Make (freshId env) companyId tagId (userEmail env) (nowISO env)).
    split; [|exact Hfind]. apply filter_In.
    rewrite Hall. split; [apply in_or_app; right; left; reflexivity|].
    apply String.eqb_refl.
Qed.

Lemma assigned_tag_is_listed_witness :
  In (Tag.Make "t1" "VIP" "#3b82f6" "" "" "")
    (CompanyData.getCompanyTags "c1" SampleMore.tags
       (CompanyData.loadCompanyTagRelations None
          (snd (CompanyData.assignTagToCompany Sample.env "c1" "t1"
                  [["r1"; "c2"; "t1"]])))).
Proof.
  apply (proj2 (proj2 (assigned_tag_is_listed Sample.env "c1" "t1" [["r1"; "c2"; "t1"]]
                         ltac:(discriminate) ltac:(discriminate)))
           SampleMore.tags).
  reflexivity.
Defined.

(** ** The history of a company *)

(** X25: what [logCompanyHistory] writes is what [loadCompanyHistory]
    reads.  After logging for a non-empty company id, the history
    loaded for that company is the one from before followed by the new
    entry, with the id and the time the logger drew and the content
    and the provenance tag as given (the type reads as [event] when it
    was given empty), and the history loaded
    for any other company is as before; for an empty company id
    nothing is written. *)
Theorem logged_history_is_loaded (env : Env)
    (companyId type content meta : string) (st : Store) :
  let st' := DataService.logCompanyHistory env companyId type content meta st in
  let entry :=
    HistoryEntry.Make (companyLogId env) companyId (JS.or_else type "event") (companyLogAt env)
      (JS.or_else (userDisplayText env) (userEmail env)) content meta in
  (companyId <> "" ->
     CompanyData.loadCompanyHistory (Some companyId) (sheetHistoryCompanies st')
     = (CompanyData.loadCompanyHistory (Some companyId) (sheetHistoryCompanies st)
        ++ [entry])%list
     /\ (forall other, other <> "" -> other <> companyId ->
           CompanyData.loadCompanyHistory (Some other) (sheetHistoryCompanies st')
           = CompanyData.loadCompanyHistory (Some other) (sheetHistoryCompanies st))
     /\ sheetActivities st' = sheetActivities st
     /\ sheetHistoryContacts st' = sheetHistoryContacts st)
  /\ (companyId = "" -> st' = st).
Proof.
  cbv zeta. unfold DataService.logCompanyHistory. split.
  - intros Hc. rewrite (proj2 (truthy_true _) Hc). simpl negb. cbv iota.
    cbn [sheetHistoryCompanies sheetActivities sheetHistoryContacts].
    unfold DataService.appendRow.
    assert (Hrow :
      CompanyData.rowToHistory (DataService.historyRow env (companyLogId env) (companyLogAt env) companyId type content meta)
      = HistoryEntry.Make (companyLogId env) companyId (JS.or_else type "event") (companyLogAt env)
          (JS.or_else (userDisplayText env) (userEmail env)) content meta).
    { unfold CompanyData.rowToHistory, DataService.historyRow, DataService.cell.
      cbn [lookup list_lookup]. rewrite !or_default_Some_empty, or_else_empty.
      unfold JS.or_default, JS.or_else. destruct (JS.truthy type); reflexivity. }
    assert (Hsome : forall c rs,
      c <> "" ->
      CompanyData.loadCompanyHistory (Some c) rs
      = List.filter (fun h => (HistoryEntry.companyId h =? c)%string)
          (CompanyData.loadCompanyHistory None rs)).
    { intros c rs Hne. unfold CompanyData.loadCompanyHistory. cbv zeta.
      rewrite (proj2 (truthy_true _) Hne). reflexivity. }
    assert (Hall :
      CompanyData.loadCompanyHistory None
        (sheetHistoryCompanies st
         ++ [DataService.historyRow env (companyLogId env) (companyLogAt env) companyId type content meta])
      = (CompanyData.loadCompanyHistory None (sheetHistoryCompanies st)
         ++ [HistoryEntry.Make (companyLogId env) companyId (JS.or_else type "event")
               (companyLogAt env) (JS.or_else (userDisplayText env) (userEmail env))
               content meta])%list).
    { unfold CompanyData.loadCompanyHistory. cbv zeta.
      rewrite map_app, List.filter_app. cbn [map List.filter]. rewrite Hrow.
      cbn [HistoryEntry.companyId]. rewrite (proj2 (truthy_true _) Hc). reflexivity. }
    split; [|split; [|split; reflexivity]].
    + rewrite !Hsome by assumption. rewrite Hall, List.filter_app.
      cbn [List.filter HistoryEntry.companyId]. rewrite String.eqb_refl. reflexivity.
    + intros other Hne Hother. rewrite !Hsome by assumption.
      rewrite Hall, List.filter_app. cbn [List.filter HistoryEntry.companyId].
      destruct (String.eqb_spec companyId other); [congruence|].
      rewrite app_nil_r. reflexivity.
  - intros ->. reflexivity.
Qed.

Lemma logged_history_is_loaded_witness :
  CompanyData.loadCompanyHistory (Some "c1")
    (sheetHistoryCompanies
       (DataService.logCompanyHistory Sample.env "c1" "note" "Rozmowa" "" Sample.store))
  = [HistoryEntry.Make (companyLogId Sample.env) "c1" "note" (companyLogAt Sample.env) "Jan"
       "Rozmowa" ""].
Proof.
  apply (proj1 (proj1 (logged_history_is_loaded Sample.env "c1" "note" "Rozmowa" ""
                         Sample.store) ltac:(discriminate))).
Defined.

(** ** The hash behind the response cache *)

Lemma toInt32_range (z : Z) : - 2 ^ 31 <= AIService.toInt32 z < 2 ^ 31.
Proof.
  unfold AIService.toInt32.
  pose proof (Z.mod_pos_bound (z + 2 ^ 31) (2 ^ 32) ltac:(lia)). lia.
Qed.

Lemma toInt32_shift (z k : Z) :
  AIService.toInt32 (z + k * 2 ^ 32) = AIService.toInt32 z.
Proof.
  unfold AIService.toInt32.
  replace (z + k * 2 ^ 32 + 2 ^ 31) with (z + 2 ^ 31 + k * 2 ^ 32) by lia.
  rewrite Z_mod_plus_full. reflexivity.
Qed.

Lemma toInt32_offset (z : Z) : exists k, AIService.toInt32 z = z + k * 2 ^ 32.
Proof.
  unfold AIService.toInt32. exists (- ((z + 2 ^ 31) / 2 ^ 32)).
  pose proof (Z_div_mod_eq_full (z + 2 ^ 31) (2 ^ 32)). lia.
Qed.

Lemma toInt32_small (z : Z) : - 2 ^ 31 <= z < 2 ^ 31 -> AIService.toInt32 z = z.
Proof.
  intros Hz. unfold AIService.toInt32. rewrite Z.mod_small by lia. lia.
Qed.

Lemma hashStep_polynomial (p c : Z) :
  AIService.hashStep (AIService.toInt32 p) c = AIService.toInt32 (31 * p + c).
Proof.
  unfold AIService.hashStep, AIService.shiftLeft5. cbv zeta.
  rewrite (toInt32_small (AIService.toInt32 p)) by apply toInt32_range.
  destruct (toInt32_offset p) as [k2 Hk2].
  destruct (toInt32_offset (AIService.toInt32 p * 2 ^ 5)) as [k1 Hk1].
  rewrite Hk1, Hk2.
  replace ((p + k2 * 2 ^ 32) * 2 ^ 5 + k1 * 2 ^ 32 - (p + k2 * 2 ^ 32) + c)
    with (31 * p + c + (31 * k2 + k1) * 2 ^ 32) by lia.
  apply toInt32_shift.
Qed.

Lemma hash_fold (str : list Z) :
  forall p,
    fold_left AIService.hashStep str (AIService.toInt32 p)
    = AIService.toInt32 (fold_left (fun h c => 31 * h + c) str p).
Proof.
  induction str as [|c str IH]; intros p; simpl; [reflexivity|].
  rewrite hashStep_polynomial. apply IH.
Qed.

(** X26: the number [simpleHash] computes is a signed 32-bit integer,
    namely the polynomial [s[0]*31^(n-1) + ... + s[n-1]] of the code
    units wrapped to 32 bits; it is that polynomial itself while the
    polynomial fits, and 0 for the empty string. *)
Theorem simpleHash_is_polynomial (str : list Z) :
  - 2 ^ 31 <= AIService.hashValue str < 2 ^ 31
  /\ AIService.hashValue str = AIService.toInt32 (AIService.polynomial str)
  /\ (- 2 ^ 31 <= AIService.polynomial str < 2 ^ 31 ->
      AIService.hashValue str = AIService.polynomial str)
  /\ AIService.simpleHash [] = "0".
Proof.
  assert (Hpoly : AIService.hashValue str = AIService.toInt32 (AIService.polynomial str)).
  { unfold AIService.hashValue, AIService.polynomial.
    change 0 with (AIService.toInt32 0) at 1. apply hash_fold. }
  split; [rewrite Hpoly; apply toInt32_range|].
  split; [exact Hpoly|].
  split; [|reflexivity].
  intros Hfit. rewrite Hpoly. apply toInt32_small, Hfit.
Qed.

Lemma simpleHash_is_polynomial_witness :
  AIService.hashValue (AIService.codeUnits "abc") = 96354
  /\ AIService.simpleHash (AIService.codeUnits "abc") = "22ci".
Proof.
  split; [|reflexivity].
  apply (proj1 (proj2 (proj2 (simpleHash_is_polynomial (AIService.codeUnits "abc"))))).
  split; [vm_compute; discriminate|vm_compute; reflexivity].
Defined.

(** X27: the cache key is not injective.  Two prompts that differ only
    in that one has the code units of "Aa" where the other has those
    of "BB" get the same key, for every system prompt and temperature,
    so the response cached for one is the one looked up for the other. *)
Theorem cache_key_collides (before after systemPrompt temperature : list Z) :
  (before ++ [65; 97] ++ after)%list <> (before ++ [66; 66] ++ after)%list
  /\ AIService.generateCacheKey (before ++ [65; 97] ++ after) systemPrompt temperature
     = AIService.generateCacheKey (before ++ [66; 66] ++ after) systemPrompt temperature.
Proof.
  split.
  - intros H. apply app_inv_head in H. discriminate H.
  - unfold AIService.generateCacheKey, AIService.simpleHash, AIService.hashValue.
    cbv zeta. f_equal.
    change 0 with (AIService.toInt32 0). rewrite !hash_fold. f_equal.
    assert (Hshape : forall mid : list Z,
      (systemPrompt ++ [124] ++ (before ++ mid ++ after) ++ [124] ++ temperature)%list
      = ((systemPrompt ++ [124] ++ before) ++ mid ++ (after ++ [124] ++ temperature))%list).
    { intros mid. simpl. rewrite <- !app_assoc. simpl. reflexivity. }
    rewrite !Hshape, !fold_left_app. do 3 f_equal. simpl. lia.
Qed.

Example cache_key_collision_sample :
  AIService.generateCacheKey (AIService.codeUnits "Aa") (AIService.codeUnits "sys")
    (AIService.codeUnits "0.7")
  = AIService.generateCacheKey (AIService.codeUnits "BB") (AIService.codeUnits "sys")
      (AIService.codeUnits "0.7").
Proof. reflexivity. Qed.

(** ** What a mounted form hands back *)




Lemma plain_attrText (s : string) :
  FormValues.plain s = true -> CustomFieldsCommon.attrText s = s.
Proof.
  unfold FormValues.plain.
  induction s as [|c s IH]; simpl; [reflexivity|].
  intros H. apply andb_true_iff in H as [Hc Hs]. rewrite (IH Hs).
  destruct (Ascii.eqb c "010") eqn:E; [|reflexivity].
  apply Ascii.eqb_eq in E. subst c. discriminate Hc.
Qed.






Lemma safePrefix_nonempty (idPrefix : string) :
  FormValues.safePrefix idPrefix = true -> idPrefix <> "".
Proof.
  unfold FormValues.safePrefix. intros H ->. discriminate H.
Qed.

Section FormRoundTrip.

Variable parseOptions : FieldDef.t -> list string.
Variable parseNumber : string -> JS.number.

Lemma render_id (def : FieldDef.t) (caption t : option string)
    (value : JS.value) (idPrefix : string) :
  Dom.el_id (CustomFieldsCommon.render parseOptions def caption t value idPrefix)
  = (idPrefix ++ CustomFieldsCommon.safeId (FieldDef.key def))%string.
Proof.
  unfold CustomFieldsCommon.render. cbv zeta.
  repeat match goal with
         | |- context [if ?b then _ else _] => destruct b
         end; reflexivity.
Qed.

(** The loop of [collect] over a container that holds, under the id
    of every enabled definition, the control [R] gives for it. *)
Lemma collect_loop1_reads (container : list Dom.control) (idPrefix : string)
    (R : FieldDef.t -> Dom.control) :
  idPrefix <> "" ->
  forall (defs : list FieldDef.t) (acc : gmap string JS.value),
    (forall d, In d defs -> FieldDef.enabled d = true ->
       List.find (fun c => (Dom.el_id c
                            =? idPrefix ++ CustomFieldsCommon.safeId (FieldDef.key d))%string)
         container = Some (R d)) ->
    NoDup (map FieldDef.key (List.filter FieldDef.enabled defs)) ->
    exists result,
      CustomFieldsUI1.collect_loop parseNumber container idPrefix defs acc
      = Collected result
      /\ (forall d, In d defs -> FieldDef.enabled d = true ->
            FieldDef.key d <> "__proto__" ->
            result !! FieldDef.key d
            = Some (CustomFieldsCommon.readControl parseNumber (FieldDef.type d) (R d)))
      /\ (forall k,
            k = "__proto__"
            \/ ~ (exists d, In d defs /\ FieldDef.enabled d = true /\ FieldDef.key d = k) ->
            result !! k = acc !! k).
Proof.
  intros Hprefix.
  assert (Hid : forall s, (idPrefix ++ s =? "")%string = false).
  { intros s. apply String.eqb_neq. destruct idPrefix; [congruence|discriminate]. }
  induction defs as [|def defs IH]; intros acc Hfind Hnd.
  - exists acc. split; [reflexivity|]. split; [intros d []|reflexivity].
  - cbn [CustomFieldsUI1.collect_loop]. cbn [List.filter] in Hnd.
    destruct (FieldDef.enabled def) eqn:Hen; cbn [negb].
    + cbv zeta. unfold Dom.querySelectorById. rewrite Hid.
      rewrite (Hfind def (or_introl eq_refl) Hen).
      cbn [map] in Hnd. apply NoDup_cons in Hnd as [Hfresh Hnd].
      destruct (IH (PlainObject.set (FieldDef.key def)
                      (CustomFieldsCommon.readControl parseNumber (FieldDef.type def) (R def))
                      acc)
                  (fun d Hd => Hfind d (or_intror Hd)) Hnd)
        as (result & Hrun & Hread & Hkeep).
      exists result. split; [exact Hrun|]. split.
      * intros d [<-|Hd] Hd_en Hproto; [|apply Hread; assumption].
        rewrite Hkeep.
        -- unfold PlainObject.set. apply String.eqb_neq in Hproto. rewrite Hproto.
           apply lookup_insert_eq.
        -- right. intros (d' & Hd' & Hen' & Hkey). apply Hfresh.
           rewrite <- Hkey. apply list_elem_of_In, in_map, filter_In. split; assumption.
      * intros k Hk. rewrite Hkeep.
        -- unfold PlainObject.set.
           destruct (String.eqb_spec (FieldDef.key def) "__proto__") as [Hp|Hp];
             [reflexivity|].
           apply lookup_insert_ne. intros Heq. destruct Hk as [Hk|Hk].
           ++ congruence.
           ++ apply Hk. exists def. split; [left; reflexivity|]. split; assumption.
        -- destruct Hk as [Hk|Hk]; [left; exact Hk|right].
           intros (d' & Hd' & Hen' & Hkey). apply Hk.
           exists d'. split; [right; exact Hd'|]. split; assumption.
    + destruct (IH acc (fun d Hd => Hfind d (or_intror Hd)) Hnd)
        as (result & Hrun & Hread & Hkeep).
      exists result. split; [exact Hrun|]. split.
      * intros d [<-|Hd] Hd_en; [congruence|apply Hread; assumption].
      * intros k Hk. apply Hkeep.
        destruct Hk as [Hk|Hk]; [left; exact Hk|right].
        intros (d' & Hd' & Hen' & Hkey). apply Hk.
        exists d'. split; [right; exact Hd'|]. split; assumption.
Qed.



End FormRoundTrip.


(** A field whose key is [__proto__]: the form shows the text of the
    prototype for it, and nothing is handed back under the key. *)
Example proto_key_is_not_collected :
  let def :=
    FieldDef.Make "__proto__" (Some "Proto") (Some "Proto") (Some "text") (Some "text")
      "" false true (Some 0) in
  exists container,
    CustomFieldsUI1.mount Sample.parseOptions (Some []) [def] ∅ "cf_" = Some container
    /\ map Dom.el_value container = ["[object Object]"]
    /\ CustomFieldsUI1.collect Sample.parseNumber (Some container) [def] "cf_"
       = Collected ∅.
Proof. eexists. vm_compute. repeat split; reflexivity. Qed.

Section SharedControl.

Variable parseOptions : FieldDef.t -> list string.
Variable parseNumber : string -> JS.number.

Lemma read_text (def : FieldDef.t) (caption t t' : option string)
    (s : string) (idPrefix : string) :
  CustomFieldsCommon.kindOf t = "text" ->
  CustomFieldsCommon.kindOf t' = "text" ->
  FormValues.plain s = true ->
  CustomFieldsCommon.readControl parseNumber t'
    (CustomFieldsCommon.render parseOptions def caption t (JS.VStr s) idPrefix)
  = JS.VStr s.
Proof.
  intros Ht Ht' Hplain.
  unfold CustomFieldsCommon.readControl, CustomFieldsCommon.render. cbv zeta.
  rewrite Ht, Ht'.
  cbn [String.eqb Ascii.eqb Bool.eqb Dom.el_value JS.nullish_or JS.toString].
  rewrite (plain_attrText _ Hplain). reflexivity.
Qed.

(** X29: two enabled text fields whose keys differ but have the same
    safe id get the same control id, and [collect] reads the control
    that comes first in the form for both of them: under the key of
    the second field it hands back the value mounted for the first
    (neither key being [__proto__], under which nothing is handed
    back). *)
Theorem colliding_keys_share_control (containerEl : list Dom.control)
    (first second : FieldDef.t) (values : gmap string JS.value)
    (idPrefix s1 s2 : string) :
  FormValues.safePrefix idPrefix = true ->
  FieldDef.enabled first = true -> FieldDef.enabled second = true ->
  FieldDef.key first <> FieldDef.key second ->
  FieldDef.key first <> "__proto__" -> FieldDef.key second <> "__proto__" ->
  CustomFieldsCommon.safeId (FieldDef.key first)
  = CustomFieldsCommon.safeId (FieldDef.key second) ->
  CustomFieldsCommon.kindOf (FieldDef.type first) = "text" ->
  CustomFieldsCommon.kindOf (FieldDef.type second) = "text" ->
  CustomFieldsCommon.byOrder first second <= 0 ->
  values !! FieldDef.key first = Some (JS.VStr s1) ->
  values !! FieldDef.key second = Some (JS.VStr s2) ->
  FormValues.plain s1 = true ->
  exists container result,
    CustomFieldsUI1.mount parseOptions (Some containerEl) [first; second] values idPrefix
    = Some container
    /\ length container = 2%nat
    /\ CustomFieldsUI1.collect parseNumber (Some container) [first; second] idPrefix
       = Collected result
    /\ result !! FieldDef.key first = Some (JS.VStr s1)
    /\ result !! FieldDef.key second = Some (JS.VStr s1).
Proof.
  intros Hsafe He1 He2 Hkeys Hp1 Hp2 Hids Hk1 Hk2 Hord Hv1 Hv2 Hplain.
  pose proof (safePrefix_nonempty _ Hsafe) as Hprefix.
  set (R := fun def : FieldDef.t =>
              CustomFieldsCommon.render parseOptions def
                (FieldDef.name def) (FieldDef.type def)
                (CustomFieldsCommon.valueOf values (FieldDef.key def)) idPrefix).
  assert (Hmount :
    CustomFieldsUI1.mount parseOptions (Some containerEl) [first; second] values idPrefix
    = Some [R first; R second]).
  { unfold CustomFieldsUI1.mount. cbv zeta. cbn [List.filter].
    rewrite He1, He2. unfold Array.sort. cbn [foldr Array.insert_sorted].
    apply Z.leb_le in Hord. rewrite Hord.
    cbn [map concat]. unfold CustomFieldsUI1.buildField. rewrite He1, He2.
    reflexivity. }
  assert (Hfind : forall d, In d [first; second] -> FieldDef.enabled d = true ->
    List.find (fun c => (Dom.el_id c
                         =? idPrefix ++ CustomFieldsCommon.safeId (FieldDef.key d))%string)
      [R first; R second] = Some (R first)).
  { intros d Hd _. cbn [List.find]. unfold R at 1. rewrite render_id.
    assert (Hsame : CustomFieldsCommon.safeId (FieldDef.key d)
                    = CustomFieldsCommon.safeId (FieldDef.key first)).
    { destruct Hd as [<-|[<-|[]]]; [reflexivity|symmetry; exact Hids]. }
    rewrite Hsame, String.eqb_refl. reflexivity. }
  assert (Hnd : NoDup (map FieldDef.key (List.filter FieldDef.enabled [first; second]))).
  { cbn [List.filter]. rewrite He1, He2. cbn [map].
    apply NoDup_cons. split; [|apply NoDup_singleton].
    intros Hin. apply list_elem_of_In in Hin. destruct Hin as [Heq|[]].
    apply Hkeys. symmetry. exact Heq. }
  destruct (collect_loop1_reads parseNumber [R first; R second] idPrefix
              (fun _ => R first) Hprefix [first; second] ∅ Hfind Hnd)
    as (result & Hrun & Hread & _).
  exists [R first; R second], result.
  split; [exact Hmount|]. split; [reflexivity|]. split; [exact Hrun|].
  assert (Hvalue : CustomFieldsCommon.valueOf values (FieldDef.key first) = JS.VStr s1).
  { unfold CustomFieldsCommon.valueOf. rewrite Hv1. reflexivity. }
  split.
  - rewrite (Hread first (or_introl eq_refl) He1 Hp1). f_equal.
    unfold R. rewrite Hvalue. apply read_text; assumption.
  - rewrite (Hread second (or_intror (or_introl eq_refl)) He2 Hp2). f_equal.
    unfold R. rewrite Hvalue. apply read_text; assumption.
Qed.

End SharedControl.

Lemma colliding_keys_share_control_witness :
  exists container result,
    CustomFieldsUI1.mount Sample.parseOptions (Some [])
      [SampleForm.netPrice; SampleForm.net_price] SampleForm.prices "cf_"
    = Some container
    /\ CustomFieldsUI1.collect Sample.parseNumber (Some container)
         [SampleForm.netPrice; SampleForm.net_price] "cf_"
       = Collected result
    /\ result !! "net price" = Some (JS.VStr "100")
    /\ result !! "net_price" = Some (JS.VStr "100").
Proof.
  destruct (colliding_keys_share_control Sample.parseOptions Sample.parseNumber []
              SampleForm.netPrice SampleForm.net_price SampleForm.prices
              "cf_" "100" "95" eq_refl eq_refl eq_refl ltac:(discriminate)
              ltac:(discriminate) ltac:(discriminate) eq_refl
              eq_refl eq_refl ltac:(vm_compute; discriminate) eq_refl eq_refl eq_refl)
    as (container & result & Hmount & _ & Hrun & H1 & H2).
  exists container, result. repeat split; assumption.
Defined.

(** ** The response cache of the AI service *)

Section ResponseCache.

Variable reply : AIContent.request -> nat -> AIContent.answer.

(** X30: [generateContent] without a key or when switched off throws
    and sends nothing.  Otherwise, when the cache is passed over
    ([forceRefresh]) or holds no entry younger than the TTL under the
    key, exactly one request goes to the chosen provider, and the
    response it gives is returned and stored under the key; from then
    on every call whose cache key is the same (the same texts, or
    texts that collide) is answered with that response from the cache,
    without a request, while the entry's age is below the TTL, and
    sends a request of its own once the age has reached the TTL. *)
Theorem generateContent_caches (svc : AIContent.service)
    (prompt systemPrompt temperature : list Z) (forceRefresh : bool)
    (now later : Z) :
  let cacheKey := AIService.generateCacheKey prompt systemPrompt temperature in
  let rq := AIContent.Request (AIContent.chosen svc) prompt systemPrompt temperature in
  let out :=
    AIContent.generateContent reply prompt systemPrompt temperature forceRefresh
      now later svc in
  (AIContent.enabled svc = false \/ AIContent.API_KEY svc = "" ->
   out = (AIContent.Thrown "AI is not enabled. Please check settings.", svc))
  /\ (AIContent.enabled svc = true -> AIContent.API_KEY svc <> "" ->
      (forceRefresh = false ->
       forall entry, AIContent.responseCache svc !! cacheKey = Some entry ->
                     AIContent.CACHE_TTL <= now - AIContent.timestamp entry) ->
      forall r, reply rq (length (AIContent.requests svc)) = AIContent.Answered r ->
      fst out = AIContent.Returned r
      /\ AIContent.requests (snd out) = (AIContent.requests svc ++ [rq])%list
      /\ AIContent.responseCache (snd out)
         = <[cacheKey := AIContent.Cached r later]> (AIContent.responseCache svc)
      /\ (forall prompt' systemPrompt' temperature' now' later',
            AIService.generateCacheKey prompt' systemPrompt' temperature' = cacheKey ->
            let again :=
              AIContent.generateContent reply prompt' systemPrompt' temperature' false
                now' later' (snd out) in
            (now' - later < AIContent.CACHE_TTL ->
             again = (AIContent.Returned r, snd out))
            /\ (AIContent.CACHE_TTL <= now' - later ->
                AIContent.requests (snd again)
                = (AIContent.requests (snd out)
                   ++ [AIContent.Request (AIContent.chosen svc)
                         prompt' systemPrompt' temperature'])%list))).
Proof.
  intros cacheKey rq out.
  destruct svc as [key prov en cache reqs].
  subst out. unfold AIContent.generateContent.
  cbn [AIContent.API_KEY AIContent.PROVIDER AIContent.enabled
         AIContent.responseCache AIContent.requests] in *.
  split.
  - intros [-> | ->]; [reflexivity|]. destruct en; reflexivity.
  - intros -> Hkey Hstale r Hreply.
    assert (Htruthy : JS.truthy key = true).
    { destruct (JS.truthy key) eqn:E; [reflexivity|].
      apply truthy_false in E. contradiction. }
    rewrite Htruthy. cbn [negb orb]. cbv zeta. fold cacheKey.
    set (svc := AIContent.Service key prov true cache reqs) in *.
    set (stored := AIContent.Service key prov true
                     (<[cacheKey := AIContent.Cached r later]> cache) (reqs ++ [rq])).
    assert (Hout :
      match
        (if negb forceRefresh
         then match cache !! cacheKey with
              | Some entry =>
                  if now - AIContent.timestamp entry <? AIContent.CACHE_TTL
                  then (Some (AIContent.response entry), svc)
                  else (None, AIContent.withCache svc (delete cacheKey cache))
              | None => (None, svc)
              end
         else (None, svc))
      with
      | (Some r0, svc0) => (AIContent.Returned r0, svc0)
      | (None, svc0) =>
          match AIContent.call reply svc0 prompt systemPrompt temperature with
          | (AIContent.Failed e, svc1) => (AIContent.Thrown e, svc1)
          | (AIContent.Answered r0, svc1) =>
              (AIContent.Returned r0,
               AIContent.withCache svc1
                 (<[cacheKey := AIContent.Cached r0 later]>
                    (AIContent.responseCache svc1)))
          end
      end = (AIContent.Returned r, stored)).
    { assert (Hcall : forall c,
        AIContent.call reply (AIContent.Service key prov true c reqs)
          prompt systemPrompt temperature
        = (AIContent.Answered r, AIContent.Service key prov true c (reqs ++ [rq]))).
      { intros c. unfold AIContent.call. cbv zeta.
        cbn [AIContent.API_KEY AIContent.PROVIDER AIContent.enabled
               AIContent.responseCache AIContent.requests].
        change (AIContent.chosen (AIContent.Service key prov true c reqs))
          with (AIContent.chosen svc).
        fold rq. rewrite Hreply. reflexivity. }
      destruct forceRefresh; cbn [negb].
      - unfold svc. rewrite Hcall. reflexivity.
      - destruct (cache !! cacheKey) as [entry|] eqn:Hentry.
        + pose proof (Hstale eq_refl entry eq_refl) as Hage.
          apply Z.ltb_ge in Hage. rewrite Hage.
          unfold svc, AIContent.withCache.
          cbn [AIContent.API_KEY AIContent.PROVIDER AIContent.enabled
                 AIContent.responseCache AIContent.requests].
          rewrite Hcall.
          cbn [AIContent.API_KEY AIContent.PROVIDER AIContent.enabled
                 AIContent.responseCache AIContent.requests].
          rewrite insert_delete_eq. reflexivity.
        + unfold svc. rewrite Hcall. reflexivity. }
    rewrite Hout. cbn [fst snd]. subst stored.
    cbn [AIContent.requests AIContent.responseCache].
    split; [reflexivity|]. split; [reflexivity|]. split; [reflexivity|].
    intros prompt' systemPrompt' temperature' now' later' Hsame.
    cbv zeta. unfold AIContent.generateContent.
    cbn [AIContent.API_KEY AIContent.PROVIDER AIContent.enabled
           AIContent.responseCache AIContent.requests].
    rewrite Htruthy. cbn [negb orb]. rewrite Hsame.
    rewrite lookup_insert_eq. cbn [AIContent.timestamp AIContent.response].
    split.
    + intros Hfresh. apply Z.ltb_lt in Hfresh. rewrite Hfresh. reflexivity.
    + intros Hold. apply Z.ltb_ge in Hold. rewrite Hold.
      unfold AIContent.call, AIContent.withCache. cbv zeta.
      cbn [AIContent.API_KEY AIContent.PROVIDER AIContent.enabled
             AIContent.responseCache AIContent.requests].
      match goal with
      | |- context [reply ?q ?n] => destruct (reply q n)
      end; reflexivity.
Qed.

End ResponseCache.

Lemma generateContent_caches_witness :
  let first :=
    AIContent.generateContent SampleAI.reply (AIService.codeUnits "Aa")
      (AIService.codeUnits "sys") (AIService.codeUnits "0.7") false 1000 2000
      SampleAI.service in
  fst first = AIContent.Returned "answer 0"
  /\ AIContent.generateContent SampleAI.reply (AIService.codeUnits "BB")
       (AIService.codeUnits "sys") (AIService.codeUnits "0.7") false 3000 4000
       (snd first)
     = (AIContent.Returned "answer 0", snd first).
Proof.
  intros first.
  destruct (generateContent_caches SampleAI.reply SampleAI.service
              (AIService.codeUnits "Aa") (AIService.codeUnits "sys")
              (AIService.codeUnits "0.7") false 1000 2000) as [_ H].
  destruct (H eq_refl ltac:(discriminate)
              ltac:(intros _ entry Hentry; vm_compute in Hentry; discriminate Hentry)
              "answer 0" eq_refl) as (Hfirst & _ & _ & Hagain).
  split; [exact Hfirst|].
  apply (Hagain (AIService.codeUnits "BB") (AIService.codeUnits "sys")
           (AIService.codeUnits "0.7") 3000 4000 eq_refl).
  reflexivity.
Defined.
